(** * CabinetSense knowledge-base archiver: crawler, page archiver and
      release harvester ([scrap_pdf.py], [scrap_wiki.py])

    Python [str] and [bytes] values are modelled as [string], i.e. as the
    sequence of bytes of their UTF-8 encoding.  Every character test made by
    the scripts is against ASCII characters, so working on the encoded bytes
    gives the same answers as working on code points; the white space that
    separates the values of [class] and [rel] is not all ASCII, and is
    recognised by its UTF-8 sequences. *)

From Stdlib Require Import NArith List Ascii String Bool Lia.
From stdpp Require Import base option gmap strings list fin_maps.

Local Open Scope string_scope.

(* ===================================================================== *)
(** ** Python string primitives *)
(* ===================================================================== *)

Module PyStr.

Definition code (c : ascii) : N := N_of_ascii c.

Definition between (lo hi : N) (c : ascii) : bool :=
  (lo <=? code c)%N && (code c <=? hi)%N.

Definition is_upper (c : ascii) : bool := between 65 90 c.
Definition is_lower (c : ascii) : bool := between 97 122 c.
Definition is_digit (c : ascii) : bool := between 48 57 c.
Definition is_alpha (c : ascii) : bool := is_upper c || is_lower c.
(** The class [[A-Za-z0-9]]. *)
Definition is_alnum (c : ascii) : bool := is_alpha c || is_digit c.
Definition is_ascii (c : ascii) : bool := (code c <? 128)%N.

Definition lower_char (c : ascii) : ascii :=
  if is_upper c then ascii_of_N (code c + 32) else c.

(** [s.lower()], on the ASCII letters. *)
Fixpoint lower (s : string) : string :=
  match s with
  | EmptyString => EmptyString
  | String c r => String (lower_char c) (lower r)
  end.

Fixpoint forallb_s (p : ascii -> bool) (s : string) : bool :=
  match s with
  | EmptyString => true
  | String c r => p c && forallb_s p r
  end.

Fixpoint existsb_s (p : ascii -> bool) (s : string) : bool :=
  match s with
  | EmptyString => false
  | String c r => p c || existsb_s p r
  end.

(** [c in s] for a single character. *)
Definition has_char (c : ascii) (s : string) : bool :=
  existsb_s (Ascii.eqb c) s.

Definition is_empty (s : string) : bool :=
  match s with EmptyString => true | _ => false end.

(** [s.startswith(p)]. *)
Definition startswith (p s : string) : bool := String.prefix p s.

Fixpoint rev_onto (s acc : string) : string :=
  match s with
  | EmptyString => acc
  | String c r => rev_onto r (String c acc)
  end.

Definition reverse (s : string) : string := rev_onto s EmptyString.

(** [s.endswith(p)]. *)
Definition endswith (p s : string) : bool :=
  String.prefix (reverse p) (reverse s).

(** [needle in hay]. *)
Fixpoint contains (needle hay : string) : bool :=
  String.prefix needle hay ||
  match hay with
  | EmptyString => false
  | String _ r => contains needle r
  end.

Fixpoint drop (n : nat) (s : string) : string :=
  match n, s with
  | O, _ => s
  | S _, EmptyString => EmptyString
  | S k, String _ r => drop k r
  end.

Fixpoint take (n : nat) (s : string) : string :=
  match n, s with
  | O, _ => EmptyString
  | S _, EmptyString => EmptyString
  | S k, String c r => String c (take k r)
  end.

Fixpoint take_while (p : ascii -> bool) (s : string) : string :=
  match s with
  | EmptyString => EmptyString
  | String c r => if p c then String c (take_while p r) else EmptyString
  end.

Fixpoint drop_while (p : ascii -> bool) (s : string) : string :=
  match s with
  | EmptyString => EmptyString
  | String c r => if p c then drop_while p r else s
  end.

(** [s.partition(c)] for a one-character separator: the text before the
    first [c] and the text after it, or [None] when [c] does not occur. *)
Fixpoint cut (c : ascii) (s : string) : option (string * string) :=
  match s with
  | EmptyString => None
  | String a r =>
      if Ascii.eqb a c then Some (EmptyString, r)
      else match cut c r with
           | Some (b, e) => Some (String a b, e)
           | None => None
           end
  end.

(** [s.split(c)[0]]. *)
Definition before (c : ascii) (s : string) : string :=
  match cut c s with Some (b, _) => b | None => s end.

(** [s.split(c)] for a one-character separator. *)
Fixpoint split (c : ascii) (s : string) : list string :=
  match s with
  | EmptyString => [EmptyString]
  | String a r =>
      if Ascii.eqb a c then EmptyString :: split c r
      else match split c r with
           | h :: t => String a h :: t
           | [] => [String a EmptyString]
           end
  end.

(** [s.lstrip(chars)], [s.rstrip(chars)] and [s.strip(chars)] with the
    character set given as a predicate. *)
Definition lstrip (p : ascii -> bool) (s : string) : string := drop_while p s.
Definition rstrip (p : ascii -> bool) (s : string) : string :=
  reverse (drop_while p (reverse s)).
Definition strip (p : ascii -> bool) (s : string) : string :=
  rstrip p (lstrip p s).

(** [s.replace(c, "")] for a set of characters. *)
Fixpoint remove_chars (p : ascii -> bool) (s : string) : string :=
  match s with
  | EmptyString => EmptyString
  | String c r => if p c then remove_chars p r else String c (remove_chars p r)
  end.

(** [s.replace(a, b)] for single characters. *)
Fixpoint replace_char (a b : ascii) (s : string) : string :=
  match s with
  | EmptyString => EmptyString
  | String c r =>
      String (if Ascii.eqb c a then b else c) (replace_char a b r)
  end.

(** Position of the last occurrence of [c] in [s] ([s.rfind(c)]). *)
Fixpoint rfind_from (c : ascii) (s : string) (i : nat) (acc : option nat)
  : option nat :=
  match s with
  | EmptyString => acc
  | String a r =>
      rfind_from c r (S i) (if Ascii.eqb a c then Some i else acc)
  end.

Definition rfind (c : ascii) (s : string) : option nat :=
  rfind_from c s 0 None.

Definition is_slash (c : ascii) : bool := Ascii.eqb c "/".

(** [x or default] on strings: the empty string is false. *)
Definition or_default (x default : string) : string :=
  if is_empty x then default else x.

End PyStr.

(* ===================================================================== *)
(** ** [hashlib.sha1] (FIPS 180-4, section 6.1) on 32-bit words held in [N] *)
(* ===================================================================== *)

Module Sha1.

Local Open Scope N_scope.

Definition mask32 : N := 4294967295.
Definition wrap (x : N) : N := N.land x mask32.
Definition add32 (x y : N) : N := wrap (x + y).
Definition rotl (n x : N) : N :=
  wrap (N.lor (N.shiftl x n) (N.shiftr x (32 - n))).
Definition not32 (x : N) : N := N.lxor x mask32.

Definition f_round (t : nat) (b c d : N) : N :=
  if (t <? 20)%nat then N.lor (N.land b c) (N.land (not32 b) d)
  else if (t <? 40)%nat then N.lxor (N.lxor b c) d
  else if (t <? 60)%nat then
    N.lor (N.lor (N.land b c) (N.land b d)) (N.land c d)
  else N.lxor (N.lxor b c) d.

Definition k_round (t : nat) : N :=
  if (t <? 20)%nat then 1518500249
  else if (t <? 40)%nat then 1859775393
  else if (t <? 60)%nat then 2400959708
  else 3395469782.

Definition bytes_of (s : string) : list N :=
  map N_of_ascii (list_ascii_of_string s).

Definition be64 (n : N) : list N :=
  map (fun i => N.land (N.shiftr n (8 * i)) 255) [7; 6; 5; 4; 3; 2; 1; 0].

(** Padding: a one bit, zero bits up to 448 mod 512, the bit length. *)
Definition pad (msg : list N) : list N :=
  let len := N.of_nat (List.length msg) in
  let zeros := N.to_nat ((119 - len mod 64) mod 64) in
  msg ++ 128 :: repeat 0 zeros ++ be64 (8 * len).

Fixpoint words_of (fuel : nat) (bs : list N) : list N :=
  match fuel, bs with
  | S k, b0 :: b1 :: b2 :: b3 :: r =>
      (N.shiftl b0 24 + N.shiftl b1 16 + N.shiftl b2 8 + b3) :: words_of k r
  | _, _ => []
  end.

Fixpoint blocks_of (fuel : nat) (ws : list N) : list (list N) :=
  match fuel, ws with
  | S k, _ :: _ => firstn 16 ws :: blocks_of k (skipn 16 ws)
  | _, _ => []
  end.

Definition nth_w (ws : list N) (i : nat) : N := nth i ws 0.

(** The message schedule: [sched] holds the last sixteen words, oldest
    first, so the word of the current round is its head. *)
Definition next_sched (sched : list N) : list N :=
  let w := rotl 1 (N.lxor (N.lxor (N.lxor (nth_w sched 13) (nth_w sched 8))
                                  (nth_w sched 2)) (nth_w sched 0)) in
  skipn 1 sched ++ [w].

Record regs := Regs { ra : N; rb : N; rc : N; rd : N; re : N }.

Definition round (t : nat) (w : N) (r : regs) : regs :=
  let tmp := add32 (add32 (add32 (add32 (rotl 5 (ra r))
                                        (f_round t (rb r) (rc r) (rd r)))
                                 (re r)) (k_round t)) w in
  Regs tmp (ra r) (rotl 30 (rb r)) (rc r) (rd r).

Fixpoint rounds (n : nat) (t : nat) (sched : list N) (r : regs) : regs :=
  match n with
  | O => r
  | S k => rounds k (S t) (next_sched sched) (round t (nth_w sched 0) r)
  end.

Definition compress (h : regs) (block : list N) : regs :=
  let r := rounds 80 0 block h in
  Regs (add32 (ra h) (ra r)) (add32 (rb h) (rb r)) (add32 (rc h) (rc r))
       (add32 (rd h) (rd r)) (add32 (re h) (re r)).

Definition iv : regs :=
  Regs 1732584193 4023233417 2562383102 271733878 3285377520.

Definition digest_words (s : string) : list N :=
  let bs := pad (bytes_of s) in
  let ws := words_of (List.length bs) bs in
  let h := fold_left compress (blocks_of (List.length ws) ws) iv in
  [ra h; rb h; rc h; rd h; re h].

Definition hex_digit (n : N) : ascii :=
  ascii_of_N (if n <? 10 then 48 + n else 87 + n).

(** A 32-bit word as eight lower-case hexadecimal digits. *)
Definition hex32 (w : N) : string :=
  string_of_list_ascii
    (map (fun i => hex_digit (N.land (N.shiftr w (4 * i)) 15))
         [7; 6; 5; 4; 3; 2; 1; 0]).

(** [hashlib.sha1(data).hexdigest()]. *)
Definition hexdigest (s : string) : string :=
  String.concat "" (map hex32 (digest_words s)).

End Sha1.

(* ===================================================================== *)
(** ** Exceptions, the parsed document and the library interface *)
(* ===================================================================== *)

(** The exceptions that reach the scripts: [ValueError] from [urllib.parse],
    any [requests] failure (transport error or [raise_for_status]), and the
    [AttributeError] of a method call on [None]. *)
Inductive exn : Type :=
| ValueError
| RequestException (detail : string)
| AttributeError.

Inductive result (A : Type) : Type :=
| Ok (a : A)
| Raise (e : exn).

Arguments Ok {A} a.
Arguments Raise {A} e.

Definition rbind {A B : Type} (r : result A) (k : A -> result B) : result B :=
  match r with
  | Ok a => k a
  | Raise e => Raise e
  end.

(** A BeautifulSoup tree: tags with their attributes in source order, text
    and comments.  A soup is the list of its top-level nodes. *)
#[local] Unset Elimination Schemes.
Inductive node : Type :=
| Tag (name : string) (attrs : list (string * string)) (children : list node)
| NavigableString (text : string)
| Comment (text : string).

#[local] Set Elimination Schemes.

Definition soup : Type := list node.

(** What the scripts take from their libraries without this development
    looking inside: the two validity checks [urlsplit] applies to unusual
    host parts, the decoding of percent-escaped bytes, reference
    resolution ([None] when it raises [ValueError]), the HTML parser and
    serialiser, text extraction and the PDF renderer (error count and
    rendered bytes). *)
Record Library : Type := {
  bracketed_host_ok : string -> bool;
  nfkc_ok : string -> bool;
  utf8_replace : string -> string;
  urljoin : string -> string -> option string;
  html_parser : string -> soup;
  soup_str : soup -> string;
  get_text : node -> string;
  CreatePDF : string -> nat * string
}.

(* ===================================================================== *)
(** ** [urllib.parse]: [urlsplit], [urlparse], [unquote], [parse_qs] *)
(* ===================================================================== *)

Module Urllib.
Import PyStr.

Record ParseResult : Type := {
  scheme : string;
  netloc : string;
  path : string;
  params : string;
  query : string;
  fragment : string
}.

Definition scheme_char (c : ascii) : bool :=
  is_alnum c || has_char c "+-.".

(** Leading characters removed by [urlsplit]: C0 controls and space. *)
Definition c0_or_space (c : ascii) : bool := (code c <=? 32)%N.
(** Tab, carriage return and newline are removed wherever they occur. *)
Definition unsafe_byte (c : ascii) : bool :=
  (code c =? 9)%N || (code c =? 10)%N || (code c =? 13)%N.

Definition split_scheme (url : string) : string * string :=
  match cut ":" url with
  | Some (String c0 pre, rest) =>
      if is_alpha c0 && forallb_s scheme_char (String c0 pre)
      then (lower (String c0 pre), rest)
      else (EmptyString, url)
  | _ => (EmptyString, url)
  end.

Definition netloc_delim (c : ascii) : bool := has_char c "/?#".

Definition split_netloc (url : string) : string * string :=
  if startswith "//" url
  then (take_while (fun c => negb (netloc_delim c)) (drop 2 url),
        drop_while (fun c => negb (netloc_delim c)) (drop 2 url))
  else (EmptyString, url).

Definition bracketed_host (nl : string) : string :=
  match cut "[" nl with
  | Some (_, r) => before "]" r
  | None => EmptyString
  end.

Section WithLibrary.
Variable L : Library.

(** The checks that make [urlsplit] raise [ValueError]. *)
Definition netloc_accepted (nl : string) : bool :=
  let lb := has_char "[" nl in
  let rb := has_char "]" nl in
  if xorb lb rb then false
  else (if lb && rb then bracketed_host_ok L (bracketed_host nl) else true)
       && (if forallb_s is_ascii nl then true else nfkc_ok L nl).

Definition split_at (c : ascii) (s : string) : string * string :=
  match cut c s with
  | Some (b, e) => (b, e)
  | None => (s, EmptyString)
  end.

Definition urlsplit (url0 : string) : result ParseResult :=
  let url := remove_chars unsafe_byte (lstrip c0_or_space url0) in
  let '(sch, url) := split_scheme url in
  let '(nl, url) := split_netloc url in
  let '(url, frag) := split_at "#" url in
  let '(url, qry) := split_at "?" url in
  if netloc_accepted nl
  then Ok {| scheme := sch; netloc := nl; path := url; params := EmptyString;
             query := qry; fragment := frag |}
  else Raise ValueError.

Definition uses_params : list string :=
  [""; "ftp"; "hdl"; "prospero"; "http"; "imap"; "https"; "shttp"; "rtsp";
   "rtspu"; "sip"; "sips"; "mms"; "sftp"; "tel"].

(** [_splitparams]: the parameters of the last path segment. *)
Definition splitparams (url : string) : string * string :=
  let start := match rfind "/" url with Some i => i | None => O end in
  match cut ";" (drop start url) with
  | Some (b, e) => (take start url +:+ b, e)
  | None => (url, EmptyString)
  end.

Definition urlparse (url : string) : result ParseResult :=
  rbind (urlsplit url) (fun r =>
    if bool_decide (scheme r ∈ uses_params) && has_char ";" (path r)
    then let '(p, ps) := splitparams (path r) in
         Ok {| scheme := scheme r; netloc := netloc r; path := p;
               params := ps; query := query r; fragment := fragment r |}
    else Ok r).

Definition is_hex (c : ascii) : bool :=
  is_digit c || between 65 70 c || between 97 102 c.

Definition hex_val (c : ascii) : N :=
  if is_digit c then code c - 48
  else if between 65 70 c then code c - 55
  else code c - 87.

(** [unquote_to_bytes]: every [%XX] with two hexadecimal digits becomes the
    byte, any other [%] stays. *)
Fixpoint unquote_to_bytes (s : string) : string :=
  match s with
  | EmptyString => EmptyString
  | String c r =>
      if Ascii.eqb c "%" then
        match r with
        | String h (String l r2) =>
            if is_hex h && is_hex l
            then String (ascii_of_N (16 * hex_val h + hex_val l))
                        (unquote_to_bytes r2)
            else String c (unquote_to_bytes r)
        | _ => String c (unquote_to_bytes r)
        end
      else String c (unquote_to_bytes r)
  end.

(** [bytes.decode("utf-8", "replace")], seen on the encoded bytes: nothing
    changes for ASCII, the library decides otherwise. *)
Definition decode_replace (s : string) : string :=
  if forallb_s is_ascii s then s else utf8_replace L s.

Definition flush_run (run : string) : string :=
  decode_replace (unquote_to_bytes (reverse run)).

(** The escapes of every maximal run of ASCII characters are decoded; [run]
    is the current run, reversed. *)
Fixpoint unquote_runs (s run : string) : string :=
  match s with
  | EmptyString => flush_run run
  | String c r =>
      if is_ascii c then unquote_runs r (String c run)
      else flush_run run +:+ String c (unquote_runs r EmptyString)
  end.

Definition unquote (s : string) : string :=
  if has_char "%" s then unquote_runs s EmptyString else s.

Definition unquote_plus (s : string) : string :=
  unquote (replace_char "+" " " s).

(** [parse_qsl] with its defaults: fields without [=] or with an empty
    value are dropped. *)
Definition parse_qsl (qs : string) : list (string * string) :=
  flat_map
    (fun name_value =>
       match cut "=" name_value with
       | Some (n, v) =>
           if is_empty v then [] else [(unquote_plus n, unquote_plus v)]
       | None => []
       end)
    (split "&" qs).

(** [parse_qs(qs).get(key, [None])[0]]: the first value given for [key]. *)
Definition qs_first (key qs : string) : option string :=
  match filter (fun nv => nv.1 = key) (parse_qsl qs) with
  | nv :: _ => Some nv.2
  | [] => None
  end.

End WithLibrary.
End Urllib.

(* ===================================================================== *)
(** ** BeautifulSoup queries *)
(* ===================================================================== *)

Module Bs4.
Import PyStr.

Definition attrs_t : Type := list (string * string).

(** [tag.get(key)]. *)
Fixpoint attr_get (key : string) (attrs : attrs_t) : option string :=
  match attrs with
  | [] => None
  | (k, v) :: r => if String.eqb k key then Some v else attr_get key r
  end.

(** [tag[key] = value]: an existing attribute keeps its place. *)
Fixpoint attr_set (key value : string) (attrs : attrs_t) : attrs_t :=
  match attrs with
  | [] => [(key, value)]
  | (k, v) :: r =>
      if String.eqb k key then (k, value) :: r
      else (k, v) :: attr_set key value r
  end.

(** The white space of one byte: the ASCII characters for which
    [str.isspace] holds. *)
Definition is_space (c : ascii) : bool :=
  (code c =? 32)%N || ((9 <=? code c)%N && (code c <=? 13)%N)
  || ((28 <=? code c)%N && (code c <=? 31)%N).

Definition byte_is (n : N) (c : ascii) : bool := (code c =? n)%N.

(** The number of bytes of the white-space character that [s] begins with,
    [0] when it begins with none.  White space is what [\s] matches in a
    [str]: the ASCII white space and U+0085, U+00A0, U+1680, U+2000 to
    U+200A, U+2028, U+2029, U+202F, U+205F and U+3000, here in UTF-8. *)
Definition space_len (s : string) : nat :=
  match s with
  | String c r =>
      if is_space c then 1
      else if byte_is 194 c then
        match r with
        | String d _ => if byte_is 133 d || byte_is 160 d then 2 else 0
        | _ => 0
        end
      else
        match r with
        | String d (String e _) =>
            if byte_is 225 c && byte_is 154 d && byte_is 128 e then 3
            else if byte_is 226 c && byte_is 128 d
                    && (between 128 138 e || byte_is 168 e || byte_is 169 e
                        || byte_is 175 e) then 3
            else if byte_is 226 c && byte_is 129 d && byte_is 159 e then 3
            else if byte_is 227 c && byte_is 128 d && byte_is 128 e then 3
            else 0
        | _ => 0
        end
  | EmptyString => 0
  end.

(** The values of a multi-valued attribute ([class], [rel]), as
    [re.compile(r"\S+").findall] gives them: the maximal runs without white
    space.  [cur] is the current run, reversed; [skip] counts the bytes
    still to pass of the white-space character being read. *)
Fixpoint tokens_from (s cur : string) (skip : nat) : list string :=
  match s with
  | EmptyString => if is_empty cur then [] else [reverse cur]
  | String c r =>
      match skip with
      | S k => tokens_from r cur k
      | O =>
          match space_len s with
          | O => tokens_from r (String c cur) O
          | S k =>
              if is_empty cur then tokens_from r EmptyString k
              else reverse cur :: tokens_from r EmptyString k
          end
      end
  end.

Definition tokens (s : string) : list string := tokens_from s EmptyString 0.

(** A multi-valued attribute matches a string when one of its values is
    that string. *)
Definition has_token (key value : string) (attrs : attrs_t) : bool :=
  match attr_get key attrs with
  | Some v => bool_decide (value ∈ tokens v)
  | None => false
  end.

Definition has_attr (key : string) (attrs : attrs_t) : bool :=
  match attr_get key attrs with Some _ => true | None => false end.

(** Every element of the tree in document order, as (name, attributes). *)
Fixpoint elements (n : node) : list (string * attrs_t) :=
  match n with
  | Tag nm at_ ch => (nm, at_) :: flat_map elements ch
  | _ => []
  end.

Definition soup_elements (s : soup) : list (string * attrs_t) :=
  flat_map elements s.

(** [[a["href"] for a in soup.find_all("a", href=True)]]. *)
Definition find_all_a_href (s : soup) : list string :=
  omap (fun e => if String.eqb e.1 "a" then attr_get "href" e.2 else None)
       (soup_elements s).

(** The [src] of every [img] element that has one. *)
Definition img_srcs (s : soup) : list string :=
  omap (fun e => if String.eqb e.1 "img" then attr_get "src" e.2 else None)
       (soup_elements s).

(** Removal of every node that [drop] selects, wherever it is
    ([decompose] or [extract] on each result of a [find_all]). *)
Fixpoint prune (drop : node -> bool) (n : node) : list node :=
  if drop n then []
  else match n with
       | Tag nm at_ ch => [Tag nm at_ (flat_map (prune drop) ch)]
       | _ => [n]
       end.

(** An in-place change of the attributes of every element. *)
Fixpoint retag (f : string -> attrs_t -> attrs_t) (n : node) : node :=
  match n with
  | Tag nm at_ ch => Tag nm (f nm at_) (map (retag f) ch)
  | _ => n
  end.

(** [soup.find(name)] restricted by a test on the attributes: the first
    such element in document order. *)
Fixpoint find_first (p : string -> attrs_t -> bool) (n : node) : option node :=
  match n with
  | Tag nm at_ ch =>
      if p nm at_ then Some n
      else (fix first (l : list node) : option node :=
              match l with
              | [] => None
              | c :: r => match find_first p c with
                          | Some x => Some x
                          | None => first r
                          end
              end) ch
  | _ => None
  end.

Fixpoint soup_find (p : string -> attrs_t -> bool) (s : soup) : option node :=
  match s with
  | [] => None
  | n :: r => match find_first p n with
              | Some x => Some x
              | None => soup_find p r
              end
  end.

(** [soup.select("nav a[href], div.docs-nav a[href]")], as the list of the
    [href] values: the anchors with an [href] that lie inside a [nav]
    element or inside a [div] of class [docs-nav]; [inside] tells that such
    an ancestor has been passed. *)
Fixpoint nav_hrefs (inside : bool) (n : node) : list string :=
  match n with
  | Tag nm at_ ch =>
      (if inside && String.eqb nm "a"
       then match attr_get "href" at_ with Some h => [h] | None => [] end
       else [])
      ++ flat_map
           (nav_hrefs (inside || String.eqb nm "nav"
                       || (String.eqb nm "div" && has_token "class" "docs-nav" at_)))
           ch
  | _ => []
  end.

Definition select_nav_hrefs (s : soup) : list string :=
  flat_map (nav_hrefs false) s.

End Bs4.

(* ===================================================================== *)
(** ** [base64.b64encode] *)
(* ===================================================================== *)

Module Base64.
Local Open Scope N_scope.

Definition alphabet (i : N) : ascii :=
  ascii_of_N (if i <? 26 then 65 + i
              else if i <? 52 then 71 + i
              else if i <? 62 then i - 4
              else if i =? 62 then 43 else 47).

Definition sextet (n : N) (k : N) : ascii :=
  alphabet (N.land (N.shiftr n (6 * k)) 63).

Fixpoint encode_bytes (bs : list N) : string :=
  match bs with
  | [] => EmptyString
  | [a] =>
      let n := N.shiftl a 16 in
      String (sextet n 3) (String (sextet n 2) "==")
  | [a; b] =>
      let n := N.shiftl a 16 + N.shiftl b 8 in
      String (sextet n 3) (String (sextet n 2) (String (sextet n 1) "="))
  | a :: b :: c :: r =>
      let n := N.shiftl a 16 + N.shiftl b 8 + c in
      String (sextet n 3) (String (sextet n 2) (String (sextet n 1)
        (String (sextet n 0) (encode_bytes r))))
  end.

Definition b64encode (s : string) : string :=
  encode_bytes (Sha1.bytes_of s).

End Base64.

(* ===================================================================== *)
(** ** The network, the disk and the run state *)
(* ===================================================================== *)

(** An HTTP response: status, declared [Content-Type], and the body as the
    chunks in which it arrives; [chunked] tells that the body comes in
    chunked transfer encoding, [truncated] that the connection breaks
    after the last chunk. *)
Record Response : Type := {
  status_code : nat;
  content_type : option string;
  body : list string;
  chunked : bool;
  truncated : bool
}.

(** [resp.content] and [resp.text] (the bytes of the text). *)
Definition content (r : Response) : string := String.concat "" (body r).

(** The remote side: what the request number [t] of the run, for [url],
    meets.  [Raise] is a transport failure. *)
Definition Network : Type := nat -> string -> result Response.

(** The call site of a request. *)
Inductive site : Type :=
| PageGet      (* [crawl] *)
| ImageGet     (* [clean_html] *)
| IndexGet     (* [download_release_pdfs], the index page *)
| ReleaseGet   (* [download_release_pdfs], one binary *)
| WikiGet.     (* [crawl_page] *)

(** What a run does that can be observed: its requests and its messages. *)
Inductive event : Type :=
| Get (s : site) (url : string)
| FetchFailed (url : string) (e : exn)
| RenderFailed (url : string)
| SavedPdf (file url : string)
| IndexFailed (e : exn)
| SkipForbidden (url : string)
| SkipNonPdf (url : string)
| Downloaded (file url : string)
| DownloadFailed (url : string) (e : exn)
| Total (count : nat)
| Crawling (url : string)
| SavedText (file : string).

(** [visited] (or [seen]), the files below the output directory with their
    contents, the number of requests sent, and the events so far, newest
    first. *)
Record State : Type := {
  visited : gset string;
  files : gmap string string;
  clock : nat;
  trace : list event
}.

(** How a computation ends: normally, with an exception that nothing
    caught, or cut off because the recursion budget of the model ran out. *)
Inductive outcome (A : Type) : Type :=
| Done (a : A)
| Raised (e : exn)
| Cutoff.

Arguments Done {A} a.
Arguments Raised {A} e.
Arguments Cutoff {A}.

Definition M (A : Type) : Type := State -> outcome A * State.

Definition ret {A : Type} (a : A) : M A := fun st => (Done a, st).

Definition bind {A B : Type} (m : M A) (k : A -> M B) : M B :=
  fun st =>
    match m st with
    | (Done a, st') => k a st'
    | (Raised e, st') => (Raised e, st')
    | (Cutoff, st') => (Cutoff, st')
    end.

Definition raise {A : Type} (e : exn) : M A := fun st => (Raised e, st).

Definition cutoff {A : Type} : M A := fun st => (Cutoff, st).

(** [try: m  except Exception as e: h e]. *)
Definition try_except {A : Type} (m : M A) (h : exn -> M A) : M A :=
  fun st =>
    match m st with
    | (Raised e, st') => h e st'
    | other => other
    end.

Definition lift {A : Type} (r : result A) : M A :=
  match r with
  | Ok a => ret a
  | Raise e => raise e
  end.

Definition or_value_error {A : Type} (o : option A) : M A :=
  match o with
  | Some a => ret a
  | None => raise ValueError
  end.

Declare Scope run_scope.
Delimit Scope run_scope with run.
Notation "'do' x <- m ; k" := (bind m (fun x => k))
  (at level 10, x name, m at level 100, k at level 200) : run_scope.
Notation "'step' m ; k" := (bind m (fun _ => k))
  (at level 10, m at level 100, k at level 200) : run_scope.
Local Open Scope run_scope.

Definition print (e : event) : M unit :=
  fun st => (Done tt, {| visited := visited st; files := files st;
                         clock := clock st; trace := e :: trace st |}).

Definition is_visited (url : string) : M bool :=
  fun st => (Done (bool_decide (url ∈ visited st)), st).

Definition mark_visited (url : string) : M unit :=
  fun st => (Done tt, {| visited := {[url]} ∪ visited st; files := files st;
                         clock := clock st; trace := trace st |}).

(** [path.exists()]. *)
Definition file_exists (p : string) : M bool :=
  fun st => (Done (bool_decide (is_Some (files st !! p))), st).

(** [path.write_bytes(data)] and [open(path, "w")] with one write. *)
Definition write_file (p data : string) : M unit :=
  fun st => (Done tt, {| visited := visited st; files := <[p := data]> (files st);
                         clock := clock st; trace := trace st |}).

(** [f.write(data)] on a file opened for writing: the data goes after what
    is there. *)
Definition append_file (p data : string) : M unit :=
  fun st => (Done tt, {| visited := visited st;
                         files := <[p := default EmptyString (files st !! p) +:+ data]>
                                    (files st);
                         clock := clock st; trace := trace st |}).

(** A loop [for x in l: body x]. *)
Fixpoint for_each {A : Type} (body : A -> M unit) (l : list A) : M unit :=
  match l with
  | [] => ret tt
  | x :: r => step body x; for_each body r
  end.

(** A loop that carries a value, such as a counter. *)
Fixpoint for_fold {A B : Type} (body : A -> B -> M B) (l : list A) (b : B)
  : M B :=
  match l with
  | [] => ret b
  | x :: r => do b' <- body x b; for_fold body r b'
  end.

Section WithNetwork.
Variable net : Network.

(** A request: it is recorded, the clock advances, and the transport
    failure, if there is one, is raised.  [stream] is [stream=True]:
    without it the whole body is read before the call returns, so a broken
    connection fails the call. *)
Definition session_get (s : site) (stream : bool) (url : string) : M Response :=
  fun st =>
    let st' := {| visited := visited st; files := files st;
                  clock := S (clock st); trace := Get s url :: trace st |} in
    match net (clock st) url with
    | Ok r =>
        if negb stream && truncated r
        then (Raised (RequestException "connection broken"), st')
        else (Done r, st')
    | Raise e => (Raised e, st')
    end.

(** [resp.raise_for_status()]: statuses 400 to 599 raise. *)
Definition raise_for_status (r : Response) : M unit :=
  if (400 <=? status_code r)%nat && (status_code r <? 600)%nat
  then raise (RequestException "HTTPError")
  else ret tt.

End WithNetwork.

(* ===================================================================== *)
(** ** [scrap_pdf.py] *)
(* ===================================================================== *)

Module ScrapPdf.
Import PyStr Urllib Bs4.
Local Open Scope run_scope.

(** [re.sub(r"[^A-Za-z0-9]+", "_", s)]: [in_run] tells that the previous
    character already belongs to the run being replaced. *)
Fixpoint re_sub_nonalnum (in_run : bool) (s : string) : string :=
  match s with
  | EmptyString => EmptyString
  | String c r =>
      if is_alnum c then String c (re_sub_nonalnum false r)
      else if in_run then re_sub_nonalnum true r
      else String "_" (re_sub_nonalnum true r)
  end.

(** The character class of a Drive file id, [[a-zA-Z0-9_-]]. *)
Definition id_char (c : ascii) : bool :=
  is_alnum c || Ascii.eqb c "_" || Ascii.eqb c "-".

(** [re.search(r'/d/([a-zA-Z0-9_-]+)', href)]: the leftmost place where
    [/d/] is followed by an id character, and group 1 there (the longest
    run of id characters). *)
Fixpoint search_d (href : string) : option string :=
  match href with
  | EmptyString => None
  | String _ r =>
      if startswith "/d/" href && negb (is_empty (take_while id_char (drop 3 href)))
      then Some (take_while id_char (drop 3 href))
      else search_d r
  end.

Definition direct_link (file_id : string) : string :=
  "https://drive.google.com/uc?export=download&id=" +:+ file_id.

(** Truthiness of [file_id]: [None] and the empty string are false. *)
Definition truthy (o : option string) : bool :=
  match o with
  | Some s => negb (is_empty s)
  | None => false
  end.

Definition looks_like_pdf (chunk : string) : bool := startswith "%PDF" chunk.

Definition BAD_HOSTS : list string := ["fonts.googleapis.com"; "gstatic.com"].

(** The configuration read from the environment when the module is
    loaded; paths are relative to [OUT_DIR]. *)
Record Config : Type := {
  ROOT_URL : string;
  BUILD_HISTORY : string
}.

Definition PAGES_DIR : string := "pages/".
Definition RELEASES_DIR : string := "releases/".

Definition is_script (n : node) : bool :=
  match n with
  | Tag nm _ _ => bool_decide (nm ∈ ["script"; "noscript"])
  | _ => false
  end.

Definition is_comment (n : node) : bool :=
  match n with
  | Comment _ => true
  | _ => false
  end.

(** A [link] of [rel] stylesheet whose [href] names one of [BAD_HOSTS]. *)
Definition is_font_link (n : node) : bool :=
  match n with
  | Tag nm at_ _ =>
      String.eqb nm "link" && has_token "rel" "stylesheet" at_
      && existsb (fun host => contains host (default EmptyString (attr_get "href" at_)))
                 BAD_HOSTS
  | _ => false
  end.

Definition normalize_input (nm : string) (at_ : attrs_t) : attrs_t :=
  if String.eqb nm "input"
     && negb (bool_decide (default "text" (attr_get "type" at_)
                           ∈ ["text"; "hidden"; "checkbox"]))
  then attr_set "type" "text" at_
  else at_.

Definition data_uri (resp : Response) : string :=
  "data:" +:+ default "image/png" (content_type resp) +:+ ";base64,"
  +:+ Base64.b64encode (content resp).

(** A monadic [flat_map], for the passes that make requests. *)
Definition flat_mapM (f : node -> M (list node)) : list node -> M (list node) :=
  fix go (l : list node) : M (list node) :=
    match l with
    | [] => ret []
    | n :: r => do a <- f n; do b <- go r; ret (a ++ b)%list
    end.

Section WithLibrary.
Variable L : Library.
Variable net : Network.
Variable cfg : Config.

Definition sanitize (url ext : string) : result string :=
  rbind (urlparse L url) (fun parsed =>
    let name := or_default (re_sub_nonalnum false (strip is_slash (path parsed)))
                           "page" in
    let digest := take 8 (Sha1.hexdigest url) in
    Ok (name +:+ "_" +:+ digest +:+ "." +:+ ext)).

Definition get_drive_direct_link (href : string) : result string :=
  rbind
    (match search_d href with
     | Some file_id => Ok (Some file_id)
     | None => rbind (urlparse L href) (fun p => Ok (qs_first L "id" (query p)))
     end)
    (fun file_id =>
       if truthy file_id
       then Ok (direct_link (default EmptyString file_id))
       else Ok href).

(** [is_internal] of [scrap_pdf.py]: no host, or exactly the root's host. *)
Definition is_internal (link : string) : result bool :=
  rbind (urlparse L link) (fun p =>
    if is_empty (netloc p) then Ok true
    else rbind (urlparse L (ROOT_URL cfg)) (fun r =>
           Ok (bool_decide (netloc p = netloc r)))).

(** The body of the loop over [soup.find_all("img", src=True)] for one
    image: [None] when the image is decomposed. *)
Definition inline_img (at_ : attrs_t) : M (option attrs_t) :=
  match attr_get "src" at_ with
  | None => ret (Some at_)
  | Some src =>
      if startswith "data:" src then ret (Some at_)
      else try_except
             (do resp <- session_get net ImageGet false src;
              step raise_for_status resp;
              ret (Some (attr_set "src" (data_uri resp) at_)))
             (fun _ => ret None)
  end.

(** The image loop over the whole tree, in document order.  The HTML
    parser closes an [img] at once, so an [img] has no children. *)
Fixpoint embed_images (n : node) : M (list node) :=
  match n with
  | Tag nm at_ ch =>
      if String.eqb nm "img" then
        do r <- inline_img at_;
        match r with
        | Some at' => do ch' <- flat_mapM embed_images ch; ret [Tag nm at' ch']
        | None => ret []
        end
      else do ch' <- flat_mapM embed_images ch; ret [Tag nm at_ ch']
  | _ => ret [n]
  end.

(** [clean_html] on the parsed tree. *)
Definition clean_soup (s : soup) : M soup :=
  let s := flat_map (prune is_script) s in
  let s := flat_map (prune is_comment) s in
  do s <- flat_mapM embed_images s;
  let s := flat_map (prune is_font_link) s in
  let s := map (retag normalize_input) s in
  ret s.

Definition clean_html (raw_html : string) : M string :=
  do s <- clean_soup (html_parser L raw_html);
  ret (soup_str L s).

Definition save_html_as_pdf (url html : string) : M unit :=
  do name <- lift (sanitize url "pdf");
  let pdf_file := PAGES_DIR +:+ name in
  do there <- file_exists pdf_file;
  if there then ret tt
  else
    do safe_html <- clean_html html;
    let result := CreatePDF L safe_html in
    if negb (Nat.eqb result.1 0)
    then print (RenderFailed url)
    else step write_file pdf_file result.2;
         print (SavedPdf pdf_file url).

(** [crawl]; [fuel] bounds the depth of the recursion. *)
Fixpoint crawl (fuel : nat) (url : string) : M unit :=
  match fuel with
  | O => cutoff
  | S fuel' =>
      do seen <- is_visited url;
      if seen then ret tt
      else
        step mark_visited url;
        do fetched <-
          try_except
            (do response <- session_get net PageGet false url;
             step raise_for_status response;
             ret (Some response))
            (fun e => step print (FetchFailed url e); ret None);
        match fetched with
        | None => ret tt
        | Some response =>
            step save_html_as_pdf url (content response);
            for_each
              (fun a_href =>
                 let href := before "#" a_href in
                 if startswith "mailto:" (lower href) then ret tt
                 else
                   do full <- or_value_error (urljoin L url href);
                   do internal <- lift (is_internal full);
                   if internal then crawl fuel' full else ret tt)
              (find_all_a_href (html_parser L (content response)))
        end
  end.

(** [next(r.iter_content(1024), b"")]: the first chunk of the stream, the
    empty default when the stream ends at once, nothing when it breaks
    before a chunk arrives. *)
Definition first_chunk_of (r : Response) : option string :=
  match body r with
  | c :: _ => Some c
  | [] => if truncated r then None else Some EmptyString
  end.

Definition first_chunk (r : Response) : M string :=
  match first_chunk_of r with
  | Some c => ret c
  | None => raise (RequestException "connection broken")
  end.

(** The loop over [r.iter_content(65536)].  The iterator that gave the
    first chunk is dropped, and so closed, as soon as [next] has returned.
    Closing it in the middle of a body in chunked transfer encoding closes
    the connection: the second iterator then ends at once, with no chunk
    and no error, whatever was still to come.  With any other framing the
    second iterator goes on where the first one stopped, and the rest of
    the stream is written as it arrives. *)
Definition write_rest (dest : string) (r : Response) : M unit :=
  if chunked r then ret tt
  else
    step for_each (append_file dest) (tail (body r));
    if truncated r then raise (RequestException "connection broken")
    else ret tt.

(** The [try] block of the harvesting loop for one download URL; the
    result is the new value of [count]. *)
Definition download_one (pdf_url dest : string) (count : nat) : M nat :=
  try_except
    (do r <- session_get net ReleaseGet true pdf_url;
     if Nat.eqb (status_code r) 403
     then step print (SkipForbidden pdf_url); ret count
     else
       do chunk <- first_chunk r;
       if negb (looks_like_pdf chunk)
       then step print (SkipNonPdf pdf_url); ret count
       else
         step write_file dest EmptyString;
         step append_file dest chunk;
         step write_rest dest r;
         step print (Downloaded dest pdf_url);
         ret (S count))
    (fun e => step print (DownloadFailed pdf_url e); ret count).

(** The body of the loop over the anchors of the index page. *)
Definition harvest_anchor (href : string) (count : nat) : M nat :=
  do target <-
    (if endswith ".pdf" (lower href)
     then do u <- or_value_error (urljoin L (BUILD_HISTORY cfg) href); ret (Some u)
     else if contains "drive.google.com" href
     then do u <- lift (get_drive_direct_link href); ret (Some u)
     else ret None);
  match target with
  | None => ret count
  | Some pdf_url =>
      do name <- lift (sanitize pdf_url "pdf");
      let dest := RELEASES_DIR +:+ name in
      do there <- file_exists dest;
      if there then ret count else download_one pdf_url dest count
  end.

Definition download_release_pdfs : M unit :=
  do index <-
    try_except
      (do resp <- session_get net IndexGet false (BUILD_HISTORY cfg);
       step raise_for_status resp;
       ret (Some resp))
      (fun e => step print (IndexFailed e); ret None);
  match index with
  | None => ret tt
  | Some resp =>
      do count <- for_fold harvest_anchor
                    (find_all_a_href (html_parser L (content resp))) 0;
      print (Total count)
  end.

End WithLibrary.
End ScrapPdf.

(* ===================================================================== *)
(** ** [scrap_wiki.py] *)
(* ===================================================================== *)

Module ScrapWiki.
Import PyStr Urllib Bs4.
Local Open Scope run_scope.

Definition is_grid_row (nm : string) (at_ : attrs_t) : bool :=
  String.eqb nm "div" && has_token "class" "freebirdFormviewerViewGridRow" at_.

Definition is_body (nm : string) (at_ : attrs_t) : bool := String.eqb nm "body".

Section WithLibrary.
Variable L : Library.
Variable net : Network.

(** [base_netloc = urlparse(START_URL).netloc], computed when the module is
    loaded. *)
Definition base_netloc (START_URL : string) : result string :=
  rbind (urlparse L START_URL) (fun r => Ok (netloc r)).

Variable base : string.

(** [is_internal] of [scrap_wiki.py]: no host, or a host that ends with
    [base_netloc]. *)
Definition is_internal (link : string) : result bool :=
  rbind (urlparse L link) (fun parsed =>
    Ok (is_empty (netloc parsed) || endswith base (netloc parsed))).

(** [save_text]; a page without the form row and without a [body] has
    [None] for container, and the method call on it raises. *)
Definition save_text (url : string) (s : soup) : M unit :=
  do container <-
    match soup_find is_grid_row s with
    | Some c => ret c
    | None => match soup_find is_body s with
              | Some b => ret b
              | None => raise AttributeError
              end
    end;
  let text := get_text L container in
  do parsed <- lift (urlparse L url);
  let p := or_default (replace_char "/" "_" (strip is_slash (path parsed))) "home" in
  let fname := p +:+ ".txt" in
  step write_file fname text;
  print (SavedText fname).

(** [crawl_page]; [fuel] bounds the depth of the recursion. *)
Fixpoint crawl_page (fuel : nat) (url : string) : M unit :=
  match fuel with
  | O => cutoff
  | S fuel' =>
      do seen <- is_visited url;
      if seen then ret tt
      else
        step print (Crawling url);
        step mark_visited url;
        do resp <- session_get net WikiGet false url;
        step raise_for_status resp;
        let s := html_parser L (content resp) in
        step save_text url s;
        for_each
          (fun a_href =>
             let href := before "#" a_href in
             do full <- or_value_error (urljoin L url href);
             do internal <- lift (is_internal full);
             do seen_full <- is_visited full;
             if internal && negb seen_full then crawl_page fuel' full
             else ret tt)
          (select_nav_hrefs s)
  end.

End WithLibrary.

(** The script's entry point. *)
Definition main (L : Library) (net : Network) (START_URL : string)
  (fuel : nat) : M unit :=
  do base <- lift (base_netloc L START_URL);
  crawl_page L net base fuel START_URL.

End ScrapWiki.

(** The state at the start of a run: nothing visited, no request sent,
    nothing printed, and whatever an earlier run left on the disk. *)
Definition initial (disk : gmap string string) : State :=
  {| visited := ∅; files := disk; clock := 0; trace := [] |}.

(* ===================================================================== *)
(** ** A small site, used to run the scripts on concrete inputs *)
(* ===================================================================== *)

Module Demo.
Import PyStr Bs4.

Definition a (href : string) : node := Tag "a" [("href", href)] [].
Definition img (src : string) : node := Tag "img" [("src", src)] [].

Definition page (links : list string) (rest : list node) : soup :=
  [Tag "html" [] [Tag "body" [] (Tag "nav" [] (map a links) :: rest)]].

(** The documents of the site, by their text. *)
Definition parser (html : string) : soup :=
  if String.eqb html "ROOT" then
    page ["/a"; "/b#top"; "mailto:team@example.com"; "https://other.example.com/x"]
         [img "http://example.com/x.png"; img "http://example.com/gone.png";
          img "data:image/gif;base64,R0lG"]
  else if String.eqb html "A" then page ["/"; "/c"] []
  else if String.eqb html "B" then page [] [Tag "blink" [] []]
  else if String.eqb html "INDEX" then
    page ["notes/r1.pdf"; "https://drive.google.com/file/d/ABC123/view";
          "https://drive.google.com/open?id=XYZ"; "https://example.com/other"] []
  else [].

Definition show_attr (kv : string * string) : string :=
  " " +:+ kv.1 +:+ "='" +:+ kv.2 +:+ "'".

Fixpoint show (n : node) : string :=
  match n with
  | Tag nm at_ ch =>
      "<" +:+ nm +:+ String.concat "" (map show_attr at_) +:+ ">"
      +:+ String.concat "" (map show ch) +:+ "</" +:+ nm +:+ ">"
  | NavigableString t => t
  | Comment t => "<!--" +:+ t +:+ "-->"
  end.

(** Reference resolution for hrefs as they occur on this site. *)
Definition join (base href : string) : option string :=
  if startswith "http" href then Some href
  else if startswith "/" href then Some ("https://example.com" +:+ href)
  else Some ("https://example.com/" +:+ href).

Definition library : Library := {|
  bracketed_host_ok := fun _ => true;
  nfkc_ok := fun _ => true;
  utf8_replace := fun s => s;
  urljoin := join;
  html_parser := parser;
  soup_str := fun s => String.concat "" (map show s);
  get_text := fun _ => "text";
  CreatePDF := fun html =>
    if contains "<blink" html then (1, "%PDF-1.4 part") else (0, "%PDF-1.4 " +:+ html)
|}.

Definition ok (ctype : option string) (chunks : list string) : result Response :=
  Ok {| status_code := 200; content_type := ctype; body := chunks;
        chunked := false; truncated := false |}.

Definition status (code : nat) : result Response :=
  Ok {| status_code := code; content_type := None; body := ["<html>no</html>"];
        chunked := false; truncated := false |}.

(** The site answers the same way at every moment of the run. *)
Definition network : Network := fun _ url =>
  if String.eqb url "https://example.com/" then ok (Some "text/html") ["ROOT"]
  else if String.eqb url "https://example.com/a" then ok (Some "text/html") ["A"]
  else if String.eqb url "https://example.com/b" then ok (Some "text/html") ["B"]
  else if String.eqb url "https://example.com/c" then Raise (RequestException "timed out")
  else if String.eqb url "http://example.com/x.png" then ok (Some "image/png") ["PNG"]
  else if String.eqb url "https://example.com/build" then ok (Some "text/html") ["INDEX"]
  else if String.eqb url "https://example.com/notes/r1.pdf" then ok None ["%PDF-1.4 "; "notes"]
  else if String.eqb url "https://drive.google.com/uc?export=download&id=ABC123"
  then ok (Some "text/html") ["<html>login</html>"]
  else if String.eqb url "https://drive.google.com/uc?export=download&id=XYZ" then status 403
  else status 404.

Definition config : ScrapPdf.Config :=
  {| ScrapPdf.ROOT_URL := "https://example.com/";
     ScrapPdf.BUILD_HISTORY := "https://example.com/build" |}.

Definition root : string := "https://example.com/".

(** What an earlier run left for the root page. *)
Definition old_disk : gmap string string :=
  {[ "pages/page_b559c7ed.pdf" := "%PDF-1.4 old" ]}.

End Demo.

(* ===================================================================== *)
(** ** Vocabulary of the properties *)
(* ===================================================================== *)

Import PyStr.

#[global] Instance exn_eq_dec : EqDecision exn.
Proof. solve_decision. Defined.

#[global] Instance site_eq_dec : EqDecision site.
Proof. solve_decision. Defined.

#[global] Instance event_eq_dec : EqDecision event.
Proof. solve_decision. Defined.

(** The URLs requested from call site [s], newest first. *)
Definition requests (s : site) (tr : list event) : list string :=
  omap (fun e => match e with
                 | Get s' u => if decide (s' = s) then Some u else None
                 | _ => None
                 end) tr.

(** Whatever its result, [m] takes a state to an [R]-related one. *)
Definition keeps (R : State -> State -> Prop) {A : Type} (m : M A) : Prop :=
  forall st, R st (m st).2.

(** Only image requests were made: the visited set and the disk are as
    before, and so are the requests of every other call site. *)
Definition only_images (st st' : State) : Prop :=
  visited st' = visited st /\ files st' = files st /\
  forall s, s <> ImageGet -> requests s (trace st') = requests s (trace st).

(** The visited set grew, every file that existed is still there with the
    same contents, and only image requests were made. *)
Definition page_steady (st st' : State) : Prop :=
  visited st ⊆ visited st' /\
  (forall p v, files st !! p = Some v -> files st' !! p = Some v) /\
  forall s, s <> ImageGet -> requests s (trace st') = requests s (trace st).

(** The state after a message. *)
Definition printed (e : event) (st : State) : State :=
  {| visited := visited st; files := files st; clock := clock st;
     trace := e :: trace st |}.

(** The state after a file was written in one piece. *)
Definition written (p data : string) (st : State) : State :=
  {| visited := visited st; files := <[p := data]> (files st);
     clock := clock st; trace := trace st |}.

(** [session.get(url)] followed by [raise_for_status()], as one result: a
    transport failure, a broken connection and a status from 400 to 599
    are the failed fetches. *)
Definition page_fetch (r : result Response) : result Response :=
  match r with
  | Ok resp =>
      if truncated resp then Raise (RequestException "connection broken")
      else if (400 <=? status_code resp)%nat && (status_code resp <? 600)%nat
           then Raise (RequestException "HTTPError")
           else Ok resp
  | Raise e => Raise e
  end.

(** The state once [url] is marked and requested from call site [s]. *)
Definition visit (s : site) (url : string) (st : State) : State :=
  {| visited := {[url]} ∪ visited st; files := files st;
     clock := S (clock st); trace := Get s url :: trace st |}.

(** No request from [s] was made and nothing left the visited set. *)
Definition quiet (s : site) (st st' : State) : Prop :=
  visited st ⊆ visited st' /\ requests s (trace st') = requests s (trace st).

(** Every URL was requested from [s] at most once, and only after it was
    marked. *)
Definition once (s : site) (st : State) : Prop :=
  NoDup (requests s (trace st)) /\
  forall u, u ∈ requests s (trace st) -> u ∈ visited st.

(** [once] passes from the state before to the state after. *)
Definition once_kept (s : site) (st st' : State) : Prop := once s st -> once s st'.

(** The body of the loop of [crawl] over the anchors of the page [url]. *)
Definition follow (L : Library) (net : Network) (cfg : ScrapPdf.Config)
  (fuel : nat) (url a_href : string) : M unit :=
  let href := PyStr.before "#" a_href in
  if PyStr.startswith "mailto:" (PyStr.lower href) then ret tt
  else bind (or_value_error (urljoin L url href)) (fun full =>
       bind (lift (ScrapPdf.is_internal L cfg full)) (fun internal =>
       if internal then ScrapPdf.crawl L net cfg fuel full else ret tt)).

(** The body of the loop of [crawl_page] over the navigation links. *)
Definition follow_nav (L : Library) (net : Network) (base : string)
  (fuel : nat) (url a_href : string) : M unit :=
  let href := PyStr.before "#" a_href in
  bind (or_value_error (urljoin L url href)) (fun full =>
  bind (lift (ScrapWiki.is_internal L base full)) (fun internal =>
  bind (is_visited full) (fun seen_full =>
  if internal && negb seen_full then ScrapWiki.crawl_page L net base fuel full
  else ret tt))).

(** The digits of [hexdigest]. *)
Definition is_lower_hex (c : ascii) : bool := is_digit c || between 97 102 c.

(** The characters of a slug. *)
Definition slug_char (c : ascii) : bool := is_alnum c || Ascii.eqb c "_".

(** No two underscores in a row. *)
Fixpoint no_double_underscore (s : string) : bool :=
  match s with
  | String a ((String b _) as r) =>
      negb (Ascii.eqb a "_" && Ascii.eqb b "_") && no_double_underscore r
  | _ => true
  end.

(** The first character is an underscore. *)
Definition starts_with_underscore (s : string) : bool :=
  match s with
  | String c _ => Ascii.eqb c "_"
  | EmptyString => false
  end.

(** The alphanumeric characters of a string, in order. *)
Definition alnums (s : string) : string :=
  remove_chars (fun c => negb (is_alnum c)) s.

(** The file name as the specification words it: the path with its runs
    collapsed, an underscore, eight characters of the digest. *)
Definition name_as_specified (L : Library) (url : string) : result string :=
  rbind (Urllib.urlparse L url) (fun parsed =>
    Ok (ScrapPdf.re_sub_nonalnum false (Urllib.path parsed) +:+ "_"
        +:+ take 8 (Sha1.hexdigest url))).

(** The first character exists and satisfies [p]. *)
Definition starts_with (p : ascii -> bool) (s : string) : bool :=
  match s with
  | String c _ => p c
  | EmptyString => false
  end.

(** [/d/] followed by an id character, somewhere in [s]. *)
Definition has_drive_segment (s : string) : Prop :=
  exists pre c rest,
    s = pre +:+ "/d/" +:+ String c rest /\ ScrapPdf.id_char c = true.

(** The test that [search_d] makes at one position. *)
Definition segment_here (s : string) : bool :=
  startswith "/d/" s && starts_with ScrapPdf.id_char (drop 3 s).

(** No character of [cs] occurs in [s]. *)
Definition lacks (cs : string) (s : string) : bool :=
  forallb_s (fun c => negb (has_char c cs)) s.

(** No white space and no control character. *)
Definition printable (s : string) : bool :=
  forallb_s (fun c => negb (Urllib.c0_or_space c)) s.

(** The part of a URL that holds its query mark: [b?q] with no [?] and no
    [#] in [b]. *)
Definition marks_query (q u : string) : Prop :=
  exists b, u = b +:+ String "?" q /\ lacks "?#" b = true.

(** The state once the download of [url] was requested. *)
Definition requested (s : site) (url : string) (st : State) : State :=
  {| visited := visited st; files := files st; clock := S (clock st);
     trace := Get s url :: trace st |}.

(** An element that is not an [img] with a [src] outside the document. *)
Definition self_contained (e : string * Bs4.attrs_t) : Prop :=
  e.1 = "img" ->
  forall src, Bs4.attr_get "src" e.2 = Some src -> startswith "data:" src = true.

(** The image pass over [n] ends normally, from any state, and leaves
    only self-contained elements. *)
Definition embeds_well (net : Network) (n : node) : Prop :=
  forall st, exists l st',
    ScrapPdf.embed_images net n st = (Done l, st') /\
    Forall self_contained (Bs4.soup_elements l).

(** The attributes of the [img] elements, in document order. *)
Definition imgs (s : soup) : list Bs4.attrs_t :=
  omap (fun e => if String.eqb e.1 "img" then Some e.2 else None)
       (Bs4.soup_elements s).

(** An image that the image pass requests: its [src] is not a [data:]
    URI. *)
Definition is_remote (at_ : Bs4.attrs_t) : bool :=
  match Bs4.attr_get "src" at_ with
  | Some src => negb (startswith "data:" src)
  | None => false
  end.

Fixpoint remote_count (l : list Bs4.attrs_t) : nat :=
  match l with
  | [] => 0
  | at_ :: r => (if is_remote at_ then 1 else 0) + remote_count r
  end.

(** What becomes of the images [l], in their order, when the next request
    is request number [t]: an image without [src] or with a [data:] URI
    stays as it is; any other is requested, and stays with the data URI of
    the answer for [src] when the fetch succeeds, or goes when it fails. *)
Fixpoint embedded (net : Network) (t : nat) (l : list Bs4.attrs_t)
  : list Bs4.attrs_t :=
  match l with
  | [] => []
  | at_ :: r =>
      match Bs4.attr_get "src" at_ with
      | Some src =>
          if startswith "data:" src then at_ :: embedded net t r
          else match page_fetch (net t src) with
               | Ok resp =>
                   Bs4.attr_set "src" (ScrapPdf.data_uri resp) at_
                   :: embedded net (S t) r
               | Raise _ => embedded net (S t) r
               end
      | None => at_ :: embedded net t r
      end
  end.

(** The [img] and [link] elements have no children: the HTML parser closes
    them as soon as they are opened. *)
Fixpoint voids_childless (n : node) : bool :=
  match n with
  | Tag nm _ ch =>
      (if String.eqb nm "img" || String.eqb nm "link"
       then match ch with [] => true | _ => false end
       else true)
      && forallb voids_childless ch
  | _ => true
  end.

(** The document without its [script] and [noscript] elements and without
    its comments. *)
Definition unscripted (s : soup) : soup :=
  flat_map (Bs4.prune ScrapPdf.is_comment)
           (flat_map (Bs4.prune ScrapPdf.is_script) s).

(** The image pass over [n] ends normally and makes of the images of [n]
    what [embedded] tells, with one request for each remote image. *)
Definition embeds_exactly (net : Network) (n : node) : Prop :=
  voids_childless n = true ->
  forall st, exists l st',
    ScrapPdf.embed_images net n st = (Done l, st') /\
    imgs l = embedded net (clock st) (imgs [n]) /\
    clock st' = remote_count (imgs [n]) + clock st /\
    forallb voids_childless l = true.

(** Requests made by [crawl] stay in the trace and files that exist stay
    as they are. *)
Definition archive_grows (st st' : State) : Prop :=
  (forall u, u ∈ requests PageGet (trace st) -> u ∈ requests PageGet (trace st')) /\
  (forall p v, files st !! p = Some v -> files st' !! p = Some v).

(** A computation from which no fetch failure escapes. *)
Definition contains_fetch_errors {A : Type} (m : M A) : Prop :=
  forall st detail, (m st).1 <> Raised (RequestException detail).

(** Induction on documents: the children of a tag satisfy the property. *)
Section NodeInduction.
Variable P : node -> Prop.
Hypothesis Htag : forall nm at_ ch, Forall P ch -> P (Tag nm at_ ch).
Hypothesis Hstr : forall t, P (NavigableString t).
Hypothesis Hcom : forall t, P (Comment t).

Fixpoint node_ind (n : node) : P n :=
  match n with
  | Tag nm at_ ch =>
      Htag nm at_ ch
        ((fix all (l : list node) : Forall P l :=
            match l with
            | [] => Forall_nil_2 P
            | c :: r => Forall_cons_2 P c r (node_ind c) (all r)
            end) ch)
  | NavigableString t => Hstr t
  | Comment t => Hcom t
  end.

End NodeInduction.

(** ** Vocabulary of the further properties *)

(** The texts of the comments of a document, in document order. *)
Fixpoint comment_texts (n : node) : list string :=
  match n with
  | Tag _ _ ch => flat_map comment_texts ch
  | NavigableString _ => []
  | Comment t => [t]
  end.

(** An element that is neither [script] nor [noscript]. *)
Definition not_script (e : string * Bs4.attrs_t) : Prop :=
  e.1 <> "script" /\ e.1 <> "noscript".

(** The test of [is_font_link] on the name and the attributes. *)
Definition font_link (e : string * Bs4.attrs_t) : bool :=
  String.eqb e.1 "link" && Bs4.has_token "rel" "stylesheet" e.2
  && existsb (fun host => contains host (default EmptyString (Bs4.attr_get "href" e.2)))
             ScrapPdf.BAD_HOSTS.

(** An [input] whose type, [text] when it has none, is one the renderer
    supports. *)
Definition plain_input (e : string * Bs4.attrs_t) : Prop :=
  e.1 = "input" ->
  default "text" (Bs4.attr_get "type" e.2) ∈ ["text"; "hidden"; "checkbox"].

(** The image pass over [n] ends normally, from any state, and what it
    leaves has the property [Q] of elements and no comment, if [n] has. *)
Definition embeds_keeping (net : Network) (Q : string * Bs4.attrs_t -> Prop)
  (n : node) : Prop :=
  Forall Q (Bs4.elements n) -> comment_texts n = [] ->
  forall st, exists l st',
    ScrapPdf.embed_images net n st = (Done l, st') /\
    Forall Q (Bs4.soup_elements l) /\ flat_map comment_texts l = [].

(** The only effect was a series of image requests, none of them for a
    [data:] URI: [urls] lists them, newest first. *)
Definition fetched_images (urls : list string) (st st' : State) : Prop :=
  visited st' = visited st /\ files st' = files st /\
  clock st' = length urls + clock st /\
  trace st' = (map (Get ImageGet) urls ++ trace st)%list /\
  Forall (fun u => startswith "data:" u = false) urls.

Definition only_remote_images (st st' : State) : Prop :=
  exists urls, fetched_images urls st st'.

(** The sources that the image pass requests: those of the [img] elements
    that are not [data:] URIs, in document order. *)
Definition remote_srcs (s : soup) : list string :=
  filter (fun u => startswith "data:" u = false) (Bs4.img_srcs s).

(** No [img] element has children, as the HTML parser builds them. *)
Fixpoint imgs_void (n : node) : bool :=
  match n with
  | Tag nm _ ch =>
      (if String.eqb nm "img" then match ch with [] => true | _ => false end
       else true)
      && forallb imgs_void ch
  | _ => true
  end.

(** The image pass over [n] requests the remote sources of [n], in
    document order. *)
Definition requests_in_order (net : Network) (n : node) : Prop :=
  imgs_void n = true ->
  forall st, fetched_images (rev (remote_srcs [n])) st
               (ScrapPdf.embed_images net n st).2.

(** The characters of a file name made by [sanitize]. *)
Definition name_char (c : ascii) : bool :=
  is_alnum c || Ascii.eqb c "_" || Ascii.eqb c ".".

(** Every file is as it was, or is a new PDF below [pages/]. *)
Definition archive_only (st st' : State) : Prop :=
  forall p,
    files st' !! p = files st !! p \/
    (files st !! p = None /\ startswith ScrapPdf.PAGES_DIR p = true /\
     endswith ".pdf" p = true).

(** What [save_html_as_pdf] does to the state: nothing is marked, no page
    is requested, and the disk changes by new PDFs only. *)
Definition page_saved (st st' : State) : Prop :=
  visited st' = visited st /\
  (forall s, s <> ImageGet -> requests s (trace st') = requests s (trace st)) /\
  archive_only st st'.

(** The visited set is the set of the URLs requested from [s]. *)
Definition visited_is_requested (s : site) (st : State) : Prop :=
  forall u, u ∈ visited st <-> u ∈ requests s (trace st).

Definition visited_is_requested_kept (s : site) (st st' : State) : Prop :=
  visited_is_requested s st -> visited_is_requested s st'.

(** Nothing was marked and nothing was requested. *)
Definition nothing_marked (st st' : State) : Prop :=
  visited st' = visited st /\
  forall s, requests s (trace st') = requests s (trace st).

(** Every new request from [s] is for a URL that [inside] accepts. *)
Definition scoped (s : site) (inside : string -> Prop) (st st' : State) : Prop :=
  forall u, u ∈ requests s (trace st') -> u ∈ requests s (trace st) \/ inside u.

(** The set [U] of URLs is closed under the links that [crawl] follows:
    whatever page a URL of [U] serves, at any moment, each of its anchors
    that is not a [mailto:] link and resolves to an internal URL resolves
    to a URL of [U]. *)
Definition closed_site (L : Library) (net : Network) (cfg : ScrapPdf.Config)
  (U : gset string) : Prop :=
  forall t url response a_href full,
    url ∈ U -> page_fetch (net t url) = Ok response ->
    a_href ∈ Bs4.find_all_a_href (html_parser L (content response)) ->
    startswith "mailto:" (lower (before "#" a_href)) = false ->
    urljoin L url (before "#" a_href) = Some full ->
    ScrapPdf.is_internal L cfg full = Ok true ->
    full ∈ U.

(** The visited set did not shrink. *)
Definition visited_grows (st st' : State) : Prop := visited st ⊆ visited st'.

(** The pages of the demo site. *)
Definition demo_pages : gset string :=
  {[ "https://example.com/"; "https://example.com/a"; "https://example.com/b";
     "https://example.com/c" ]}.

(** The state with another disk. *)
Definition with_files (disk : gmap string string) (st : State) : State :=
  {| visited := visited st; files := disk; clock := clock st; trace := trace st |}.

(** What a download leaves in the file: the whole body, or the first chunk
    alone when the body comes in chunked transfer encoding. *)
Definition saved (r : Response) : string :=
  if chunked r then default EmptyString (head (body r)) else content r.

(** What one download comes to, from the answer of the network: [count]
    and the state after it. *)
Definition download_result (net : Network) (pdf_url dest : string) (count : nat)
  (st : State) : nat * State :=
  let st1 := requested ReleaseGet pdf_url st in
  let broken := RequestException "connection broken" in
  match net (clock st) pdf_url with
  | Raise e => (count, printed (DownloadFailed pdf_url e) st1)
  | Ok r =>
      if Nat.eqb (status_code r) 403
      then (count, printed (SkipForbidden pdf_url) st1)
      else match ScrapPdf.first_chunk_of r with
           | None => (count, printed (DownloadFailed pdf_url broken) st1)
           | Some c =>
               if ScrapPdf.looks_like_pdf c
               then let st2 := with_files (<[dest := saved r]> (files st)) st1 in
                    if negb (chunked r) && truncated r
                    then (count, printed (DownloadFailed pdf_url broken) st2)
                    else (S count, printed (Downloaded dest pdf_url) st2)
               else (count, printed (SkipNonPdf pdf_url) st1)
           end
  end.

(** The number of downloads reported in a trace. *)
Fixpoint downloads (tr : list event) : nat :=
  match tr with
  | [] => 0
  | Downloaded _ _ :: r => S (downloads r)
  | _ :: r => downloads r
  end.

(** What the harvester may do to the state: nothing is marked visited, the
    requests of the crawlers and of the image pass are as before, and every
    file is as it was or is a new PDF below [releases/]. *)
Definition releases_only (st st' : State) : Prop :=
  visited st' = visited st /\
  (forall s, s <> IndexGet -> s <> ReleaseGet ->
             requests s (trace st') = requests s (trace st)) /\
  forall p,
    files st' !! p = files st !! p \/
    (files st !! p = None /\ startswith ScrapPdf.RELEASES_DIR p = true /\
     endswith ".pdf" p = true).

(** The file [dest] is named after [url] and holds what a download of an
    answer of the network for [url] leaves: an answer whose first chunk
    starts with [%PDF], and whose stream ended properly unless it came in
    chunked transfer encoding. *)
Definition holds_download (L : Library) (net : Network) (disk : gmap string string)
  (dest url : string) : Prop :=
  exists name t r c,
    ScrapPdf.sanitize L url "pdf" = Ok name /\ dest = ScrapPdf.RELEASES_DIR +:+ name /\
    net t url = Ok r /\ head (body r) = Some c /\ ScrapPdf.looks_like_pdf c = true /\
    (chunked r = false -> truncated r = false) /\
    disk !! dest = Some (saved r).

(** Files that exist stay as they are, and every download reported since
    is a file that did not exist and now holds the download. *)
Definition reports_kept (L : Library) (net : Network) (st st' : State) : Prop :=
  (forall p v, files st !! p = Some v -> files st' !! p = Some v) /\
  forall dest url,
    Downloaded dest url ∈ trace st' ->
    Downloaded dest url ∈ trace st \/
    (files st !! dest = None /\ holds_download L net (files st') dest url).

(** The download URL of an anchor of the index page: none when the anchor
    is neither a [.pdf] link nor a Drive link. *)
Definition target (L : Library) (cfg : ScrapPdf.Config) (href : string)
  : result (option string) :=
  if endswith ".pdf" (lower href)
  then match urljoin L (ScrapPdf.BUILD_HISTORY cfg) href with
       | Some u => Ok (Some u)
       | None => Raise ValueError
       end
  else if contains "drive.google.com" href
  then rbind (ScrapPdf.get_drive_direct_link L href) (fun u => Ok (Some u))
  else Ok None.

(** A network on which every download breaks after two chunks. *)
Definition breaking_network : Network := fun _ _ =>
  Ok {| status_code := 200; content_type := None; body := ["%PDF-1.4 "; "par"];
        chunked := false; truncated := true |}.

(** A network on which every body comes in chunked transfer encoding, in
    two chunks. *)
Definition chunking_network : Network := fun _ _ =>
  Ok {| status_code := 200; content_type := None; body := ["%PDF-1.4 "; "notes"];
        chunked := true; truncated := false |}.

(** The element whose text [save_text] saves: the first form row, or else
    the [body]. *)
Definition container (s : soup) : option node :=
  match Bs4.soup_find ScrapWiki.is_grid_row s with
  | Some c => Some c
  | None => Bs4.soup_find ScrapWiki.is_body s
  end.

(** The file that [save_text] writes for a URL, from its parsed form. *)
Definition text_file (parsed : Urllib.ParseResult) : string :=
  or_default (replace_char "/" "_" (strip is_slash (Urllib.path parsed))) "home"
  +:+ ".txt".

(** Every file is as it was, or is a [.txt] file with no [/] in its name;
    no file is removed. *)
Definition text_only (st st' : State) : Prop :=
  forall p,
    files st' !! p = files st !! p \/
    (has_char "/" p = false /\ endswith ".txt" p = true /\ is_Some (files st' !! p)).

(** A site whose every page is a document without elements. *)
Definition bare_network : Network := fun _ _ =>
  Ok {| status_code := 200; content_type := Some "text/html"; body := ["nothing"];
        chunked := false; truncated := false |}.

(* ===================================================================== *)
(** * Properties *)
(* ===================================================================== *)

(** ** Reasoning about runs: relations between the state before and after *)

Section Keeps.
Context (R : State -> State -> Prop) `{!PreOrder R}.

Lemma keeps_ret {A : Type} (a : A) : keeps R (ret a).
Proof. intros st. simpl. reflexivity. Qed.

Lemma keeps_raise {A : Type} (e : exn) : keeps R (@raise A e).
Proof. intros st. simpl. reflexivity. Qed.

Lemma keeps_cutoff {A : Type} : keeps R (@cutoff A).
Proof. intros st. simpl. reflexivity. Qed.

Lemma keeps_lift {A : Type} (r : result A) : keeps R (lift r).
Proof. destruct r; [apply keeps_ret | apply keeps_raise]. Qed.

Lemma keeps_or_value_error {A : Type} (o : option A) : keeps R (or_value_error o).
Proof. destruct o; [apply keeps_ret | apply keeps_raise]. Qed.

Lemma keeps_bind {A B : Type} (m : M A) (k : A -> M B) :
  keeps R m -> (forall a, keeps R (k a)) -> keeps R (bind m k).
Proof.
  intros Hm Hk st. unfold bind.
  specialize (Hm st). destruct (m st) as [[a | e |] st1]; simpl in *; auto.
  etransitivity; [exact Hm | apply Hk].
Qed.

Lemma keeps_try_except {A : Type} (m : M A) (h : exn -> M A) :
  keeps R m -> (forall e, keeps R (h e)) -> keeps R (try_except m h).
Proof.
  intros Hm Hh st. unfold try_except.
  specialize (Hm st). destruct (m st) as [[a | e |] st1]; simpl in *; auto.
  etransitivity; [exact Hm | apply Hh].
Qed.

Lemma keeps_for_each {A : Type} (body : A -> M unit) (l : list A) :
  (forall x, keeps R (body x)) -> keeps R (for_each body l).
Proof.
  intros Hb. induction l as [| x l IH]; simpl.
  - apply keeps_ret.
  - apply keeps_bind; auto.
Qed.

Lemma keeps_for_fold {A B : Type} (body : A -> B -> M B) (l : list A) (b : B) :
  (forall x c, keeps R (body x c)) -> keeps R (for_fold body l b).
Proof.
  intros Hb. revert b. induction l as [| x l IH]; intros b; simpl.
  - apply keeps_ret.
  - apply keeps_bind; auto.
Qed.

Lemma keeps_is_visited (u : string) : keeps R (is_visited u).
Proof. intros st. simpl. reflexivity. Qed.

Lemma keeps_file_exists (p : string) : keeps R (file_exists p).
Proof. intros st. simpl. reflexivity. Qed.

Lemma keeps_raise_for_status (r : Response) : keeps R (raise_for_status r).
Proof.
  unfold raise_for_status.
  destruct (_ && _); [apply keeps_raise | apply keeps_ret].
Qed.

Lemma keeps_flat_mapM (f : node -> M (list node)) (l : list node) :
  Forall (fun n => keeps R (f n)) l -> keeps R (ScrapPdf.flat_mapM f l).
Proof.
  induction 1 as [| n l Hn _ IH]; simpl.
  - apply keeps_ret.
  - apply keeps_bind; [exact Hn |].
    intros a. apply keeps_bind; [exact IH |]. intros b. apply keeps_ret.
Qed.

End Keeps.

Lemma keeps_weaken {A : Type} (R R' : State -> State -> Prop) (m : M A) :
  (forall st st', R st st' -> R' st st') -> keeps R m -> keeps R' m.
Proof. intros Hsub Hm st. apply Hsub, Hm. Qed.

(** ** What the page archiver leaves alone *)

#[global] Instance only_images_preorder : PreOrder only_images.
Proof.
  split.
  - intros st. unfold only_images. auto.
  - intros a b c (Hv1 & Hf1 & Hr1) (Hv2 & Hf2 & Hr2). unfold only_images.
    repeat split; [congruence | congruence |].
    intros s Hs. rewrite Hr2, Hr1; auto.
Qed.

#[global] Instance page_steady_preorder : PreOrder page_steady.
Proof.
  split.
  - intros st. unfold page_steady. auto.
  - intros a b c (Hv1 & Hf1 & Hr1) (Hv2 & Hf2 & Hr2). unfold page_steady.
    repeat split; [set_solver | auto |].
    intros s Hs. rewrite Hr2, Hr1; auto.
Qed.

Lemma only_images_steady st st' : only_images st st' -> page_steady st st'.
Proof.
  intros (Hv & Hf & Hr). unfold page_steady. rewrite Hv, Hf. auto.
Qed.

Lemma requests_cons_other s s' u tr :
  s' <> s -> requests s (Get s' u :: tr) = requests s tr.
Proof. intros H. unfold requests. simpl. destruct (decide (s' = s)); [contradiction | reflexivity]. Qed.

Lemma requests_cons_same s u tr :
  requests s (Get s u :: tr) = u :: requests s tr.
Proof. unfold requests. simpl. destruct (decide (s = s)); [reflexivity | contradiction]. Qed.

Lemma requests_cons_print s e tr :
  (forall s' u, e <> Get s' u) -> requests s (e :: tr) = requests s tr.
Proof. intros H. destruct e; try reflexivity. exfalso. eapply H. reflexivity. Qed.

Section PageArchiver.
Variables (L : Library) (net : Network).

Lemma image_get_only_images u : keeps only_images (session_get net ImageGet false u).
Proof.
  intros st. unfold session_get.
  destruct (net (clock st) u) as [r | e]; [destruct (negb false && truncated r) |];
    simpl; (split; [reflexivity | split; [reflexivity |]]);
    intros s Hs; apply requests_cons_other; congruence.
Qed.

Lemma inline_img_only_images at_ : keeps only_images (ScrapPdf.inline_img net at_).
Proof.
  unfold ScrapPdf.inline_img.
  destruct (Bs4.attr_get "src" at_) as [src |]; [| apply keeps_ret; apply _].
  destruct (PyStr.startswith "data:" src); [apply keeps_ret; apply _ |].
  apply keeps_try_except; [apply _ | | intros; apply keeps_ret; apply _].
  apply keeps_bind; [apply _ | apply image_get_only_images |].
  intros r. apply keeps_bind; [apply _ | apply keeps_raise_for_status; apply _ |].
  intros _. apply keeps_ret; apply _.
Qed.

Lemma embed_images_only_images n : keeps only_images (ScrapPdf.embed_images net n).
Proof.
  induction n as [nm at_ ch IH | t | t] using node_ind; simpl;
    try (apply keeps_ret; apply _).
  assert (Hch : keeps only_images (ScrapPdf.flat_mapM (ScrapPdf.embed_images net) ch))
    by (apply keeps_flat_mapM; [apply _ | exact IH]).
  destruct (String.eqb nm "img").
  - apply keeps_bind; [apply _ | apply inline_img_only_images |].
    intros [at' |]; [| apply keeps_ret; apply _].
    apply keeps_bind; [apply _ | exact Hch |]. intros; apply keeps_ret; apply _.
  - apply keeps_bind; [apply _ | exact Hch |]. intros; apply keeps_ret; apply _.
Qed.

Lemma clean_soup_only_images s : keeps only_images (ScrapPdf.clean_soup net s).
Proof.
  unfold ScrapPdf.clean_soup.
  apply keeps_bind; [apply _ | | intros; apply keeps_ret; apply _].
  apply keeps_flat_mapM; [apply _ |].
  apply Forall_forall. intros n _. apply embed_images_only_images.
Qed.

Lemma clean_html_only_images html : keeps only_images (ScrapPdf.clean_html L net html).
Proof.
  unfold ScrapPdf.clean_html.
  apply keeps_bind; [apply _ | apply clean_soup_only_images |].
  intros; apply keeps_ret; apply _.
Qed.

End PageArchiver.

Section SavePdf.
Variables (L : Library) (net : Network).

(** [save_html_as_pdf], case by case. *)
Lemma save_html_as_pdf_cases url html st :
  ScrapPdf.save_html_as_pdf L net url html st =
  match ScrapPdf.sanitize L url "pdf" with
  | Raise e => (Raised e, st)
  | Ok name =>
      if bool_decide (is_Some (files st !! (ScrapPdf.PAGES_DIR +:+ name)))
      then (Done tt, st)
      else match ScrapPdf.clean_html L net html st with
           | (Done safe, st1) =>
               if negb (Nat.eqb (CreatePDF L safe).1 0)
               then (Done tt, printed (RenderFailed url) st1)
               else (Done tt,
                     printed (SavedPdf (ScrapPdf.PAGES_DIR +:+ name) url)
                       (written (ScrapPdf.PAGES_DIR +:+ name) (CreatePDF L safe).2 st1))
           | (Raised e, st1) => (Raised e, st1)
           | (Cutoff, st1) => (Cutoff, st1)
           end
  end.
Proof.
  unfold ScrapPdf.save_html_as_pdf, bind at 1.
  destruct (ScrapPdf.sanitize L url "pdf") as [name | e]; simpl; [| reflexivity].
  unfold bind at 1, file_exists. simpl.
  destruct (bool_decide _); [reflexivity |].
  unfold bind at 1.
  destruct (ScrapPdf.clean_html L net html st) as [[safe | e |] st1]; try reflexivity.
  destruct (negb _); reflexivity.
Qed.

Lemma save_html_as_pdf_steady url html :
  keeps page_steady (ScrapPdf.save_html_as_pdf L net url html).
Proof.
  intros st. rewrite save_html_as_pdf_cases.
  destruct (ScrapPdf.sanitize L url "pdf") as [name | e]; [| reflexivity].
  case_bool_decide as Hex; [reflexivity |].
  pose proof (clean_html_only_images L net html st) as Hc.
  destruct (ScrapPdf.clean_html L net html st) as [[safe | e |] st1]; simpl in *;
    try (apply only_images_steady; exact Hc).
  destruct Hc as (Hv & Hf & Hr).
  destruct (negb _); simpl; unfold page_steady; simpl;
    rewrite Hv, Hf; (split; [reflexivity | split]);
    try (intros s Hs; rewrite <- (Hr s Hs); reflexivity).
  - auto.
  - intros p v Hp. rewrite lookup_insert_ne; [exact Hp |].
    intros Heq. subst p. apply Hex. eauto.
Qed.

End SavePdf.

(** ** The crawlers, one page at a time *)

#[global] Instance quiet_preorder s : PreOrder (quiet s).
Proof.
  split.
  - intros st. unfold quiet. auto.
  - intros a b c [Hv1 Hr1] [Hv2 Hr2]. unfold quiet. split; [set_solver | congruence].
Qed.

#[global] Instance once_kept_preorder s : PreOrder (once_kept s).
Proof. split; unfold once_kept; [intros st; auto | intros a b c; auto]. Qed.

Lemma quiet_once s st st' : quiet s st st' -> once_kept s st st'.
Proof.
  intros [Hv Hr] [Hnd Hin]. unfold once. rewrite Hr. split; [exact Hnd |].
  intros u Hu. apply Hv, Hin, Hu.
Qed.

Lemma page_steady_quiet s st st' : s <> ImageGet -> page_steady st st' -> quiet s st st'.
Proof. intros Hs (Hv & _ & Hr). split; auto. Qed.

Lemma once_visit s url st : url ∉ visited st -> once s st -> once s (visit s url st).
Proof.
  intros Hnew [Hnd Hin]. unfold once, visit. cbn [trace visited].
  rewrite requests_cons_same. split.
  - apply NoDup_cons. split; [| exact Hnd]. intros Hu. apply Hnew, Hin, Hu.
  - intros u Hu. apply elem_of_cons in Hu as [-> | Hu]; [set_solver |].
    apply elem_of_union_r, Hin, Hu.
Qed.

Lemma quiet_printed s e st :
  (forall s' u, e <> Get s' u) -> quiet s st (printed e st).
Proof. intros He. split; simpl; [reflexivity | apply requests_cons_print, He]. Qed.

Lemma quiet_written s p data st : quiet s st (written p data st).
Proof. split; reflexivity. Qed.

Section Crawl.
Variables (L : Library) (net : Network) (cfg : ScrapPdf.Config).

Lemma crawl_visited fuel url st :
  url ∈ visited st -> ScrapPdf.crawl L net cfg (S fuel) url st = (Done tt, st).
Proof.
  intros Hin. simpl. unfold bind at 1, is_visited. simpl.
  rewrite bool_decide_eq_true_2 by exact Hin. reflexivity.
Qed.

Lemma crawl_step fuel url st :
  url ∉ visited st ->
  ScrapPdf.crawl L net cfg (S fuel) url st =
  match page_fetch (net (clock st) url) with
  | Raise e => (Done tt, printed (FetchFailed url e) (visit PageGet url st))
  | Ok response =>
      bind (ScrapPdf.save_html_as_pdf L net url (content response))
           (fun _ => for_each (follow L net cfg fuel url)
                       (Bs4.find_all_a_href (html_parser L (content response))))
           (visit PageGet url st)
  end.
Proof.
  intros Hnew. simpl. unfold bind at 1, is_visited. simpl.
  rewrite bool_decide_eq_false_2 by exact Hnew.
  unfold bind at 1, mark_visited. simpl.
  unfold bind at 1, try_except, bind at 1, session_get. simpl.
  unfold page_fetch, visit, printed.
  destruct (net (clock st) url) as [resp | e]; simpl; [| reflexivity].
  destruct (truncated resp); simpl; [reflexivity |].
  unfold bind at 1, raise_for_status.
  destruct (_ && _); simpl; reflexivity.
Qed.

Lemma follow_keeps R `{!PreOrder R} fuel url a_href :
  (forall u, keeps R (ScrapPdf.crawl L net cfg fuel u)) ->
  keeps R (follow L net cfg fuel url a_href).
Proof.
  intros IH. unfold follow.
  destruct (PyStr.startswith _ _); [apply keeps_ret; apply _ |].
  apply keeps_bind; [apply _ | apply keeps_or_value_error; apply _ |].
  intros full. apply keeps_bind; [apply _ | apply keeps_lift; apply _ |].
  intros [|]; [apply IH | apply keeps_ret; apply _].
Qed.

Lemma crawl_once fuel : forall url, keeps (once_kept PageGet) (ScrapPdf.crawl L net cfg fuel url).
Proof.
  induction fuel as [| fuel IH]; intros url st; [simpl; reflexivity |].
  destruct (decide (url ∈ visited st)) as [Hin | Hnew].
  - rewrite crawl_visited by exact Hin. reflexivity.
  - rewrite crawl_step by exact Hnew. intros Honce.
    apply (once_visit PageGet url st Hnew) in Honce.
    destruct (page_fetch _) as [response | e].
    + revert Honce. apply (keeps_bind (once_kept PageGet)).
      * eapply keeps_weaken; [| apply save_html_as_pdf_steady].
        intros a b Hab. apply quiet_once, page_steady_quiet; [discriminate | exact Hab].
      * intros _. apply keeps_for_each; [apply _ |].
        intros a_href. apply follow_keeps; [apply _ | exact IH].
    + simpl. revert Honce. apply quiet_once, quiet_printed. discriminate.
Qed.

End Crawl.

Section CrawlPage.
Variables (L : Library) (net : Network) (base : string).

Lemma crawl_page_visited fuel url st :
  url ∈ visited st -> ScrapWiki.crawl_page L net base (S fuel) url st = (Done tt, st).
Proof.
  intros Hin. simpl. unfold bind at 1, is_visited. simpl.
  rewrite bool_decide_eq_true_2 by exact Hin. reflexivity.
Qed.

Lemma crawl_page_step fuel url st :
  url ∉ visited st ->
  ScrapWiki.crawl_page L net base (S fuel) url st =
  match page_fetch (net (clock st) url) with
  | Raise e => (Raised e, visit WikiGet url (printed (Crawling url) st))
  | Ok resp =>
      bind (ScrapWiki.save_text L url (html_parser L (content resp)))
           (fun _ => for_each (follow_nav L net base fuel url)
                       (Bs4.select_nav_hrefs (html_parser L (content resp))))
           (visit WikiGet url (printed (Crawling url) st))
  end.
Proof.
  intros Hnew. simpl. unfold bind at 1, is_visited. simpl.
  rewrite bool_decide_eq_false_2 by exact Hnew.
  unfold bind at 1, print. simpl.
  unfold bind at 1, mark_visited. simpl.
  unfold bind at 1, session_get. simpl.
  unfold page_fetch, visit, printed. simpl.
  destruct (net (clock st) url) as [resp | e]; simpl; [| reflexivity].
  destruct (truncated resp); simpl; [reflexivity |].
  unfold bind at 1, raise_for_status.
  destruct (_ && _); simpl; reflexivity.
Qed.

Lemma save_text_quiet s url sp : keeps (quiet s) (ScrapWiki.save_text L url sp).
Proof.
  unfold ScrapWiki.save_text.
  apply keeps_bind; [apply _ | |].
  { destruct (Bs4.soup_find _ _); [apply keeps_ret; apply _ |].
    destruct (Bs4.soup_find _ _); [apply keeps_ret | apply keeps_raise]; apply _. }
  intros container. apply keeps_bind; [apply _ | apply keeps_lift; apply _ |].
  intros parsed. apply keeps_bind; [apply _ | |].
  { intros st. apply (quiet_written s _ _ st). }
  intros _ st. apply quiet_printed. discriminate.
Qed.

Lemma follow_nav_keeps R `{!PreOrder R} fuel url a_href :
  (forall u, keeps R (ScrapWiki.crawl_page L net base fuel u)) ->
  keeps R (follow_nav L net base fuel url a_href).
Proof.
  intros IH. unfold follow_nav.
  apply keeps_bind; [apply _ | apply keeps_or_value_error; apply _ |].
  intros full. apply keeps_bind; [apply _ | apply keeps_lift; apply _ |].
  intros internal. apply keeps_bind; [apply _ | apply keeps_is_visited; apply _ |].
  intros seen_full.
  destruct (internal && negb seen_full); [apply IH | apply keeps_ret; apply _].
Qed.

Lemma crawl_page_once fuel :
  forall url, keeps (once_kept WikiGet) (ScrapWiki.crawl_page L net base fuel url).
Proof.
  induction fuel as [| fuel IH]; intros url st; [simpl; reflexivity |].
  destruct (decide (url ∈ visited st)) as [Hin | Hnew].
  - rewrite crawl_page_visited by exact Hin. reflexivity.
  - rewrite crawl_page_step by exact Hnew. intros Honce.
    assert (Hv : once WikiGet (visit WikiGet url (printed (Crawling url) st))).
    { apply once_visit; [exact Hnew |].
      revert Honce. apply quiet_once, quiet_printed. discriminate. }
    destruct (page_fetch _) as [resp | e]; [| exact Hv].
    revert Hv. apply (keeps_bind (once_kept WikiGet)).
    + eapply keeps_weaken; [| apply (save_text_quiet WikiGet)].
      intros a b. apply quiet_once.
    + intros _. apply keeps_for_each; [apply _ |].
      intros a_href. apply follow_nav_keeps; [apply _ | exact IH].
Qed.

End CrawlPage.

Lemma once_initial s disk : once s (initial disk).
Proof. split; simpl; [constructor | intros u Hu; inversion Hu]. Qed.

(** C1.  In every run of either crawler, from any start URL and with any
    files already on the disk, no URL is requested twice by the crawl
    operation: the list of the URLs that [crawl] (resp. [crawl_page])
    requested has no duplicate, however the run ends. *)
Theorem C1_each_url_fetched_at_most_once :
  forall (L : Library) (net : Network) (cfg : ScrapPdf.Config) (base : string)
         (disk : gmap string string) (fuel : nat) (start : string),
    NoDup (requests PageGet
             (trace (ScrapPdf.crawl L net cfg fuel start (initial disk)).2)) /\
    NoDup (requests WikiGet
             (trace (ScrapWiki.crawl_page L net base fuel start (initial disk)).2)).
Proof.
  intros L net cfg base disk fuel start. split.
  - apply (crawl_once L net cfg fuel start (initial disk)), once_initial.
  - apply (crawl_page_once L net base fuel start (initial disk)), once_initial.
Qed.

(** ** The two internal-link predicates *)

(** C2, counterexample.  With [example.com] as the host of the start URL,
    the predicate of [scrap_wiki.py] accepts [https://other.example.com/x]:
    the host [other.example.com] ends with [example.com]. *)
Lemma C2_endswith_accepts_subdomain :
  ScrapWiki.base_netloc Demo.library "https://example.com/" = Ok "example.com" /\
  ScrapWiki.is_internal Demo.library "example.com" "https://other.example.com/x"
  = Ok true.
Proof. split; vm_compute; reflexivity. Qed.

(** C2, amended.  For every root URL whose host is [example.com]: the
    exact-match predicate of [scrap_pdf.py] rejects
    [https://other.example.com/x] and accepts [/relative/path]; the
    [endswith] predicate of [scrap_wiki.py], whose [base_netloc] is then
    [example.com], accepts [/relative/path] and also accepts
    [https://other.example.com/x]. *)
Theorem C2_is_internal_variants :
  forall (L : Library) (cfg : ScrapPdf.Config) (START_URL base : string),
    ScrapWiki.base_netloc L (ScrapPdf.ROOT_URL cfg) = Ok "example.com" ->
    ScrapWiki.base_netloc L START_URL = Ok base ->
    base = "example.com" ->
    ScrapPdf.is_internal L cfg "https://other.example.com/x" = Ok false /\
    ScrapPdf.is_internal L cfg "/relative/path" = Ok true /\
    ScrapWiki.is_internal L base "/relative/path" = Ok true /\
    ScrapWiki.is_internal L base "https://other.example.com/x" = Ok true.
Proof.
  intros L cfg START_URL base Hroot _ ->.
  unfold ScrapWiki.base_netloc in Hroot.
  split; [| repeat split].
  unfold ScrapPdf.is_internal.
  change (Urllib.urlparse L "https://other.example.com/x")
    with (Ok {| Urllib.scheme := "https"; Urllib.netloc := "other.example.com";
                Urllib.path := "/x"; Urllib.params := ""; Urllib.query := "";
                Urllib.fragment := "" |}).
  simpl. destruct (Urllib.urlparse L (ScrapPdf.ROOT_URL cfg)) as [r | e];
    simpl in *; [| discriminate].
  inversion Hroot as [Hnl]. rewrite Hnl. reflexivity.
Qed.

(** The theorem applies to the demo site, whose root is on [example.com]. *)
Lemma C2_is_internal_variants_witness :
  ScrapPdf.is_internal Demo.library Demo.config "https://other.example.com/x" = Ok false /\
  ScrapPdf.is_internal Demo.library Demo.config "/relative/path" = Ok true /\
  ScrapWiki.is_internal Demo.library "example.com" "/relative/path" = Ok true /\
  ScrapWiki.is_internal Demo.library "example.com" "https://other.example.com/x" = Ok true.
Proof.
  apply (C2_is_internal_variants Demo.library Demo.config Demo.root "example.com");
    vm_compute; reflexivity.
Defined.

(** ** File names *)

Lemma hex_digit_lower n : (n < 16)%N -> is_lower_hex (Sha1.hex_digit n) = true.
Proof.
  intros H. destruct n as [| p]; [reflexivity |].
  repeat (destruct p as [p | p |]; try reflexivity; try (exfalso; lia)).
Qed.

Lemma land_15_lt x : (N.land x 15 < 16)%N.
Proof.
  change 15%N with (N.ones 4). rewrite N.land_ones.
  apply N.mod_lt. discriminate.
Qed.

Lemma hex32_length w : String.length (Sha1.hex32 w) = 8.
Proof. reflexivity. Qed.

Lemma hex32_lower w : forallb_s is_lower_hex (Sha1.hex32 w) = true.
Proof.
  unfold Sha1.hex32. cbn [map string_of_list_ascii forallb_s].
  rewrite !hex_digit_lower by apply land_15_lt. reflexivity.
Qed.

(** The first eight characters of the digest are its first word. *)
Lemma hexdigest_take8 s : exists w, take 8 (Sha1.hexdigest s) = Sha1.hex32 w.
Proof.
  unfold Sha1.hexdigest, Sha1.digest_words. cbv zeta.
  set (h := fold_left _ _ _). exists (Sha1.ra h). reflexivity.
Qed.

Lemma re_sub_slug_chars b s :
  forallb_s slug_char (ScrapPdf.re_sub_nonalnum b s) = true.
Proof.
  revert b. induction s as [| c s IH]; intros b; simpl; [reflexivity |].
  destruct (is_alnum c) eqn:Hc; simpl.
  - unfold slug_char at 1. rewrite Hc. simpl. apply IH.
  - destruct b; simpl; apply IH.
Qed.

Lemma re_sub_alnums b s : alnums (ScrapPdf.re_sub_nonalnum b s) = alnums s.
Proof.
  unfold alnums. revert b. induction s as [| c s IH]; intros b; simpl; [reflexivity |].
  destruct (is_alnum c) eqn:Hc; simpl.
  - rewrite Hc. simpl. f_equal. apply IH.
  - destruct b; simpl; apply IH.
Qed.

Lemma re_sub_in_run_start s :
  starts_with_underscore (ScrapPdf.re_sub_nonalnum true s) = false.
Proof.
  induction s as [| c s IH]; simpl; [reflexivity |].
  destruct (is_alnum c) eqn:Hc; simpl; [| exact IH].
  destruct (Ascii.eqb_spec c "_") as [-> |]; [discriminate | reflexivity].
Qed.

Lemma no_double_cons c s :
  no_double_underscore (String c s) =
  negb (Ascii.eqb c "_" && starts_with_underscore s) && no_double_underscore s.
Proof. destruct s as [| d s]; simpl; [rewrite andb_false_r |]; reflexivity. Qed.

Lemma re_sub_no_double b s :
  no_double_underscore (ScrapPdf.re_sub_nonalnum b s) = true.
Proof.
  revert b. induction s as [| c s IH]; intros b; [reflexivity |].
  cbn [ScrapPdf.re_sub_nonalnum].
  destruct (is_alnum c) eqn:Hc.
  - rewrite no_double_cons, IH.
    destruct (Ascii.eqb_spec c "_") as [-> |]; [discriminate | reflexivity].
  - destruct b; [apply IH |].
    rewrite no_double_cons, IH, re_sub_in_run_start. reflexivity.
Qed.

(** C7, counterexample.  For [https://example.com/docs/intro] the name so
    specified would begin with an underscore and have no extension;
    [sanitize] strips the slashes at both ends of the path first and
    appends the extension, and it names an empty path [page]. *)
Lemma C7_name_differs_from_specified :
  ScrapPdf.sanitize Demo.library "https://example.com/docs/intro" "pdf"
  = Ok "docs_intro_421390e1.pdf" /\
  name_as_specified Demo.library "https://example.com/docs/intro"
  = Ok "_docs_intro_421390e1" /\
  ScrapPdf.sanitize Demo.library "https://example.com/docs/intro" "pdf"
  <> name_as_specified Demo.library "https://example.com/docs/intro" /\
  ScrapPdf.sanitize Demo.library "https://example.com" "pdf" = Ok "page_327c3fda.pdf".
Proof.
  split; [vm_compute; reflexivity |]. split; [vm_compute; reflexivity |].
  split; [vm_compute; discriminate | vm_compute; reflexivity].
Qed.

Lemma rev_onto_remove q s acc :
  remove_chars q (rev_onto s acc) = rev_onto (remove_chars q s) (remove_chars q acc).
Proof.
  revert acc. induction s as [| c s IH]; intros acc; simpl; [reflexivity |].
  rewrite IH. simpl. destruct (q c); reflexivity.
Qed.

Lemma rev_onto_rev_onto s a b :
  rev_onto (rev_onto s a) b = rev_onto a (s +:+ b).
Proof.
  revert a b. induction s as [| c s IH]; intros a b; simpl; [reflexivity |].
  rewrite IH. reflexivity.
Qed.

Lemma reverse_reverse s : reverse (reverse s) = s.
Proof.
  unfold reverse. rewrite rev_onto_rev_onto. simpl.
  induction s as [| c s IH]; [reflexivity |].
  change (String c s +:+ "") with (String c (s +:+ "")). rewrite IH. reflexivity.
Qed.

Lemma alnums_drop_while q s :
  (forall c, q c = true -> is_alnum c = false) ->
  alnums (drop_while q s) = alnums s.
Proof.
  intros Hq. unfold alnums. induction s as [| c s IH]; simpl; [reflexivity |].
  destruct (q c) eqn:Hc; [| reflexivity].
  rewrite (Hq c Hc). simpl. exact IH.
Qed.

Lemma alnums_reverse s : alnums (reverse s) = reverse (alnums s).
Proof. unfold alnums, reverse. apply rev_onto_remove. Qed.

Lemma alnums_strip q s :
  (forall c, q c = true -> is_alnum c = false) ->
  alnums (strip q s) = alnums s.
Proof.
  intros Hq. unfold strip, rstrip, lstrip.
  rewrite alnums_reverse, alnums_drop_while, alnums_reverse, reverse_reverse by exact Hq.
  apply alnums_drop_while, Hq.
Qed.

Lemma slash_not_alnum c : is_slash c = true -> is_alnum c = false.
Proof. unfold is_slash. intros H. apply Ascii.eqb_eq in H. subst c. reflexivity. Qed.

(** C7, amended.  [sanitize(url, ext)] is a function of its arguments: for
    a URL that [urlparse] accepts it returns [slug_hash8.ext], where [slug]
    is the path without the slashes at its two ends and with every run of
    non-alphanumeric characters replaced by one underscore ([page] when
    nothing is left), and [hash8] is the first eight hexadecimal digits of
    the SHA-1 of the URL.  The slug is not empty, is made of letters,
    digits and single underscores, and keeps the letters and digits of the
    path in order. *)
Theorem C7_sanitize_format :
  forall (L : Library) (url ext : string) (parsed : Urllib.ParseResult),
    Urllib.urlparse L url = Ok parsed ->
    let collapsed :=
      ScrapPdf.re_sub_nonalnum false (strip is_slash (Urllib.path parsed)) in
    let slug := or_default collapsed "page" in
    let hash8 := take 8 (Sha1.hexdigest url) in
    ScrapPdf.sanitize L url ext = Ok (slug +:+ "_" +:+ hash8 +:+ "." +:+ ext) /\
    slug <> "" /\
    forallb_s slug_char slug = true /\
    no_double_underscore slug = true /\
    (collapsed = "" \/ alnums slug = alnums (Urllib.path parsed)) /\
    String.length hash8 = 8 /\
    forallb_s is_lower_hex hash8 = true.
Proof.
  intros L url ext parsed Hp collapsed slug hash8.
  split; [| split; [| split; [| split; [| split; [| split]]]]].
  - unfold ScrapPdf.sanitize. rewrite Hp. reflexivity.
  - unfold slug, or_default. destruct collapsed; simpl; discriminate.
  - unfold slug, or_default. destruct (is_empty collapsed); [reflexivity |].
    apply re_sub_slug_chars.
  - unfold slug, or_default. destruct (is_empty collapsed); [reflexivity |].
    apply re_sub_no_double.
  - unfold slug, or_default. destruct collapsed eqn:Hc; [left; reflexivity | right].
    simpl is_empty. cbv iota. rewrite <- Hc. unfold collapsed.
    rewrite re_sub_alnums. apply alnums_strip, slash_not_alnum.
  - unfold hash8. destruct (hexdigest_take8 url) as [w ->]. apply hex32_length.
  - unfold hash8. destruct (hexdigest_take8 url) as [w ->]. apply hex32_lower.
Qed.

Lemma C7_sanitize_format_witness :
  ScrapPdf.sanitize Demo.library "https://example.com/docs/intro" "pdf"
  = Ok ("docs_intro" +:+ "_" +:+ "421390e1" +:+ "." +:+ "pdf").
Proof.
  exact (proj1 (C7_sanitize_format Demo.library "https://example.com/docs/intro" "pdf"
                  {| Urllib.scheme := "https"; Urllib.netloc := "example.com";
                     Urllib.path := "/docs/intro"; Urllib.params := "";
                     Urllib.query := ""; Urllib.fragment := "" |}
                  eq_refl)).
Defined.

(** ** Drive links *)

Lemma take_while_nonempty p s :
  negb (is_empty (take_while p s)) = starts_with p s.
Proof. destruct s as [| c s]; simpl; [reflexivity |]. destruct (p c); reflexivity. Qed.

Lemma search_d_cons c s :
  ScrapPdf.search_d (String c s) =
  if segment_here (String c s)
  then Some (take_while ScrapPdf.id_char (drop 3 (String c s)))
  else ScrapPdf.search_d s.
Proof.
  unfold segment_here. rewrite <- take_while_nonempty. reflexivity.
Qed.

Lemma append_nil (s : string) : "" +:+ s = s.
Proof. reflexivity. Qed.

Lemma append_cons (c : ascii) (a b : string) : String c a +:+ b = String c (a +:+ b).
Proof. reflexivity. Qed.

(** Appends with a concrete left part are pushed through its characters. *)
Ltac push_app := repeat first [rewrite append_nil | rewrite append_cons].
Ltac push_app_in H := repeat first [rewrite append_nil in H | rewrite append_cons in H].

Lemma startswith_app p s : startswith p (p +:+ s) = true.
Proof.
  unfold startswith. induction p as [| c p IH]; push_app; simpl.
  - destruct s; reflexivity.
  - destruct (ascii_dec c c); [exact IH | contradiction].
Qed.

Lemma startswith_inv p s : startswith p s = true -> exists r, s = p +:+ r.
Proof.
  unfold startswith. revert s. induction p as [| c p IH]; intros s H.
  - exists s. reflexivity.
  - destruct s as [| d s]; simpl in H; [discriminate |].
    destruct (ascii_dec c d) as [-> |]; [| discriminate].
    destruct (IH s H) as [r ->]. exists r. reflexivity.
Qed.

Lemma segment_here_inv s :
  segment_here s = true ->
  exists c rest, s = "/d/" +:+ String c rest /\ ScrapPdf.id_char c = true.
Proof.
  unfold segment_here. intros H. apply andb_true_iff in H as [Hp Hc].
  apply startswith_inv in Hp as [r ->]. push_app_in Hc. simpl in Hc.
  destruct r as [| c rest]; simpl in Hc; [discriminate |].
  exists c, rest. split; [reflexivity | exact Hc].
Qed.

(** [search_d] finds nothing exactly when there is no such segment. *)
Lemma search_d_None_iff s : ScrapPdf.search_d s = None <-> ~ has_drive_segment s.
Proof.
  induction s as [| a s IH].
  - split; [| reflexivity]. intros _ (pre & c & rest & H & _).
    destruct pre; discriminate.
  - rewrite search_d_cons. destruct (segment_here (String a s)) eqn:Hh.
    + split; [discriminate |]. intros Hn. exfalso. apply Hn.
      destruct (segment_here_inv _ Hh) as (c & rest & Hs & Hc).
      exists "", c, rest. split; [exact Hs | exact Hc].
    + rewrite IH. split; intros Hn (pre & c & rest & Hs & Hc); apply Hn.
      * destruct pre as [| b pre].
        -- exfalso. push_app_in Hs. rewrite Hs in Hh. unfold segment_here in Hh.
           simpl in Hh. rewrite Hc in Hh. discriminate.
        -- push_app_in Hs. inversion Hs. subst. exists pre, c, rest. auto.
      * exists (String a pre), c, rest. subst s. auto.
Qed.

(** A position that is followed by [/d/] and more decides as it does when
    followed by [/d/] alone, unless it is the segment itself. *)
Lemma segment_here_extend a p t :
  segment_here (String a p +:+ "/d/" +:+ t) = segment_here (String a p +:+ "/d/").
Proof.
  unfold segment_here, startswith.
  destruct p as [| b [| c [| d p]]]; push_app; simpl;
    repeat match goal with
           | |- context [ascii_dec ?x ?y] => destruct (ascii_dec x y); simpl
           end; reflexivity.
Qed.

Lemma take_while_app_stop p id rest :
  forallb_s p id = true -> starts_with p rest = false ->
  take_while p (id +:+ rest) = id.
Proof.
  intros Hid Hrest. induction id as [| c id IH]; push_app; simpl in *.
  - destruct rest as [| r rest]; simpl in *; [reflexivity |]. rewrite Hrest. reflexivity.
  - apply andb_true_iff in Hid as [Hc Hid]. rewrite Hc, IH by exact Hid. reflexivity.
Qed.

Lemma search_d_first_segment pre id rest :
  ~ has_drive_segment (pre +:+ "/d/") ->
  id <> "" -> forallb_s ScrapPdf.id_char id = true ->
  starts_with ScrapPdf.id_char rest = false ->
  ScrapPdf.search_d (pre +:+ "/d/" +:+ id +:+ rest) = Some id.
Proof.
  intros Hfirst Hne Hid Hrest. apply search_d_None_iff in Hfirst.
  induction pre as [| a pre IH].
  - destruct id as [| c id]; [contradiction |].
    change ("" +:+ "/d/" +:+ String c id +:+ rest)
      with (String "/" ("d/" +:+ String c id +:+ rest)).
    rewrite search_d_cons.
    change (drop 3 (String "/" ("d/" +:+ String c id +:+ rest)))
      with (String c id +:+ rest).
    rewrite take_while_app_stop by assumption.
    unfold segment_here. simpl in *.
    apply andb_true_iff in Hid as [-> _]. reflexivity.
  - change (String a pre +:+ "/d/") with (String a (pre +:+ "/d/")) in Hfirst.
    rewrite search_d_cons in Hfirst.
    change (String a pre +:+ "/d/" +:+ id +:+ rest)
      with (String a (pre +:+ "/d/" +:+ id +:+ rest)).
    rewrite search_d_cons.
    change (String a (pre +:+ "/d/" +:+ id +:+ rest))
      with (String a pre +:+ "/d/" +:+ (id +:+ rest)).
    rewrite segment_here_extend.
    change (String a pre +:+ "/d/") with (String a (pre +:+ "/d/")).
    destruct (segment_here (String a (pre +:+ "/d/"))); [discriminate |].
    apply IH, Hfirst.
Qed.

Lemma qs_first_None L key qs :
  (forall v, (key, v) ∉ Urllib.parse_qsl L qs) -> Urllib.qs_first L key qs = None.
Proof.
  intros Hno. unfold Urllib.qs_first.
  destruct (filter _ _) as [| [k v] l] eqn:Hf; [reflexivity |].
  exfalso. assert (Hin : (k, v) ∈ filter (fun nv => nv.1 = key) (Urllib.parse_qsl L qs))
    by (rewrite Hf; left).
  apply list_elem_of_filter in Hin as [Hk Hin]. simpl in Hk. subst k.
  exact (Hno v Hin).
Qed.

Lemma get_drive_direct_link_by_path L href id :
  ScrapPdf.search_d href = Some id -> id <> "" ->
  ScrapPdf.get_drive_direct_link L href = Ok (ScrapPdf.direct_link id).
Proof.
  intros Hs Hne. unfold ScrapPdf.get_drive_direct_link. rewrite Hs. simpl.
  destruct id; [contradiction | reflexivity].
Qed.

Lemma get_drive_direct_link_by_query L href parsed :
  ScrapPdf.search_d href = None -> Urllib.urlparse L href = Ok parsed ->
  ScrapPdf.get_drive_direct_link L href =
  match Urllib.qs_first L "id" (Urllib.query parsed) with
  | Some (String c id) => Ok (ScrapPdf.direct_link (String c id))
  | _ => Ok href
  end.
Proof.
  intros Hs Hp. unfold ScrapPdf.get_drive_direct_link. rewrite Hs, Hp. simpl.
  destruct (Urllib.qs_first _ _ _) as [[| c id] |]; reflexivity.
Qed.

(** ** The query of a URL, seen on the URL itself *)

Lemma append_nil_r (s : string) : s +:+ "" = s.
Proof. induction s as [| c s IH]; push_app; [reflexivity | rewrite IH; reflexivity]. Qed.

Lemma append_assoc (a b c : string) : (a +:+ b) +:+ c = a +:+ b +:+ c.
Proof. induction a as [| x a IH]; push_app; [reflexivity | rewrite IH; reflexivity]. Qed.

Lemma lacks_cons cs c s : lacks cs (String c s) = negb (has_char c cs) && lacks cs s.
Proof. reflexivity. Qed.

Lemma has_char_cons c a s : has_char c (String a s) = Ascii.eqb c a || has_char c s.
Proof. reflexivity. Qed.

Lemma cut_found c b r : has_char c b = false -> cut c (b +:+ String c r) = Some (b, r).
Proof.
  induction b as [| a b IH]; push_app; intros H.
  - simpl. rewrite Ascii.eqb_refl. reflexivity.
  - rewrite has_char_cons in H. apply orb_false_iff in H as [Ha Hb].
    rewrite Ascii.eqb_sym in Ha. simpl. rewrite Ha, IH by exact Hb. reflexivity.
Qed.

Lemma cut_later c b r :
  has_char c b = false ->
  cut c (b +:+ r) = match cut c r with
                    | Some (x, y) => Some (b +:+ x, y)
                    | None => None
                    end.
Proof.
  induction b as [| a b IH]; push_app; intros H.
  - destruct (cut c r) as [[x y] |]; reflexivity.
  - rewrite has_char_cons in H. apply orb_false_iff in H as [Ha Hb].
    rewrite Ascii.eqb_sym in Ha. simpl. rewrite Ha, IH by exact Hb.
    destruct (cut c r) as [[x y] |]; reflexivity.
Qed.

Lemma cut_absent c s : has_char c s = false -> cut c s = None.
Proof.
  induction s as [| a s IH]; [reflexivity |]. rewrite has_char_cons. intros H.
  apply orb_false_iff in H as [Ha Hs]. rewrite Ascii.eqb_sym in Ha.
  simpl. rewrite Ha, (IH Hs). reflexivity.
Qed.

Lemma cut_inv c s b r :
  cut c s = Some (b, r) -> s = b +:+ String c r /\ has_char c b = false.
Proof.
  revert b. induction s as [| a s IH]; simpl; intros b H; [discriminate |].
  destruct (Ascii.eqb a c) eqn:Ha.
  - inversion H. subst. apply Ascii.eqb_eq in Ha. subst. split; reflexivity.
  - destruct (cut c s) as [[x y] |]; [| discriminate]. inversion H. subst.
    destruct (IH x eq_refl) as [-> Hx]. split; [reflexivity |].
    rewrite has_char_cons, Ascii.eqb_sym, Ha. exact Hx.
Qed.

Lemma has_char_lacks c cs s : lacks cs s = true -> has_char c cs = true -> has_char c s = false.
Proof.
  intros Hl Hc. induction s as [| a s IH]; [reflexivity |].
  rewrite lacks_cons in Hl. apply andb_true_iff in Hl as [Ha Hs].
  rewrite has_char_cons, (IH Hs), orb_false_r.
  destruct (Ascii.eqb_spec c a) as [-> |]; [| reflexivity].
  rewrite Hc in Ha. discriminate.
Qed.

Lemma lacks_app cs a b : lacks cs (a +:+ b) = lacks cs a && lacks cs b.
Proof.
  induction a as [| c a IH]; push_app; [reflexivity |].
  rewrite !lacks_cons, IH, andb_assoc. reflexivity.
Qed.

(** Two ways to cut the same string at a first mark. *)
Lemma two_cuts x y pre rest b q :
  pre +:+ String x rest = b +:+ String y q ->
  x <> y -> has_char y pre = false -> has_char y b = false ->
  exists b2, b = pre +:+ String x b2 /\ rest = b2 +:+ String y q.
Proof.
  intros Heq Hxy Hpre Hb. revert b Heq Hb.
  induction pre as [| p pre IH]; intros b Heq Hb; push_app_in Heq.
  - destruct b as [| a b]; push_app_in Heq; inversion Heq; [contradiction |].
    subst. exists b. split; reflexivity.
  - rewrite has_char_cons in Hpre. apply orb_false_iff in Hpre as [Hp Hpre'].
    destruct b as [| a b]; push_app_in Heq; inversion Heq; subst.
    + rewrite Ascii.eqb_refl in Hp. discriminate.
    + rewrite has_char_cons in Hb. apply orb_false_iff in Hb as [_ Hb].
      destruct (IH Hpre' b H1 Hb) as (b2 & -> & ->).
      exists b2. split; reflexivity.
Qed.

Lemma forallb_s_has p c s : forallb_s p s = true -> p c = false -> has_char c s = false.
Proof.
  intros Hall Hc. induction s as [| a s IH]; [reflexivity |].
  simpl in Hall. apply andb_true_iff in Hall as [Ha Hs].
  rewrite has_char_cons, (IH Hs), orb_false_r.
  destruct (Ascii.eqb_spec c a) as [-> |]; [congruence | reflexivity].
Qed.

Lemma split_scheme_marks q u : marks_query q u -> marks_query q (Urllib.split_scheme u).2.
Proof.
  intros (b & Hu & Hb). unfold Urllib.split_scheme.
  destruct (cut ":" u) as [[pre rest] |] eqn:Hcut; [| exists b; auto].
  destruct pre as [| c0 pre]; [exists b; auto |].
  destruct (is_alpha c0 && forallb_s Urllib.scheme_char (String c0 pre)) eqn:Hs;
    [| exists b; auto].
  apply andb_true_iff in Hs as [_ Hs]. simpl.
  apply cut_inv in Hcut as [Hu' _]. rewrite Hu in Hu'.
  assert (Hq : has_char "?" (String c0 pre) = false)
    by (eapply forallb_s_has; [exact Hs | reflexivity]).
  assert (Hb' : has_char "?" b = false)
    by (eapply has_char_lacks; [exact Hb | reflexivity]).
  destruct (two_cuts ":" "?" (String c0 pre) rest b q (eq_sym Hu')) as (b2 & -> & ->);
    [discriminate | exact Hq | exact Hb' |].
  exists b2. split; [reflexivity |].
  rewrite lacks_app, lacks_cons in Hb. apply andb_true_iff in Hb as [_ Hb].
  apply andb_true_iff in Hb as [_ Hb]. exact Hb.
Qed.

Lemma drop_while_marks q b :
  lacks "?#" b = true ->
  marks_query q (drop_while (fun c => negb (Urllib.netloc_delim c)) (b +:+ String "?" q)).
Proof.
  intros Hb. induction b as [| c b IH]; push_app.
  - simpl. exists "". split; reflexivity.
  - rewrite lacks_cons in Hb. apply andb_true_iff in Hb as [Hc Hb'].
    simpl. destruct (negb (Urllib.netloc_delim c)).
    + apply IH, Hb'.
    + exists (String c b). split; [reflexivity |].
      rewrite lacks_cons, Hc, Hb'. reflexivity.
Qed.

Lemma startswith_cons a p b s :
  startswith (String a p) (String b s) = Ascii.eqb a b && startswith p s.
Proof.
  unfold startswith. cbn [String.prefix].
  destruct (ascii_dec a b) as [-> | Hn].
  - rewrite Ascii.eqb_refl. reflexivity.
  - destruct (Ascii.eqb_spec a b); [contradiction | reflexivity].
Qed.

Lemma split_netloc_marks q u : marks_query q u -> marks_query q (Urllib.split_netloc u).2.
Proof.
  intros (b & -> & Hb). unfold Urllib.split_netloc.
  destruct (startswith "//" (b +:+ String "?" q)) eqn:Hs; [| exists b; auto].
  simpl.
  destruct b as [| c1 [| c2 b]]; push_app_in Hs; push_app;
    rewrite ?startswith_cons in Hs.
  - discriminate.
  - rewrite andb_false_r in Hs. discriminate.
  - rewrite !lacks_cons in Hb. apply andb_true_iff in Hb as [_ Hb].
    apply andb_true_iff in Hb as [_ Hb].
    apply (drop_while_marks q b Hb).
Qed.

Lemma split_query_marks q u :
  marks_query q u ->
  (Urllib.split_at "?" (Urllib.split_at "#" u).1).2 = before "#" q.
Proof.
  intros (b & -> & Hb).
  assert (Hh : has_char "#" b = false) by (eapply has_char_lacks; [exact Hb | reflexivity]).
  assert (Hq : has_char "?" b = false) by (eapply has_char_lacks; [exact Hb | reflexivity]).
  unfold Urllib.split_at at 2, before.
  rewrite (cut_later "#" b (String "?" q) Hh). simpl.
  destruct (cut "#" q) as [[x y] |]; simpl;
    unfold Urllib.split_at; rewrite (cut_found "?" b _ Hq); reflexivity.
Qed.

Lemma lstrip_clean s :
  printable s = true ->
  remove_chars Urllib.unsafe_byte (lstrip Urllib.c0_or_space s) = s.
Proof.
  unfold printable. intros Hc. unfold lstrip.
  assert (Hd : drop_while Urllib.c0_or_space s = s).
  { destruct s as [| c s]; [reflexivity |]. simpl in *.
    apply andb_true_iff in Hc as [Hc _]. apply negb_true_iff in Hc. rewrite Hc. reflexivity. }
  rewrite Hd. induction s as [| c s IH]; [reflexivity |].
  simpl in *. apply andb_true_iff in Hc as [Hc Hs].
  assert (Hu : Urllib.unsafe_byte c = false).
  { apply negb_true_iff in Hc. unfold Urllib.unsafe_byte, Urllib.c0_or_space in *.
    apply N.leb_gt in Hc.
    repeat (apply orb_false_iff; split); apply N.eqb_neq; lia. }
  rewrite Hu. f_equal. apply IH; [exact Hs |].
  destruct s as [| d s]; [reflexivity |]. simpl in *.
  apply andb_true_iff in Hs as [Hd' _]. apply negb_true_iff in Hd'. rewrite Hd'. reflexivity.
Qed.

(** The query that [urlparse] finds in [b?q], when [b] has no [?] and no
    [#], is [q] up to its first [#]. *)
Lemma urlparse_query L b q parsed :
  printable (b +:+ String "?" q) = true -> lacks "?#" b = true ->
  Urllib.urlparse L (b +:+ String "?" q) = Ok parsed ->
  Urllib.query parsed = before "#" q.
Proof.
  intros Hclean Hb. unfold Urllib.urlparse, Urllib.urlsplit.
  rewrite (lstrip_clean _ Hclean).
  assert (Hm : marks_query q (b +:+ String "?" q)) by (exists b; auto).
  apply split_scheme_marks in Hm.
  destruct (Urllib.split_scheme _) as [sch u1]. simpl in Hm.
  apply split_netloc_marks in Hm.
  destruct (Urllib.split_netloc u1) as [nl u2]. simpl in Hm.
  apply split_query_marks in Hm.
  destruct (Urllib.split_at "#" u2) as [u3 frag]. simpl in Hm.
  destruct (Urllib.split_at "?" u3) as [u4 qry]. simpl in Hm. subst qry.
  destruct (Urllib.netloc_accepted L nl); simpl; [| discriminate].
  destruct (_ && _); [destruct (Urllib.splitparams u4) |];
    intros H; inversion H; reflexivity.
Qed.

Lemma split_first c b r :
  has_char c b = false -> exists l, split c (b +:+ String c r) = b :: l.
Proof.
  intros H. induction b as [| a b IH]; push_app.
  - simpl. rewrite Ascii.eqb_refl. eauto.
  - rewrite has_char_cons in H. apply orb_false_iff in H as [Ha Hb].
    rewrite Ascii.eqb_sym in Ha. simpl. rewrite Ha.
    destruct (IH Hb) as [l ->]. eauto.
Qed.

Lemma split_none c b : has_char c b = false -> split c b = [b].
Proof.
  intros H. induction b as [| a b IH]; [reflexivity |].
  rewrite has_char_cons in H. apply orb_false_iff in H as [Ha Hb].
  rewrite Ascii.eqb_sym in Ha. simpl. rewrite Ha, (IH Hb). reflexivity.
Qed.

Lemma id_char_plain c :
  ScrapPdf.id_char c = true -> has_char c "%+=&#?" = false.
Proof.
  intros H. destruct (has_char c "%+=&#?") eqn:Hc; [| reflexivity].
  exfalso. unfold has_char in Hc. simpl in Hc.
  repeat match type of Hc with
         | (Ascii.eqb c ?x || _) = true =>
             apply orb_true_iff in Hc as [Hc | Hc];
             [apply Ascii.eqb_eq in Hc; subst c; discriminate |]
         end.
  discriminate.
Qed.

Lemma id_lacks id : forallb_s ScrapPdf.id_char id = true -> lacks "%+=&#?" id = true.
Proof.
  induction id as [| c id IH]; [reflexivity |]. simpl. intros H.
  apply andb_true_iff in H as [Hc Hid]. rewrite lacks_cons, (IH Hid), andb_true_r.
  rewrite (id_char_plain c Hc). reflexivity.
Qed.

Lemma replace_char_absent a b s : has_char a s = false -> replace_char a b s = s.
Proof.
  induction s as [| c s IH]; [reflexivity |]. rewrite has_char_cons. intros H.
  apply orb_false_iff in H as [Hc Hs]. rewrite Ascii.eqb_sym in Hc.
  simpl. rewrite Hc, (IH Hs). reflexivity.
Qed.

Lemma unquote_plus_plain L s : lacks "%+=&#?" s = true -> Urllib.unquote_plus L s = s.
Proof.
  intros H. unfold Urllib.unquote_plus, Urllib.unquote.
  rewrite replace_char_absent by (eapply has_char_lacks; [exact H | reflexivity]).
  rewrite (has_char_lacks "%" _ s H) by reflexivity. reflexivity.
Qed.

(** The value of the field [id] when the query begins with [id=]. *)
Lemma qs_first_leading_id L id tail :
  id <> "" -> forallb_s ScrapPdf.id_char id = true ->
  tail = "" \/ starts_with (fun c => has_char c "&#") tail = true ->
  Urllib.qs_first L "id" (before "#" ("id=" +:+ id +:+ tail)) = Some id.
Proof.
  intros Hne Hid Htail. pose proof (id_lacks id Hid) as Hl.
  assert (Hfield : exists l,
             split "&" (before "#" ("id=" +:+ id +:+ tail)) = ("id=" +:+ id) :: l).
  { assert (Hamp : has_char "&" ("id=" +:+ id) = false).
    { push_app. rewrite !has_char_cons. simpl.
      eapply has_char_lacks; [exact Hl | reflexivity]. }
    assert (Hhash : has_char "#" ("id=" +:+ id) = false).
    { push_app. rewrite !has_char_cons. simpl.
      eapply has_char_lacks; [exact Hl | reflexivity]. }
    destruct Htail as [-> | Ht].
    - rewrite append_nil_r. unfold before. rewrite (cut_absent "#" _ Hhash).
      rewrite split_none by exact Hamp. eauto.
    - destruct tail as [| t tail]; [discriminate |]. simpl in Ht.
      rewrite <- (append_assoc "id=" id (String t tail)).
      rewrite has_char_cons in Ht. apply orb_true_iff in Ht as [Ht | Ht].
      + apply Ascii.eqb_eq in Ht. subst t.
        unfold before. rewrite (cut_later "#" _ _ Hhash).
        destruct (cut "#" (String "&" tail)) as [[x y] |] eqn:Hc.
        * simpl in Hc. destruct (cut "#" tail) as [[x' y'] |]; inversion Hc. subst.
          apply split_first, Hamp.
        * apply split_first, Hamp.
      + rewrite has_char_cons, orb_false_r in Ht. apply Ascii.eqb_eq in Ht. subst t.
        unfold before. rewrite (cut_found "#" _ _ Hhash).
        rewrite split_none by exact Hamp. eauto. }
  destruct Hfield as [l Hfield].
  unfold Urllib.qs_first, Urllib.parse_qsl. rewrite Hfield. simpl flat_map.
  change ("id=" +:+ id) with (String "i" (String "d" (String "=" id))).
  simpl cut. destruct id as [| c id]; [contradiction |].
  simpl is_empty. cbv iota. rewrite append_nil.
  rewrite (unquote_plus_plain L (String c id) Hl).
  change (Urllib.unquote_plus L "id") with "id".
  cbn [app]. rewrite filter_cons_True by reflexivity. reflexivity.
Qed.

(** C8, counterexample.  The href
    [https://drive.google.com/open?id=REAL&u=/d/FAKE] carries the
    identifier [REAL] in its [id=] parameter, but [/d/] is searched in the
    whole href and goes first: the link returned is the one for [FAKE].
    The href [http://[drive.google.com/open?id=abc] carries [abc] in its
    [id=] parameter and is not rewritten at all: [urlparse] raises
    [ValueError] for the bracket that is not closed. *)
Lemma C8_id_parameter_not_always_used :
  ScrapPdf.get_drive_direct_link Demo.library
    "https://drive.google.com/open?id=REAL&u=/d/FAKE"
  = Ok "https://drive.google.com/uc?export=download&id=FAKE" /\
  ScrapPdf.get_drive_direct_link Demo.library "http://[drive.google.com/open?id=abc"
  = Raise ValueError.
Proof. split; vm_compute; reflexivity. Qed.

(** C8, amended.  The share link
    [https://drive.google.com/file/d/ABC123/view] is rewritten to
    [https://drive.google.com/uc?export=download&id=ABC123].  In general,
    an href whose first [/d/] followed by an id character, wherever it is
    in the href, carries the id [id] (a non-empty run of letters, digits,
    [_] and [-] that ends there) is rewritten to the direct-download form
    with [id]; and an href without any such [/d/], which [urlparse]
    accepts, and whose query, as [urlparse] and [parse_qs] read it, gives
    [id] as the first non-empty value of [id], is rewritten to the
    direct-download form with that value; this is so for every accepted
    href of the form [base?id=ID] followed by nothing, by [&...] or by
    [#...], where [base] has no [?] and no [#] and the href has no white
    space. *)
Theorem C8_drive_link_rewritten :
  forall L : Library,
    ScrapPdf.get_drive_direct_link L "https://drive.google.com/file/d/ABC123/view"
    = Ok "https://drive.google.com/uc?export=download&id=ABC123" /\
    (forall pre id rest,
       ~ has_drive_segment (pre +:+ "/d/") ->
       id <> "" -> forallb_s ScrapPdf.id_char id = true ->
       starts_with ScrapPdf.id_char rest = false ->
       ScrapPdf.get_drive_direct_link L (pre +:+ "/d/" +:+ id +:+ rest)
       = Ok ("https://drive.google.com/uc?export=download&id=" +:+ id)) /\
    (forall href parsed id,
       ~ has_drive_segment href ->
       Urllib.urlparse L href = Ok parsed ->
       Urllib.qs_first L "id" (Urllib.query parsed) = Some id -> id <> "" ->
       ScrapPdf.get_drive_direct_link L href
       = Ok ("https://drive.google.com/uc?export=download&id=" +:+ id)) /\
    (forall base id tail parsed,
       ~ has_drive_segment (base +:+ "?id=" +:+ id +:+ tail) ->
       printable (base +:+ "?id=" +:+ id +:+ tail) = true ->
       lacks "?#" base = true ->
       id <> "" -> forallb_s ScrapPdf.id_char id = true ->
       tail = "" \/ starts_with (fun c => has_char c "&#") tail = true ->
       Urllib.urlparse L (base +:+ "?id=" +:+ id +:+ tail) = Ok parsed ->
       ScrapPdf.get_drive_direct_link L (base +:+ "?id=" +:+ id +:+ tail)
       = Ok ("https://drive.google.com/uc?export=download&id=" +:+ id)).
Proof.
  intros L.
  assert (Hquery : forall href parsed id,
             ~ has_drive_segment href ->
             Urllib.urlparse L href = Ok parsed ->
             Urllib.qs_first L "id" (Urllib.query parsed) = Some id -> id <> "" ->
             ScrapPdf.get_drive_direct_link L href = Ok (ScrapPdf.direct_link id)).
  { intros href parsed id Hno Hp Hq Hne. apply search_d_None_iff in Hno.
    rewrite (get_drive_direct_link_by_query L href parsed Hno Hp), Hq.
    destruct id; [contradiction | reflexivity]. }
  split; [reflexivity | split; [| split]].
  - intros pre id rest Hfirst Hne Hid Hrest.
    apply get_drive_direct_link_by_path; [| exact Hne].
    apply search_d_first_segment; assumption.
  - exact Hquery.
  - intros base id tail parsed Hno Hclean Hbase Hne Hid Htail Hp.
    apply (Hquery _ parsed id Hno Hp); [| exact Hne].
    change (base +:+ "?id=" +:+ id +:+ tail)
      with (base +:+ String "?" ("id=" +:+ id +:+ tail)) in Hp, Hclean.
    rewrite (urlparse_query L base _ parsed Hclean Hbase Hp).
    apply qs_first_leading_id; assumption.
Qed.

Lemma no_segment_by_search s : ScrapPdf.search_d s = None -> ~ has_drive_segment s.
Proof. apply search_d_None_iff. Qed.

Lemma C8_drive_link_rewritten_witness :
  ScrapPdf.get_drive_direct_link Demo.library
    ("https://drive.google.com/file" +:+ "/d/" +:+ "ABC123" +:+ "/view")
  = Ok ("https://drive.google.com/uc?export=download&id=" +:+ "ABC123") /\
  ScrapPdf.get_drive_direct_link Demo.library "https://drive.google.com/open?id=XYZ&usp=sharing"
  = Ok ("https://drive.google.com/uc?export=download&id=" +:+ "XYZ") /\
  ScrapPdf.get_drive_direct_link Demo.library
    ("https://drive.google.com/uc" +:+ "?id=" +:+ "a-b_9" +:+ "#top")
  = Ok ("https://drive.google.com/uc?export=download&id=" +:+ "a-b_9").
Proof.
  destruct (C8_drive_link_rewritten Demo.library) as (_ & Hpath & Hquery & Hshape).
  split; [| split].
  - apply Hpath.
    + apply no_segment_by_search. reflexivity.
    + discriminate.
    + reflexivity.
    + reflexivity.
  - apply (Hquery "https://drive.google.com/open?id=XYZ&usp=sharing"
             {| Urllib.scheme := "https"; Urllib.netloc := "drive.google.com";
                Urllib.path := "/open"; Urllib.params := "";
                Urllib.query := "id=XYZ&usp=sharing"; Urllib.fragment := "" |}).
    + apply no_segment_by_search. reflexivity.
    + reflexivity.
    + reflexivity.
    + discriminate.
  - apply (Hshape "https://drive.google.com/uc" "a-b_9" "#top"
             {| Urllib.scheme := "https"; Urllib.netloc := "drive.google.com";
                Urllib.path := "/uc"; Urllib.params := "";
                Urllib.query := "id=a-b_9"; Urllib.fragment := "top" |}).
    + apply no_segment_by_search. reflexivity.
    + reflexivity.
    + reflexivity.
    + discriminate.
    + reflexivity.
    + right. reflexivity.
    + reflexivity.
Defined.

Lemma urlparse_raises L url e : Urllib.urlparse L url = Raise e -> e = ValueError.
Proof.
  unfold Urllib.urlparse, Urllib.urlsplit.
  destruct (Urllib.split_scheme _) as [sch u1].
  destruct (Urllib.split_netloc u1) as [nl u2].
  destruct (Urllib.split_at "#" u2) as [u3 frag].
  destruct (Urllib.split_at "?" u3) as [u4 qry].
  destruct (Urllib.netloc_accepted L nl); simpl.
  - destruct (_ && _); [destruct (Urllib.splitparams u4) |]; discriminate.
  - congruence.
Qed.

(** C10, counterexample.  Both hrefs name the Drive host, have no [/d/]
    in their path and no [id=] parameter.  For the first, whose host has
    a bracket that is not closed, [urlparse] raises [ValueError], and so
    does the function; the second is not returned as it is, it is
    rewritten: the [/d/x] of its query is taken for an identifier. *)
Lemma C10_no_id_fails_or_is_rewritten :
  ScrapPdf.get_drive_direct_link Demo.library "http://[drive.google.com/x"
  = Raise ValueError /\
  ScrapPdf.get_drive_direct_link Demo.library
    "https://drive.google.com/drive/folders?usp=/d/x"
  = Ok "https://drive.google.com/uc?export=download&id=x".
Proof. split; vm_compute; reflexivity. Qed.

(** C10, amended.  For an href in which no [/d/] is followed by an id
    character, anywhere: when [urlparse] accepts it and its query has no
    field [id] with a non-empty value, it is returned as it is; when
    [urlparse] rejects it, the function raises [ValueError]. *)
Theorem C10_drive_link_without_id_unchanged :
  forall (L : Library) (href : string),
    ~ has_drive_segment href ->
    (forall parsed,
       Urllib.urlparse L href = Ok parsed ->
       (forall v, ("id", v) ∉ Urllib.parse_qsl L (Urllib.query parsed)) ->
       ScrapPdf.get_drive_direct_link L href = Ok href) /\
    (forall e,
       Urllib.urlparse L href = Raise e ->
       ScrapPdf.get_drive_direct_link L href = Raise ValueError).
Proof.
  intros L href Hno. apply search_d_None_iff in Hno. split.
  - intros parsed Hp Hq.
    rewrite (get_drive_direct_link_by_query L href parsed Hno Hp).
    rewrite (qs_first_None L "id" _ Hq). reflexivity.
  - intros e He. unfold ScrapPdf.get_drive_direct_link. rewrite Hno, He.
    rewrite (urlparse_raises L href e He). reflexivity.
Qed.

Lemma C10_drive_link_without_id_unchanged_witness :
  PyStr.contains "drive.google.com" "https://drive.google.com/drive/folders?usp=sharing&id=" = true /\
  ScrapPdf.get_drive_direct_link Demo.library
    "https://drive.google.com/drive/folders?usp=sharing&id="
  = Ok "https://drive.google.com/drive/folders?usp=sharing&id=".
Proof.
  split; [reflexivity |].
  apply (proj1 (C10_drive_link_without_id_unchanged Demo.library
                  "https://drive.google.com/drive/folders?usp=sharing&id="
                  (no_segment_by_search
                     "https://drive.google.com/drive/folders?usp=sharing&id=" eq_refl))
           {| Urllib.scheme := "https"; Urllib.netloc := "drive.google.com";
              Urllib.path := "/drive/folders"; Urllib.params := "";
              Urllib.query := "usp=sharing&id="; Urllib.fragment := "" |}).
  - reflexivity.
  - intros v Hin. vm_compute in Hin. apply elem_of_cons in Hin as [Heq | Hin].
    + discriminate.
    + inversion Hin.
Defined.

(** ** The release harvester *)

Section Harvest.
Variables (L : Library) (net : Network).

(** A download that answers 403 is skipped. *)
Lemma download_one_forbidden pdf_url dest count st r :
  net (clock st) pdf_url = Ok r -> status_code r = 403 ->
  ScrapPdf.download_one net pdf_url dest count st
  = (Done count, printed (SkipForbidden pdf_url) (requested ReleaseGet pdf_url st)).
Proof.
  intros Hr Hs. unfold ScrapPdf.download_one, try_except, bind at 1, session_get.
  rewrite Hr. simpl. rewrite Hs. reflexivity.
Qed.

(** A download whose first chunk is not a PDF header is skipped. *)
Lemma download_one_not_pdf pdf_url dest count st r c :
  net (clock st) pdf_url = Ok r -> status_code r <> 403 ->
  ScrapPdf.first_chunk_of r = Some c -> ScrapPdf.looks_like_pdf c = false ->
  ScrapPdf.download_one net pdf_url dest count st
  = (Done count, printed (SkipNonPdf pdf_url) (requested ReleaseGet pdf_url st)).
Proof.
  intros Hr Hs Hc Hp. unfold ScrapPdf.download_one, try_except, bind at 1, session_get.
  rewrite Hr. simpl. apply Nat.eqb_neq in Hs. rewrite Hs.
  unfold bind at 1, ScrapPdf.first_chunk. rewrite Hc. simpl. rewrite Hp. reflexivity.
Qed.

(** A download that fails before anything is written leaves the disk alone. *)
Lemma download_one_writes_after_check pdf_url dest count st :
  files (ScrapPdf.download_one net pdf_url dest count st).2 <> files st ->
  exists r c,
    net (clock st) pdf_url = Ok r /\ status_code r <> 403 /\
    ScrapPdf.first_chunk_of r = Some c /\ ScrapPdf.looks_like_pdf c = true.
Proof.
  unfold ScrapPdf.download_one, try_except, bind at 1, session_get.
  destruct (net (clock st) pdf_url) as [r | e]; simpl; [| intros H; contradiction].
  destruct (Nat.eqb (status_code r) 403) eqn:Hs; simpl; [intros H; contradiction |].
  unfold bind at 1, ScrapPdf.first_chunk.
  destruct (ScrapPdf.first_chunk_of r) as [c |] eqn:Hc; simpl; [| intros H; contradiction].
  destruct (ScrapPdf.looks_like_pdf c) eqn:Hp; simpl; [| intros H; contradiction].
  intros _. exists r, c. apply Nat.eqb_neq in Hs. repeat split; auto.
Qed.

End Harvest.

(** C5.  When the first chunk of a release download does not start with
    [%PDF] (as [<html>login</html>] does not), the harvester leaves the
    disk as it was, keeps its count, and reports the URL as skipped; and
    whenever a download changes the disk, the first chunk had passed the
    signature check. *)
Theorem C5_non_pdf_download_not_written :
  forall (net : Network) (pdf_url dest : string) (count : nat) (st : State),
    ScrapPdf.looks_like_pdf "<html>login</html>" = false /\
    (forall r c,
       net (clock st) pdf_url = Ok r ->
       ScrapPdf.first_chunk_of r = Some c -> ScrapPdf.looks_like_pdf c = false ->
       let res := ScrapPdf.download_one net pdf_url dest count st in
       res.1 = Done count /\
       files res.2 = files st /\
       (trace res.2 = SkipNonPdf pdf_url :: Get ReleaseGet pdf_url :: trace st \/
        trace res.2 = SkipForbidden pdf_url :: Get ReleaseGet pdf_url :: trace st)) /\
    (files (ScrapPdf.download_one net pdf_url dest count st).2 <> files st ->
     exists r c,
       net (clock st) pdf_url = Ok r /\
       ScrapPdf.first_chunk_of r = Some c /\ ScrapPdf.looks_like_pdf c = true).
Proof.
  intros net pdf_url dest count st. split; [reflexivity | split].
  - intros r c Hr Hc Hp res. subst res.
    destruct (decide (status_code r = 403)) as [Hs | Hs].
    + rewrite (download_one_forbidden net pdf_url dest count st r Hr Hs).
      simpl. auto.
    + rewrite (download_one_not_pdf net pdf_url dest count st r c Hr Hs Hc Hp).
      simpl. auto.
  - intros Hch.
    destruct (download_one_writes_after_check net pdf_url dest count st Hch)
      as (r & c & Hr & _ & Hc & Hp).
    exists r, c. auto.
Qed.

(** The login page served for the Drive link of the demo index. *)
Lemma C5_non_pdf_download_not_written_witness :
  let url := "https://drive.google.com/uc?export=download&id=ABC123" in
  let res := ScrapPdf.download_one Demo.network url "releases/x.pdf" 0 (initial ∅) in
  res.1 = Done 0 /\ files res.2 = ∅ /\
  (trace res.2 = [SkipNonPdf url; Get ReleaseGet url] \/
   trace res.2 = [SkipForbidden url; Get ReleaseGet url]).
Proof.
  intros url res.
  destruct (C5_non_pdf_download_not_written Demo.network url "releases/x.pdf" 0 (initial ∅))
    as (_ & Hskip & _).
  apply (Hskip {| status_code := 200; content_type := Some "text/html";
                  body := ["<html>login</html>"]; chunked := false;
                  truncated := false |}
               "<html>login</html>"); reflexivity.
Defined.

(** ** Rendering failures *)

(** C9.  When the conversion of a page reports an error, the archiver
    prints the failure and the disk is exactly as before; when it reports
    none, the destination holds the whole rendered buffer.  Nothing else
    is ever written for the page. *)
Theorem C9_render_failure_leaves_no_file :
  forall (L : Library) (net : Network) (url html name safe : string)
         (st st1 : State),
    ScrapPdf.sanitize L url "pdf" = Ok name ->
    files st !! (ScrapPdf.PAGES_DIR +:+ name) = None ->
    ScrapPdf.clean_html L net html st = (Done safe, st1) ->
    let res := ScrapPdf.save_html_as_pdf L net url html st in
    ((CreatePDF L safe).1 <> 0 ->
       res.1 = Done tt /\ files res.2 = files st /\
       trace res.2 = RenderFailed url :: trace st1) /\
    ((CreatePDF L safe).1 = 0 ->
       res.1 = Done tt /\
       files res.2 = <[ScrapPdf.PAGES_DIR +:+ name := (CreatePDF L safe).2]> (files st)).
Proof.
  intros L net url html name safe st st1 Hname Hfree Hclean res. subst res.
  rewrite save_html_as_pdf_cases, Hname.
  rewrite bool_decide_eq_false_2 by (rewrite Hfree; apply is_Some_None).
  rewrite Hclean.
  pose proof (clean_html_only_images L net html st) as Hframe.
  rewrite Hclean in Hframe. destruct Hframe as (_ & Hfiles & _). simpl in Hfiles.
  split; intros Herr.
  - apply Nat.eqb_neq in Herr. rewrite Herr. simpl. auto.
  - rewrite Herr. simpl. rewrite Hfiles. auto.
Qed.

(** Page [/b] of the demo site does not render. *)
Lemma C9_render_failure_leaves_no_file_witness :
  let res := ScrapPdf.save_html_as_pdf Demo.library Demo.network
               "https://example.com/b" "B" (initial ∅) in
  res.1 = Done tt /\ files res.2 = ∅ /\
  trace res.2 = [RenderFailed "https://example.com/b"].
Proof.
  intros res.
  refine (proj1 (C9_render_failure_leaves_no_file Demo.library Demo.network
                   "https://example.com/b" "B" "b_69a42cc2.pdf"
                   "<html><body><nav></nav><blink></blink></body></html>"
                   (initial ∅) (initial ∅) _ _ _) _).
  - vm_compute. reflexivity.
  - apply lookup_empty.
  - vm_compute. reflexivity.
  - vm_compute. discriminate.
Defined.

(** ** The asset inliner *)

Lemma attr_get_set key value at_ :
  Bs4.attr_get key (Bs4.attr_set key value at_) = Some value.
Proof.
  induction at_ as [| [k v] r IH]; simpl.
  - rewrite String.eqb_refl. reflexivity.
  - destruct (String.eqb k key) eqn:Hk; simpl; rewrite Hk; [reflexivity | exact IH].
Qed.

Lemma data_uri_inline r : startswith "data:" (ScrapPdf.data_uri r) = true.
Proof. unfold ScrapPdf.data_uri. apply startswith_app. Qed.

Lemma img_srcs_self_contained s :
  Forall self_contained (Bs4.soup_elements s) ->
  Forall (fun src => startswith "data:" src = true) (Bs4.img_srcs s).
Proof.
  unfold Bs4.img_srcs. induction 1 as [| [nm at_] l He _ IH]; simpl; [constructor |].
  destruct (String.eqb nm "img") eqn:Hn; [| exact IH].
  destruct (Bs4.attr_get "src" at_) as [src |] eqn:Hs; [| exact IH].
  constructor; [| exact IH].
  apply String.eqb_eq in Hn. exact (He Hn src Hs).
Qed.

Section Inliner.
Variable net : Network.

(** The loop body for one image whose [src] is not a data URI: the image
    is requested; a fetched image gets the data URI, a failed fetch
    removes the element. *)
Lemma inline_img_fetch at_ src st :
  Bs4.attr_get "src" at_ = Some src -> startswith "data:" src = false ->
  ScrapPdf.inline_img net at_ st =
  (Done match page_fetch (net (clock st) src) with
        | Ok r => Some (Bs4.attr_set "src" (ScrapPdf.data_uri r) at_)
        | Raise _ => None
        end,
   requested ImageGet src st).
Proof.
  intros Hs Hd. unfold ScrapPdf.inline_img. rewrite Hs, Hd.
  unfold try_except, bind at 1, session_get, page_fetch, requested.
  destruct (net (clock st) src) as [r | e]; simpl; [| reflexivity].
  destruct (truncated r); simpl; [reflexivity |].
  unfold bind at 1, raise_for_status.
  destruct (_ && _); reflexivity.
Qed.

Lemma inline_img_done at_ st :
  exists r st', ScrapPdf.inline_img net at_ st = (Done r, st') /\
    match r with
    | Some at' => self_contained ("img", at')
    | None => True
    end.
Proof.
  destruct (Bs4.attr_get "src" at_) as [src |] eqn:Hs.
  - destruct (startswith "data:" src) eqn:Hd.
    + unfold ScrapPdf.inline_img. rewrite Hs, Hd. eexists _, _. split; [reflexivity |].
      intros _ src' Hs'. simpl in Hs'. congruence.
    + rewrite (inline_img_fetch at_ src st Hs Hd). eexists _, _. split; [reflexivity |].
      destruct (page_fetch _) as [r | e]; [| exact I].
      intros _ src' Hs'. simpl in Hs'. rewrite attr_get_set in Hs'.
      inversion Hs'. apply data_uri_inline.
  - unfold ScrapPdf.inline_img. rewrite Hs. eexists _, _. split; [reflexivity |].
    intros _ src' Hs'. simpl in Hs'. congruence.
Qed.

Lemma flat_mapM_embeds_well ch :
  Forall (embeds_well net) ch ->
  forall st, exists l st',
    ScrapPdf.flat_mapM (ScrapPdf.embed_images net) ch st = (Done l, st') /\
    Forall self_contained (Bs4.soup_elements l).
Proof.
  induction 1 as [| n ch Hn _ IH]; intros st; simpl.
  - exists [], st. split; [reflexivity | constructor].
  - unfold bind at 1. destruct (Hn st) as (a & st1 & -> & Ha).
    unfold bind at 1. destruct (IH st1) as (b & st2 & -> & Hb).
    exists (a ++ b)%list, st2. split; [reflexivity |].
    unfold Bs4.soup_elements in *. rewrite flat_map_app. apply Forall_app. auto.
Qed.

Lemma embed_images_well n : embeds_well net n.
Proof.
  induction n as [nm at_ ch IH | t | t] using node_ind; intros st;
    try (eexists _, _; split; [reflexivity | constructor]).
  simpl. destruct (String.eqb nm "img") eqn:Hn.
  - unfold bind at 1.
    destruct (inline_img_done at_ st) as ([at' |] & st1 & -> & Hat).
    + unfold bind at 1.
      destruct (flat_mapM_embeds_well ch IH st1) as (ch' & st2 & -> & Hch).
      eexists _, _. split; [reflexivity |].
      unfold Bs4.soup_elements. simpl. rewrite app_nil_r.
      constructor; [| exact Hch].
      apply String.eqb_eq in Hn. subst nm. exact Hat.
    + eexists _, _. split; [reflexivity | constructor].
  - unfold bind at 1.
    destruct (flat_mapM_embeds_well ch IH st) as (ch' & st2 & -> & Hch).
    eexists _, _. split; [reflexivity |].
    unfold Bs4.soup_elements. simpl. rewrite app_nil_r.
    constructor; [| exact Hch].
    intros Himg. simpl in Himg. subst nm. discriminate.
Qed.

End Inliner.

(** Pruning keeps only elements that were there. *)
Lemma prune_elements (Q : string * Bs4.attrs_t -> Prop) drop n :
  Forall Q (Bs4.elements n) -> Forall Q (flat_map Bs4.elements (Bs4.prune drop n)).
Proof.
  induction n as [nm at_ ch IH | t | t] using node_ind; intros HQ;
    cbn [Bs4.prune];
    [| destruct (drop (NavigableString t)); simpl; constructor
     | destruct (drop (Comment t)); simpl; constructor].
  destruct (drop (Tag nm at_ ch)); [constructor |].
  simpl. rewrite app_nil_r. simpl in HQ. inversion HQ as [| ? ? He Hrest]; subst.
  constructor; [exact He |].
  clear He HQ. induction IH as [| c ch Hc _ IHch]; simpl in *; [constructor |].
  apply Forall_app in Hrest as [H1 H2]. rewrite flat_map_app.
  apply Forall_app. split; [apply Hc, H1 | apply IHch, H2].
Qed.

Lemma prune_soup_elements Q drop s :
  Forall Q (Bs4.soup_elements s) ->
  Forall Q (Bs4.soup_elements (flat_map (Bs4.prune drop) s)).
Proof.
  unfold Bs4.soup_elements. induction s as [| n s IH]; simpl; [auto |].
  intros H. apply Forall_app in H as [H1 H2]. rewrite flat_map_app.
  apply Forall_app. split; [apply prune_elements, H1 | apply IH, H2].
Qed.

(** A change of attributes that leaves images alone keeps them
    self-contained. *)
Lemma retag_elements f n :
  (forall at_, f "img" at_ = at_) ->
  Forall self_contained (Bs4.elements n) ->
  Forall self_contained (Bs4.elements (Bs4.retag f n)).
Proof.
  intros Hf. induction n as [nm at_ ch IH | t | t] using node_ind; intros HQ;
    try exact HQ.
  simpl in *. inversion HQ as [| ? ? He Hrest]; subst.
  constructor.
  - intros Himg. simpl in Himg. subst nm. rewrite Hf. exact (He eq_refl).
  - clear He HQ. induction IH as [| c ch Hc _ IHch]; simpl in *; [constructor |].
    apply Forall_app in Hrest as [H1 H2].
    apply Forall_app. split; [apply Hc, H1 | apply IHch, H2].
Qed.

Lemma retag_soup_elements f s :
  (forall at_, f "img" at_ = at_) ->
  Forall self_contained (Bs4.soup_elements s) ->
  Forall self_contained (Bs4.soup_elements (map (Bs4.retag f) s)).
Proof.
  intros Hf. unfold Bs4.soup_elements. induction s as [| n s IH]; simpl; [auto |].
  intros H. apply Forall_app in H as [H1 H2].
  apply Forall_app. split; [apply retag_elements; assumption | apply IH, H2].
Qed.

Lemma clean_soup_self_contained net s st :
  exists s' st',
    ScrapPdf.clean_soup net s st = (Done s', st') /\
    Forall self_contained (Bs4.soup_elements s').
Proof.
  unfold ScrapPdf.clean_soup, bind at 1.
  destruct (flat_mapM_embeds_well net
              (flat_map (Bs4.prune ScrapPdf.is_comment)
                 (flat_map (Bs4.prune ScrapPdf.is_script) s))
              (proj2 (Forall_forall _ _) (fun n _ => embed_images_well net n)) st)
    as (l & st' & -> & Hl).
  eexists _, _. split; [reflexivity |].
  apply retag_soup_elements; [reflexivity |].
  apply prune_soup_elements, Hl.
Qed.

(** ** The images of the returned document *)

Lemma imgs_app a b : imgs (a ++ b)%list = (imgs a ++ imgs b)%list.
Proof. unfold imgs, Bs4.soup_elements. rewrite flat_map_app. apply omap_app. Qed.

Lemma imgs_cons n s : imgs (n :: s) = (imgs [n] ++ imgs s)%list.
Proof. exact (imgs_app [n] s). Qed.

Lemma imgs_tag nm at_ ch :
  imgs [Tag nm at_ ch] = ((if String.eqb nm "img" then [at_] else []) ++ imgs ch)%list.
Proof.
  unfold imgs, Bs4.soup_elements. cbn [flat_map Bs4.elements]. rewrite app_nil_r.
  cbn [omap list_omap fst snd]. destruct (String.eqb nm "img"); reflexivity.
Qed.

Lemma remote_count_app a b :
  remote_count (a ++ b)%list = remote_count a + remote_count b.
Proof. induction a as [| x a IH]; simpl; [reflexivity | rewrite IH; lia]. Qed.

Lemma embedded_app net t a b :
  embedded net t (a ++ b)%list
  = (embedded net t a ++ embedded net (remote_count a + t) b)%list.
Proof.
  revert t. induction a as [| x a IH]; intros t; [reflexivity |].
  cbn [app embedded remote_count]. unfold is_remote.
  destruct (Bs4.attr_get "src" x) as [src |]; [| rewrite IH; reflexivity].
  destruct (startswith "data:" src); cbn [negb]; [rewrite IH; reflexivity |].
  replace (1 + remote_count a + t) with (remote_count a + S t) by lia.
  destruct (page_fetch _); rewrite IH; reflexivity.
Qed.

Section ImagePass.
Variable net : Network.

Lemma flat_mapM_embeds_exactly ch :
  Forall (embeds_exactly net) ch -> forallb voids_childless ch = true ->
  forall st, exists l st',
    ScrapPdf.flat_mapM (ScrapPdf.embed_images net) ch st = (Done l, st') /\
    imgs l = embedded net (clock st) (imgs ch) /\
    clock st' = remote_count (imgs ch) + clock st /\
    forallb voids_childless l = true.
Proof.
  induction 1 as [| n ch Hn _ IH]; intros Hv st.
  - exists [], st. repeat split.
  - cbn [forallb] in Hv. apply andb_true_iff in Hv as [Hvn Hvch].
    cbn [ScrapPdf.flat_mapM]. unfold bind at 1.
    destruct (Hn Hvn st) as (a & st1 & -> & Ha & Hc1 & Hva).
    unfold bind at 1. destruct (IH Hvch st1) as (b & st2 & -> & Hb & Hc2 & Hvb).
    exists (a ++ b)%list, st2. split; [reflexivity |].
    rewrite imgs_app, (imgs_cons n ch), embedded_app, remote_count_app, Ha, Hb, Hc1, Hc2.
    split; [reflexivity | split; [lia |]].
    rewrite forallb_app, Hva, Hvb. reflexivity.
Qed.

Lemma embed_images_exactly n : embeds_exactly net n.
Proof.
  induction n as [nm at_ ch IH | t | t] using node_ind; intros Hv st;
    [| exists [NavigableString t], st; repeat split
     | exists [Comment t], st; repeat split].
  cbn [voids_childless] in Hv. apply andb_true_iff in Hv as [Hvoid Hvch].
  rewrite imgs_tag. cbn [ScrapPdf.embed_images].
  destruct (String.eqb nm "img") eqn:Hn.
  - cbn [orb] in Hvoid. destruct ch as [| c ch]; [| discriminate].
    change (imgs []) with (@nil Bs4.attrs_t). cbn [app embedded remote_count].
    unfold is_remote, bind at 1.
    destruct (Bs4.attr_get "src" at_) as [src |] eqn:Hs.
    + destruct (startswith "data:" src) eqn:Hd.
      * unfold ScrapPdf.inline_img. rewrite Hs, Hd.
        exists [Tag nm at_ []], st. cbn [negb]. split; [reflexivity |].
        rewrite imgs_tag, Hn. repeat split. cbn [forallb voids_childless].
        rewrite Hn. reflexivity.
      * rewrite (inline_img_fetch net at_ src st Hs Hd). cbn [negb].
        destruct (page_fetch (net (clock st) src)) as [r | e].
        -- eexists _, _. split; [reflexivity |].
           rewrite imgs_tag, Hn. repeat split. cbn [forallb voids_childless].
           rewrite Hn. reflexivity.
        -- eexists _, _. split; [reflexivity |]. repeat split.
    + unfold ScrapPdf.inline_img. rewrite Hs.
      exists [Tag nm at_ []], st. split; [reflexivity |].
      rewrite imgs_tag, Hn. repeat split. cbn [forallb voids_childless].
      rewrite Hn. reflexivity.
  - cbn [orb] in Hvoid. destruct (String.eqb nm "link") eqn:Hl.
    + destruct ch as [| c ch]; [| discriminate].
      exists [Tag nm at_ []], st. split; [reflexivity |].
      rewrite imgs_tag, Hn. repeat split. cbn [forallb voids_childless].
      rewrite Hn, Hl. reflexivity.
    + unfold bind at 1.
      destruct (flat_mapM_embeds_exactly ch IH Hvch st) as (ch' & st1 & -> & Hi & Hc & Hv').
      exists [Tag nm at_ ch'], st1. split; [reflexivity |].
      rewrite imgs_tag, Hn. cbn [app]. split; [exact Hi | split; [exact Hc |]].
      cbn [forallb voids_childless]. rewrite Hn, Hl, Hv'. reflexivity.
Qed.

End ImagePass.

(** Pruning keeps the childless elements childless. *)
Lemma prune_voids drop n :
  voids_childless n = true -> forallb voids_childless (Bs4.prune drop n) = true.
Proof.
  induction n as [nm at_ ch IH | t | t] using node_ind; intros Hv;
    cbn [Bs4.prune];
    [| destruct (drop (NavigableString t)); reflexivity
     | destruct (drop (Comment t)); reflexivity].
  destruct (drop (Tag nm at_ ch)); [reflexivity |].
  cbn [voids_childless] in Hv. apply andb_true_iff in Hv as [Hvoid Hvch].
  cbn [forallb voids_childless]. rewrite andb_true_r. apply andb_true_iff. split.
  - destruct (_ || _); [| reflexivity]. destruct ch; [reflexivity | discriminate].
  - clear Hvoid. induction IH as [| c ch Hc _ IHch]; [reflexivity |].
    cbn [forallb] in Hvch. apply andb_true_iff in Hvch as [H1 H2].
    cbn [flat_map]. rewrite forallb_app, (Hc H1), (IHch H2). reflexivity.
Qed.

Lemma prune_soup_voids drop s :
  forallb voids_childless s = true ->
  forallb voids_childless (flat_map (Bs4.prune drop) s) = true.
Proof.
  induction s as [| n s IH]; [reflexivity |]. cbn [forallb flat_map]. intros H.
  apply andb_true_iff in H as [H1 H2].
  rewrite forallb_app, (prune_voids drop n H1), (IH H2). reflexivity.
Qed.

(** A font link has no image below it, so its removal leaves the images. *)
Lemma prune_font_link_imgs n :
  voids_childless n = true -> imgs (Bs4.prune ScrapPdf.is_font_link n) = imgs [n].
Proof.
  induction n as [nm at_ ch IH | t | t] using node_ind; intros Hv; [| reflexivity ..].
  cbn [voids_childless] in Hv. apply andb_true_iff in Hv as [Hvoid Hvch].
  cbn [Bs4.prune]. destruct (ScrapPdf.is_font_link (Tag nm at_ ch)) eqn:Hf.
  - cbn [ScrapPdf.is_font_link] in Hf.
    apply andb_true_iff in Hf as [Hf _]. apply andb_true_iff in Hf as [Hl _].
    rewrite Hl, orb_true_r in Hvoid. destruct ch as [| c ch]; [| discriminate].
    apply String.eqb_eq in Hl. subst nm. reflexivity.
  - rewrite !imgs_tag. f_equal. clear Hvoid Hf.
    induction IH as [| c ch Hc _ IHch]; [reflexivity |].
    cbn [forallb] in Hvch. apply andb_true_iff in Hvch as [H1 H2].
    cbn [flat_map]. rewrite imgs_app, (Hc H1), (IHch H2), <- imgs_cons. reflexivity.
Qed.

Lemma prune_soup_font_link_imgs s :
  forallb voids_childless s = true ->
  imgs (flat_map (Bs4.prune ScrapPdf.is_font_link) s) = imgs s.
Proof.
  induction s as [| n s IH]; [reflexivity |]. cbn [forallb flat_map]. intros H.
  apply andb_true_iff in H as [H1 H2].
  rewrite imgs_app, (prune_font_link_imgs n H1), (IH H2), <- imgs_cons. reflexivity.
Qed.

(** The change of the [input] types leaves the images as they are. *)
Lemma retag_imgs n :
  imgs [Bs4.retag ScrapPdf.normalize_input n] = imgs [n].
Proof.
  induction n as [nm at_ ch IH | t | t] using node_ind; [| reflexivity ..].
  cbn [Bs4.retag]. rewrite !imgs_tag. f_equal.
  - destruct (String.eqb nm "img") eqn:Hn; [| reflexivity].
    apply String.eqb_eq in Hn. subst nm. reflexivity.
  - induction IH as [| c ch Hc _ IHch]; [reflexivity |].
    cbn [map]. rewrite (imgs_cons (Bs4.retag _ c)), Hc, IHch, <- imgs_cons. reflexivity.
Qed.

Lemma retag_soup_imgs s : imgs (map (Bs4.retag ScrapPdf.normalize_input) s) = imgs s.
Proof.
  induction s as [| n s IH]; [reflexivity |].
  cbn [map]. rewrite (imgs_cons (Bs4.retag _ n)), retag_imgs, IH, <- imgs_cons. reflexivity.
Qed.

(** The images of the document that [clean_soup] returns. *)
Lemma clean_soup_imgs net s st :
  forallb voids_childless s = true ->
  exists s' st',
    ScrapPdf.clean_soup net s st = (Done s', st') /\
    imgs s' = embedded net (clock st) (imgs (unscripted s)).
Proof.
  intros Hv. unfold ScrapPdf.clean_soup, bind at 1.
  assert (Hu : forallb voids_childless (unscripted s) = true)
    by (apply prune_soup_voids, prune_soup_voids, Hv).
  destruct (flat_mapM_embeds_exactly net (unscripted s)
              (proj2 (Forall_forall _ _) (fun n _ => embed_images_exactly net n)) Hu st)
    as (l & st' & Hl & Hi & _ & Hvl).
  fold (unscripted s). rewrite Hl. eexists _, _. split; [reflexivity |].
  rewrite retag_soup_imgs, (prune_soup_font_link_imgs l Hvl). exact Hi.
Qed.

(** C6.  [clean_html] always returns, and in the document it returns every
    [img] that has a [src] has a [data:] URI for it.  When the [img] and
    [link] elements of the parsed document have no children, as the HTML
    parser builds them, the images of the returned document are the images
    of the parsed document outside [script] and [noscript], in their
    order, each as the loop leaves it: an image without [src] or with a
    [data:] URI stays as it is, any other image is requested, stays with
    the data URI of the answer for [src] when the fetch succeeds, and goes
    when it fails.  For one image whose [src] is not a [data:] URI: when
    the fetch succeeds its [src] becomes the base64 [data:] URI with the
    declared content type ([image/png] when none was declared), and when
    it fails the element is removed. *)
Theorem C6_clean_html_embeds_or_removes_images :
  forall (L : Library) (net : Network) (raw_html : string) (st : State),
    (exists s' st',
       ScrapPdf.clean_soup net (html_parser L raw_html) st = (Done s', st') /\
       ScrapPdf.clean_html L net raw_html st = (Done (soup_str L s'), st') /\
       Forall (fun src => startswith "data:" src = true) (Bs4.img_srcs s') /\
       (forallb voids_childless (html_parser L raw_html) = true ->
        imgs s' = embedded net (clock st) (imgs (unscripted (html_parser L raw_html))))) /\
    (forall at_ src,
       Bs4.attr_get "src" at_ = Some src -> startswith "data:" src = false ->
       (forall r, page_fetch (net (clock st) src) = Ok r ->
          (ScrapPdf.inline_img net at_ st).1 =
          Done (Some (Bs4.attr_set "src"
                        ("data:" +:+ default "image/png" (content_type r)
                         +:+ ";base64," +:+ Base64.b64encode (content r)) at_))) /\
       (forall e, page_fetch (net (clock st) src) = Raise e ->
          (ScrapPdf.inline_img net at_ st).1 = Done None)).
Proof.
  intros L net raw_html st. split.
  - destruct (clean_soup_self_contained net (html_parser L raw_html) st)
      as (s' & st' & Hs & Hall).
    exists s', st'. split; [exact Hs | split; [| split]].
    + unfold ScrapPdf.clean_html, bind. rewrite Hs. reflexivity.
    + apply img_srcs_self_contained, Hall.
    + intros Hv.
      destruct (clean_soup_imgs net (html_parser L raw_html) st Hv)
        as (s2 & st2 & Hs2 & Hi).
      rewrite Hs in Hs2. inversion Hs2. subst s2. exact Hi.
  - intros at_ src Hsrc Hdata.
    rewrite (inline_img_fetch net at_ src st Hsrc Hdata).
    split; [intros r Hr | intros e He]; simpl; rewrite ?Hr, ?He; reflexivity.
Qed.

(** On the root page of the demo site: [x.png] is embedded, and
    [gone.png], which answers 404, is removed; the document returned has
    the embedded image and the image that was a data URI already. *)
Lemma C6_clean_html_embeds_or_removes_images_witness :
  (ScrapPdf.inline_img Demo.network [("src", "http://example.com/x.png")] (initial ∅)).1
  = Done (Some [("src", "data:image/png;base64,UE5H")]) /\
  (ScrapPdf.inline_img Demo.network [("src", "http://example.com/gone.png")] (initial ∅)).1
  = Done None /\
  exists s' st',
    ScrapPdf.clean_html Demo.library Demo.network "ROOT" (initial ∅)
    = (Done (soup_str Demo.library s'), st') /\
    imgs s' = [[("src", "data:image/png;base64,UE5H")];
               [("src", "data:image/gif;base64,R0lG")]].
Proof.
  split; [| split].
  - apply (proj1 (proj2 (C6_clean_html_embeds_or_removes_images
                           Demo.library Demo.network "ROOT" (initial ∅))
                          [("src", "http://example.com/x.png")]
                          "http://example.com/x.png" eq_refl eq_refl)
                 {| status_code := 200; content_type := Some "image/png";
                    body := ["PNG"]; chunked := false; truncated := false |}).
    reflexivity.
  - apply (proj2 (proj2 (C6_clean_html_embeds_or_removes_images
                           Demo.library Demo.network "ROOT" (initial ∅))
                          [("src", "http://example.com/gone.png")]
                          "http://example.com/gone.png" eq_refl eq_refl)
                 (RequestException "HTTPError")).
    reflexivity.
  - destruct (proj1 (C6_clean_html_embeds_or_removes_images
                       Demo.library Demo.network "ROOT" (initial ∅)))
      as (s' & st' & _ & Hc & _ & Hi).
    exists s', st'. split; [exact Hc |].
    rewrite (Hi eq_refl). reflexivity.
Defined.

Example clean_demo_root :
  Bs4.img_srcs (Demo.parser "ROOT")
  = ["http://example.com/x.png"; "http://example.com/gone.png";
     "data:image/gif;base64,R0lG"] /\
  exists s' st',
    ScrapPdf.clean_soup Demo.network (Demo.parser "ROOT") (initial ∅) = (Done s', st') /\
    Bs4.img_srcs s' = ["data:image/png;base64,UE5H"; "data:image/gif;base64,R0lG"] /\
    requests ImageGet (trace st')
    = ["http://example.com/gone.png"; "http://example.com/x.png"].
Proof.
  split; [reflexivity |]. eexists _, _. split; [vm_compute; reflexivity |].
  split; vm_compute; reflexivity.
Qed.

(** ** Re-runs and failed fetches *)

#[global] Instance archive_grows_preorder : PreOrder archive_grows.
Proof.
  split.
  - intros st. split; auto.
  - intros a b c [Hr1 Hf1] [Hr2 Hf2]. split; auto.
Qed.

Lemma page_steady_grows st st' : page_steady st st' -> archive_grows st st'.
Proof.
  intros (_ & Hf & Hr). split; [| exact Hf].
  intros u Hu. rewrite (Hr PageGet) by discriminate. exact Hu.
Qed.

Lemma requests_visit s u st :
  requests s (trace (visit s u st)) = u :: requests s (trace st).
Proof. apply requests_cons_same. Qed.

Section CrawlFrame.
Variables (L : Library) (net : Network) (cfg : ScrapPdf.Config).
Context (R : State -> State -> Prop) `{!PreOrder R}.
Hypothesis steady_R : forall st st', page_steady st st' -> R st st'.
Hypothesis failed_R : forall st url e, R st (printed (FetchFailed url e) st).

(** What follows the request of an unvisited page keeps [R], if the
    recursive calls do. *)
Lemma crawl_after_visit fuel url st :
  (forall u, keeps R (ScrapPdf.crawl L net cfg fuel u)) ->
  url ∉ visited st ->
  R (visit PageGet url st) (ScrapPdf.crawl L net cfg (S fuel) url st).2.
Proof.
  intros IH Hnew. rewrite crawl_step by exact Hnew.
  destruct (page_fetch _) as [response | e]; [| apply failed_R].
  apply (keeps_bind R).
  - eapply keeps_weaken; [exact steady_R | apply save_html_as_pdf_steady].
  - intros _. apply keeps_for_each; [apply _ |].
    intros a_href. apply follow_keeps; [apply _ | exact IH].
Qed.

Hypothesis visit_R : forall st url, url ∉ visited st -> R st (visit PageGet url st).

Lemma crawl_keeps fuel : forall url, keeps R (ScrapPdf.crawl L net cfg fuel url).
Proof.
  induction fuel as [| fuel IH]; intros url st; [simpl; reflexivity |].
  destruct (decide (url ∈ visited st)) as [Hin | Hnew].
  - rewrite crawl_visited by exact Hin. reflexivity.
  - etransitivity; [apply visit_R, Hnew | apply crawl_after_visit; assumption].
Qed.

End CrawlFrame.

Lemma crawl_archive_grows L net cfg fuel url :
  keeps archive_grows (ScrapPdf.crawl L net cfg fuel url).
Proof.
  apply crawl_keeps; [apply _ | apply page_steady_grows | |].
  - intros st u e. split; auto.
  - intros st u _. split; [| auto].
    intros v Hv. rewrite requests_visit. right. exact Hv.
Qed.

(** C3, counterexample.  The PDF of the root page is on the disk from an
    earlier run, and the crawl requests the root page again. *)
Lemma C3_page_with_existing_file_is_fetched :
  ScrapPdf.sanitize Demo.library Demo.root "pdf" = Ok "page_b559c7ed.pdf" /\
  Demo.old_disk !! "pages/page_b559c7ed.pdf" = Some "%PDF-1.4 old" /\
  Demo.root ∈ requests PageGet
    (trace (ScrapPdf.crawl Demo.library Demo.network Demo.config 10 Demo.root
              (initial Demo.old_disk)).2).
Proof.
  split; [vm_compute; reflexivity | split; [vm_compute; reflexivity |]].
  vm_compute. do 3 right. left.
Qed.

(** C3, amended.  For a URL whose destination file already exists,
    [save_html_as_pdf] returns at once: no image is requested, nothing is
    converted, printed or written.  [crawl] still requests the page itself
    when it reaches the URL, and the existing file is unchanged when the
    crawl ends. *)
Theorem C3_existing_file_skips_conversion_only :
  forall (L : Library) (net : Network) (cfg : ScrapPdf.Config) (fuel : nat)
         (url name old : string) (st : State),
    ScrapPdf.sanitize L url "pdf" = Ok name ->
    files st !! (ScrapPdf.PAGES_DIR +:+ name) = Some old ->
    (forall html, ScrapPdf.save_html_as_pdf L net url html st = (Done tt, st)) /\
    (url ∉ visited st ->
     let res := ScrapPdf.crawl L net cfg (S fuel) url st in
     url ∈ requests PageGet (trace res.2) /\
     files res.2 !! (ScrapPdf.PAGES_DIR +:+ name) = Some old).
Proof.
  intros L net cfg fuel url name old st Hname Hold. split.
  - intros html. rewrite save_html_as_pdf_cases, Hname.
    rewrite bool_decide_eq_true_2 by (rewrite Hold; eauto). reflexivity.
  - intros Hnew res.
    assert (Hg : archive_grows (visit PageGet url st) res.2).
    { apply crawl_after_visit; try apply _; try exact Hnew.
      - apply page_steady_grows.
      - intros s u e. split; auto.
      - intros u. apply crawl_archive_grows. }
    destruct Hg as [Hr Hf]. split.
    + apply Hr. rewrite requests_visit. left.
    + apply Hf. exact Hold.
Qed.

Lemma C3_existing_file_skips_conversion_only_witness :
  (forall html,
     ScrapPdf.save_html_as_pdf Demo.library Demo.network Demo.root html
       (initial Demo.old_disk) = (Done tt, initial Demo.old_disk)) /\
  (Demo.root ∉ visited (initial Demo.old_disk) ->
   let res := ScrapPdf.crawl Demo.library Demo.network Demo.config 10 Demo.root
                (initial Demo.old_disk) in
   Demo.root ∈ requests PageGet (trace res.2) /\
   files res.2 !! (ScrapPdf.PAGES_DIR +:+ "page_b559c7ed.pdf") = Some "%PDF-1.4 old").
Proof.
  apply (C3_existing_file_skips_conversion_only Demo.library Demo.network Demo.config 9
           Demo.root "page_b559c7ed.pdf" "%PDF-1.4 old" (initial Demo.old_disk)).
  - vm_compute. reflexivity.
  - vm_compute. reflexivity.
Defined.

Lemma contained_ret {A : Type} (a : A) : contains_fetch_errors (ret a).
Proof. intros st d. discriminate. Qed.

Lemma contained_bind {A B : Type} (m : M A) (k : A -> M B) :
  contains_fetch_errors m -> (forall a, contains_fetch_errors (k a)) ->
  contains_fetch_errors (bind m k).
Proof.
  intros Hm Hk st d. unfold bind. specialize (Hm st d).
  destruct (m st) as [[a | e |] st1]; simpl in *; [apply Hk | | discriminate].
  intros Heq. apply Hm. inversion Heq. reflexivity.
Qed.

Lemma contained_for_each {A : Type} (body : A -> M unit) (l : list A) :
  (forall x, contains_fetch_errors (body x)) -> contains_fetch_errors (for_each body l).
Proof.
  intros Hb. induction l as [| x l IH]; simpl; [apply contained_ret |].
  apply contained_bind; auto.
Qed.

Lemma contained_or_value_error {A : Type} (o : option A) :
  contains_fetch_errors (or_value_error o).
Proof. destruct o; intros st d; discriminate. Qed.

Lemma sanitize_raises L url ext e : ScrapPdf.sanitize L url ext = Raise e -> e = ValueError.
Proof.
  unfold ScrapPdf.sanitize. destruct (Urllib.urlparse L url) eqn:Hp; simpl.
  - discriminate.
  - intros H. inversion H. subst. eapply urlparse_raises, Hp.
Qed.

Lemma is_internal_raises L cfg link e :
  ScrapPdf.is_internal L cfg link = Raise e -> e = ValueError.
Proof.
  unfold ScrapPdf.is_internal. destruct (Urllib.urlparse L link) eqn:Hp; simpl.
  - destruct (is_empty _); [discriminate |].
    destruct (Urllib.urlparse L (ScrapPdf.ROOT_URL cfg)) eqn:Hr; simpl; [discriminate |].
    intros H. inversion H. subst. eapply urlparse_raises, Hr.
  - intros H. inversion H. subst. eapply urlparse_raises, Hp.
Qed.

Section Contained.
Variables (L : Library) (net : Network) (cfg : ScrapPdf.Config).

Lemma save_html_as_pdf_contained url html :
  contains_fetch_errors (ScrapPdf.save_html_as_pdf L net url html).
Proof.
  intros st d. rewrite save_html_as_pdf_cases.
  destruct (ScrapPdf.sanitize L url "pdf") as [name | e] eqn:Hs; simpl.
  - destruct (bool_decide _); [discriminate |].
    destruct (clean_soup_self_contained net (html_parser L html) st)
      as (s' & st' & Hc & _).
    unfold ScrapPdf.clean_html, bind at 1. rewrite Hc. simpl.
    destruct (negb _); discriminate.
  - apply sanitize_raises in Hs. subst e. discriminate.
Qed.

Lemma follow_contained fuel url a_href :
  (forall u, contains_fetch_errors (ScrapPdf.crawl L net cfg fuel u)) ->
  contains_fetch_errors (follow L net cfg fuel url a_href).
Proof.
  intros IH. unfold follow.
  destruct (startswith _ _); [apply contained_ret |].
  apply contained_bind; [apply contained_or_value_error |].
  intros full. apply contained_bind.
  - intros st d. destruct (ScrapPdf.is_internal L cfg full) as [b | e] eqn:Hi; simpl.
    + discriminate.
    + apply is_internal_raises in Hi. subst e. discriminate.
  - intros [|]; [apply IH | apply contained_ret].
Qed.

Lemma crawl_contained fuel :
  forall url, contains_fetch_errors (ScrapPdf.crawl L net cfg fuel url).
Proof.
  induction fuel as [| fuel IH]; intros url st d; [discriminate |].
  destruct (decide (url ∈ visited st)) as [Hin | Hnew].
  - rewrite crawl_visited by exact Hin. discriminate.
  - rewrite crawl_step by exact Hnew.
    destruct (page_fetch _) as [response | e]; [| discriminate].
    apply contained_bind; [apply save_html_as_pdf_contained |].
    intros _. apply contained_for_each. intros a_href.
    apply follow_contained, IH.
Qed.

End Contained.

(** C4, counterexample.  In [scrap_wiki.py] the failed fetch of [/c],
    reached from [/a], ends the whole run with the exception: nothing is
    printed for it, and [/b], a sibling of [/a] on the root page, is never
    requested. *)
Lemma C4_crawl_page_fetch_failure_is_fatal :
  let res := ScrapWiki.main Demo.library Demo.network Demo.root 10 (initial ∅) in
  res.1 = Raised (RequestException "timed out") /\
  requests WikiGet (trace res.2)
  = ["https://example.com/c"; "https://example.com/a"; "https://example.com/"] /\
  Bs4.select_nav_hrefs (Demo.parser "ROOT")
  = ["/a"; "/b#top"; "mailto:team@example.com"; "https://other.example.com/x"].
Proof. vm_compute. repeat split; reflexivity. Qed.

(** C4, amended.  When the fetch of a page fails (transport failure,
    broken connection, or a status from 400 to 599), [crawl] of
    [scrap_pdf.py] prints the failure and returns normally without
    descending, so that its caller goes on; and no run of [crawl] ends with
    a fetch failure.  [crawl_page] of [scrap_wiki.py] has no handler: the
    same failure leaves it as an exception. *)
Theorem C4_fetch_failure_handling :
  forall (L : Library) (net : Network) (cfg : ScrapPdf.Config) (base : string)
         (fuel : nat) (url : string) (st : State),
    (forall detail,
       (ScrapPdf.crawl L net cfg fuel url st).1 <> Raised (RequestException detail)) /\
    (forall e,
       url ∉ visited st -> page_fetch (net (clock st) url) = Raise e ->
       ScrapPdf.crawl L net cfg (S fuel) url st
       = (Done tt, printed (FetchFailed url e) (visit PageGet url st)) /\
       ScrapWiki.crawl_page L net base (S fuel) url st
       = (Raised e, visit WikiGet url (printed (Crawling url) st))).
Proof.
  intros L net cfg base fuel url st. split.
  - intros detail. apply crawl_contained.
  - intros e Hnew Hfail. split.
    + rewrite crawl_step by exact Hnew. rewrite Hfail. reflexivity.
    + rewrite crawl_page_step by exact Hnew. rewrite Hfail. reflexivity.
Qed.

Lemma C4_fetch_failure_handling_witness :
  let url := "https://example.com/c" in
  ScrapPdf.crawl Demo.library Demo.network Demo.config 1 url (initial ∅)
  = (Done tt, printed (FetchFailed url (RequestException "timed out"))
                (visit PageGet url (initial ∅))) /\
  ScrapWiki.crawl_page Demo.library Demo.network "example.com" 1 url (initial ∅)
  = (Raised (RequestException "timed out"),
     visit WikiGet url (printed (Crawling url) (initial ∅))).
Proof.
  intros url.
  apply (proj2 (C4_fetch_failure_handling Demo.library Demo.network Demo.config
                  "example.com" 0 url (initial ∅))).
  - apply not_elem_of_empty.
  - reflexivity.
Defined.

(** The crawl of the demo site by [scrap_pdf.py] goes on after the failure
    of [/c] and reaches [/b]. *)
Example crawl_demo_goes_on :
  let res := ScrapPdf.crawl Demo.library Demo.network Demo.config 10 Demo.root (initial ∅) in
  res.1 = Done tt /\
  rev (requests PageGet (trace res.2))
  = ["https://example.com/"; "https://example.com/a"; "https://example.com/c";
     "https://example.com/b"].
Proof. vm_compute. split; reflexivity. Qed.

(** ** Test vectors of the library models *)

Example sha1_abc :
  Sha1.hexdigest "abc" = "a9993e364706816aba3e25717850c26c9cd0d89d".
Proof. vm_compute. reflexivity. Qed.

Example sha1_empty :
  Sha1.hexdigest "" = "da39a3ee5e6b4b0d3255bfef95601890afd80709".
Proof. vm_compute. reflexivity. Qed.

Example sha1_two_blocks :
  Sha1.hexdigest "abcdbcdecdefdefgefghfghighijhijkijkljklmklmnlmnomnopnopq"
  = "84983e441c3bd26ebaae4aa1f95129e5e54670f1".
Proof. vm_compute. reflexivity. Qed.

Example b64_foobar : Base64.b64encode "foobar" = "Zm9vYmFy".
Proof. reflexivity. Qed.

Example b64_padding : Base64.b64encode "fo" = "Zm8=" /\ Base64.b64encode "f" = "Zg==".
Proof. split; reflexivity. Qed.

(** The values of [class="nav  docs-nav"]; a no-break space (U+00A0) and
    the control character 28 separate values, a zero-width space (U+200B)
    does not. *)
Example tokens_white_space :
  Bs4.tokens "nav  docs-nav" = ["nav"; "docs-nav"] /\
  Bs4.tokens ("a" +:+ String (ascii_of_N 194) (String (ascii_of_N 160) "b"))
  = ["a"; "b"] /\
  Bs4.tokens ("a" +:+ String (ascii_of_N 28) "b") = ["a"; "b"] /\
  length (Bs4.tokens ("a" +:+ String (ascii_of_N 226) (String (ascii_of_N 128)
                                (String (ascii_of_N 139) "b")))) = 1.
Proof. vm_compute. repeat split. Qed.

(* ===================================================================== *)
(** * Further properties *)
(* ===================================================================== *)

(** ** What [clean_html] removes and normalises *)

Lemma prune_removes (d : string * Bs4.attrs_t -> bool) drop n :
  (forall nm at_ ch, drop (Tag nm at_ ch) = d (nm, at_)) ->
  Forall (fun e => d e = false) (flat_map Bs4.elements (Bs4.prune drop n)).
Proof.
  intros Hd. induction n as [nm at_ ch IH | t | t] using node_ind;
    cbn [Bs4.prune];
    [| destruct (drop (NavigableString t)); simpl; constructor
     | destruct (drop (Comment t)); simpl; constructor].
  destruct (drop (Tag nm at_ ch)) eqn:Hdrop; [constructor |].
  simpl. rewrite app_nil_r. constructor; [rewrite <- (Hd nm at_ ch); exact Hdrop |].
  clear Hdrop. induction IH as [| c ch Hc _ IHch]; simpl; [constructor |].
  rewrite flat_map_app. apply Forall_app. split; [exact Hc | exact IHch].
Qed.

Lemma prune_soup_removes d drop s :
  (forall nm at_ ch, drop (Tag nm at_ ch) = d (nm, at_)) ->
  Forall (fun e => d e = false) (Bs4.soup_elements (flat_map (Bs4.prune drop) s)).
Proof.
  intros Hd. unfold Bs4.soup_elements. induction s as [| n s IH]; simpl; [constructor |].
  rewrite flat_map_app. apply Forall_app. split; [apply prune_removes, Hd | exact IH].
Qed.

Lemma prune_comment_texts drop n :
  comment_texts n = [] -> flat_map comment_texts (Bs4.prune drop n) = [].
Proof.
  induction n as [nm at_ ch IH | t | t] using node_ind; intros Hn;
    cbn [Bs4.prune];
    [| destruct (drop (NavigableString t)); reflexivity
     | discriminate].
  destruct (drop (Tag nm at_ ch)); [reflexivity |].
  simpl in *. rewrite app_nil_r.
  induction IH as [| c ch Hc _ IHch]; simpl in *; [reflexivity |].
  apply app_eq_nil in Hn as [H1 H2]. rewrite flat_map_app, (Hc H1), (IHch H2). reflexivity.
Qed.

Lemma prune_soup_comment_texts drop s :
  flat_map comment_texts s = [] ->
  flat_map comment_texts (flat_map (Bs4.prune drop) s) = [].
Proof.
  induction s as [| n s IH]; simpl; [reflexivity |]. intros H.
  apply app_eq_nil in H as [H1 H2].
  rewrite flat_map_app, (prune_comment_texts drop n H1), (IH H2). reflexivity.
Qed.

(** Pruning the comments leaves none. *)
Lemma prune_comments_none n :
  flat_map comment_texts (Bs4.prune ScrapPdf.is_comment n) = [].
Proof.
  induction n as [nm at_ ch IH | t | t] using node_ind; try reflexivity.
  simpl. rewrite app_nil_r.
  induction IH as [| c ch Hc _ IHch]; simpl; [reflexivity |].
  rewrite flat_map_app, Hc, IHch. reflexivity.
Qed.

Lemma prune_soup_comments_none s :
  flat_map comment_texts (flat_map (Bs4.prune ScrapPdf.is_comment) s) = [].
Proof.
  induction s as [| n s IH]; simpl; [reflexivity |].
  rewrite flat_map_app, prune_comments_none, IH. reflexivity.
Qed.

Lemma retag_comment_texts f n : comment_texts (Bs4.retag f n) = comment_texts n.
Proof.
  induction n as [nm at_ ch IH | t | t] using node_ind; try reflexivity.
  simpl. induction IH as [| c ch Hc _ IHch]; simpl; [reflexivity |].
  rewrite Hc, IHch. reflexivity.
Qed.

Lemma retag_soup_comment_texts f s :
  flat_map comment_texts (map (Bs4.retag f) s) = flat_map comment_texts s.
Proof.
  induction s as [| n s IH]; simpl; [reflexivity |].
  rewrite retag_comment_texts, IH. reflexivity.
Qed.

(** A change of attributes keeps what it keeps element by element. *)
Lemma retag_keeps (Q : string * Bs4.attrs_t -> Prop) f n :
  (forall nm at_, Q (nm, at_) -> Q (nm, f nm at_)) ->
  Forall Q (Bs4.elements n) -> Forall Q (Bs4.elements (Bs4.retag f n)).
Proof.
  intros Hf. induction n as [nm at_ ch IH | t | t] using node_ind; intros HQ;
    try exact HQ.
  simpl in *. inversion HQ as [| ? ? He Hrest]; subst.
  constructor; [apply Hf, He |].
  clear He HQ. induction IH as [| c ch Hc _ IHch]; simpl in *; [constructor |].
  apply Forall_app in Hrest as [H1 H2].
  apply Forall_app. split; [apply Hc, H1 | apply IHch, H2].
Qed.

Lemma retag_soup_keeps (Q : string * Bs4.attrs_t -> Prop) f s :
  (forall nm at_, Q (nm, at_) -> Q (nm, f nm at_)) ->
  Forall Q (Bs4.soup_elements s) ->
  Forall Q (Bs4.soup_elements (map (Bs4.retag f) s)).
Proof.
  intros Hf. unfold Bs4.soup_elements. induction s as [| n s IH]; simpl; [auto |].
  intros H. apply Forall_app in H as [H1 H2].
  apply Forall_app. split; [apply retag_keeps; assumption | apply IH, H2].
Qed.

(** Every element that a change of attributes produces. *)
Lemma retag_makes (Q : string * Bs4.attrs_t -> Prop) f n :
  (forall nm at_, Q (nm, f nm at_)) -> Forall Q (Bs4.elements (Bs4.retag f n)).
Proof.
  intros Hf. induction n as [nm at_ ch IH | t | t] using node_ind;
    try constructor; [apply Hf |].
  fold Bs4.retag.
  induction IH as [| c ch Hc _ IHch]; simpl in *; [constructor |].
  apply Forall_app. split; assumption.
Qed.

Lemma retag_soup_makes (Q : string * Bs4.attrs_t -> Prop) f s :
  (forall nm at_, Q (nm, f nm at_)) ->
  Forall Q (Bs4.soup_elements (map (Bs4.retag f) s)).
Proof.
  intros Hf. unfold Bs4.soup_elements. induction s as [| n s IH]; simpl; [constructor |].
  apply Forall_app. split; [apply retag_makes, Hf | exact IH].
Qed.

Section InlinerKeeps.
Variable net : Network.
Variable Q : string * Bs4.attrs_t -> Prop.
Hypothesis Q_src : forall at_ v, Q ("img", at_) -> Q ("img", Bs4.attr_set "src" v at_).

Lemma inline_img_keeps at_ st :
  Q ("img", at_) ->
  exists r st', ScrapPdf.inline_img net at_ st = (Done r, st') /\
    match r with
    | Some at' => Q ("img", at')
    | None => True
    end.
Proof.
  intros HQ. destruct (Bs4.attr_get "src" at_) as [src |] eqn:Hs.
  - destruct (startswith "data:" src) eqn:Hd.
    + unfold ScrapPdf.inline_img. rewrite Hs, Hd. eexists _, _. split; [reflexivity | exact HQ].
    + rewrite (inline_img_fetch net at_ src st Hs Hd). eexists _, _. split; [reflexivity |].
      destruct (page_fetch _) as [r | e]; [apply Q_src, HQ | exact I].
  - unfold ScrapPdf.inline_img. rewrite Hs. eexists _, _. split; [reflexivity | exact HQ].
Qed.

Lemma flat_mapM_embeds_keeping ch :
  Forall (embeds_keeping net Q) ch ->
  Forall Q (Bs4.soup_elements ch) -> flat_map comment_texts ch = [] ->
  forall st, exists l st',
    ScrapPdf.flat_mapM (ScrapPdf.embed_images net) ch st = (Done l, st') /\
    Forall Q (Bs4.soup_elements l) /\ flat_map comment_texts l = [].
Proof.
  unfold Bs4.soup_elements.
  induction 1 as [| n ch Hn _ IH]; intros HQ Hc st; simpl in *.
  - exists [], st. repeat split; constructor.
  - apply Forall_app in HQ as [HQ1 HQ2]. apply app_eq_nil in Hc as [Hc1 Hc2].
    unfold bind at 1. destruct (Hn HQ1 Hc1 st) as (a & st1 & -> & Ha & Hca).
    unfold bind at 1. destruct (IH HQ2 Hc2 st1) as (b & st2 & -> & Hb & Hcb).
    exists (a ++ b)%list, st2. split; [reflexivity |].
    rewrite !flat_map_app. split; [apply Forall_app; auto |].
    unfold Bs4.soup_elements in *. rewrite Hca, Hcb. reflexivity.
Qed.

Lemma embed_images_keeping n : embeds_keeping net Q n.
Proof.
  induction n as [nm at_ ch IH | t | t] using node_ind; intros HQ Hc st;
    try (eexists _, _; split; [reflexivity | split; [constructor | exact Hc]]).
  simpl in HQ, Hc. inversion HQ as [| ? ? He Hrest]; subst.
    simpl. destruct (String.eqb nm "img") eqn:Hn.
    + apply String.eqb_eq in Hn. subst nm. unfold bind at 1.
      destruct (inline_img_keeps at_ st He) as ([at' |] & st1 & -> & Hat).
      * unfold bind at 1.
        destruct (flat_mapM_embeds_keeping ch IH Hrest Hc st1) as (ch' & st2 & -> & Hch & Hcc).
        eexists _, _. split; [reflexivity |].
        unfold Bs4.soup_elements. simpl. rewrite !app_nil_r.
        split; [constructor; assumption | exact Hcc].
      * eexists _, _. split; [reflexivity | split; constructor].
    + unfold bind at 1.
      destruct (flat_mapM_embeds_keeping ch IH Hrest Hc st) as (ch' & st2 & -> & Hch & Hcc).
      eexists _, _. split; [reflexivity |].
      unfold Bs4.soup_elements. simpl. rewrite !app_nil_r.
      split; [constructor; assumption | exact Hcc].
Qed.

End InlinerKeeps.

(** [clean_html] on the tree, pass by pass: the image pass always ends, and
    the result is what the last two passes make of its outcome. *)
Lemma clean_soup_shape net s st :
  exists l st',
    ScrapPdf.flat_mapM (ScrapPdf.embed_images net)
      (flat_map (Bs4.prune ScrapPdf.is_comment)
         (flat_map (Bs4.prune ScrapPdf.is_script) s)) st = (Done l, st') /\
    ScrapPdf.clean_soup net s st =
    (Done (map (Bs4.retag ScrapPdf.normalize_input)
             (flat_map (Bs4.prune ScrapPdf.is_font_link) l)), st').
Proof.
  destruct (flat_mapM_embeds_well net
              (flat_map (Bs4.prune ScrapPdf.is_comment)
                 (flat_map (Bs4.prune ScrapPdf.is_script) s))
              (proj2 (Forall_forall _ _) (fun n _ => embed_images_well net n)) st)
    as (l & st' & Hl & _).
  exists l, st'. split; [exact Hl |].
  unfold ScrapPdf.clean_soup, bind at 1. rewrite Hl. reflexivity.
Qed.

Lemma clean_soup_keeps net (Q : string * Bs4.attrs_t -> Prop) s st :
  (forall at_ v, Q ("img", at_) -> Q ("img", Bs4.attr_set "src" v at_)) ->
  (forall nm at_, Q (nm, at_) -> Q (nm, ScrapPdf.normalize_input nm at_)) ->
  Forall Q (Bs4.soup_elements (flat_map (Bs4.prune ScrapPdf.is_script) s)) ->
  exists s' st',
    ScrapPdf.clean_soup net s st = (Done s', st') /\
    Forall Q (Bs4.soup_elements s') /\ flat_map comment_texts s' = [].
Proof.
  intros Hsrc Hinput HQ.
  destruct (clean_soup_shape net s st) as (l & st' & Hl & ->).
  eexists _, _. split; [reflexivity |].
  destruct (flat_mapM_embeds_keeping net Q _
              (proj2 (Forall_forall _ _) (fun n _ => embed_images_keeping net Q Hsrc n))
              (prune_soup_elements Q ScrapPdf.is_comment _ HQ)
              (prune_soup_comments_none _) st)
    as (l' & st'' & Hl' & Hall & Hnone).
  rewrite Hl in Hl'. inversion Hl'. subst l' st''.
  split.
  - apply retag_soup_keeps; [exact Hinput |]. apply prune_soup_elements, Hall.
  - rewrite retag_soup_comment_texts. apply prune_soup_comment_texts, Hnone.
Qed.

(** X1.  The document that [clean_html] returns has no [script] and no
    [noscript] element and no comment, whatever the input document and
    whatever the network answers. *)
Theorem clean_html_drops_scripts_and_comments :
  forall (L : Library) (net : Network) (raw_html : string) (st : State),
    exists s' st',
      ScrapPdf.clean_html L net raw_html st = (Done (soup_str L s'), st') /\
      Forall not_script (Bs4.soup_elements s') /\
      flat_map comment_texts s' = [].
Proof.
  intros L net raw_html st.
  destruct (clean_soup_keeps net not_script (html_parser L raw_html) st)
    as (s' & st' & Hs & Hall & Hnone).
  - intros at_ v [H1 H2]. split; assumption.
  - intros nm at_ [H1 H2]. split; assumption.
  - eapply Forall_impl;
      [apply (prune_soup_removes
                (fun e => bool_decide (e.1 ∈ ["script"; "noscript"]))
                ScrapPdf.is_script); reflexivity |].
    intros [nm at_] He. simpl in He. apply bool_decide_eq_false in He.
    unfold not_script. simpl. split; intros ->; apply He; set_solver.
  - exists s', st'. split; [| split; assumption].
    unfold ScrapPdf.clean_html, bind. rewrite Hs. reflexivity.
Qed.

Lemma normalize_input_font_link nm at_ :
  font_link (nm, ScrapPdf.normalize_input nm at_) = font_link (nm, at_).
Proof.
  unfold ScrapPdf.normalize_input, font_link. simpl.
  destruct (String.eqb nm "input") eqn:Hn; [| reflexivity].
  apply String.eqb_eq in Hn. subst nm. destruct (negb _); reflexivity.
Qed.

(** X2.  In the document that [clean_html] returns no [link] of [rel]
    stylesheet has an [href] that names [fonts.googleapis.com] or
    [gstatic.com]. *)
Theorem clean_html_drops_font_stylesheets :
  forall (L : Library) (net : Network) (raw_html : string) (st : State),
    exists s' st',
      ScrapPdf.clean_html L net raw_html st = (Done (soup_str L s'), st') /\
      Forall (fun e =>
                e.1 = "link" -> Bs4.has_token "rel" "stylesheet" e.2 = true ->
                forall host, host ∈ ScrapPdf.BAD_HOSTS ->
                  contains host (default "" (Bs4.attr_get "href" e.2)) = false)
             (Bs4.soup_elements s').
Proof.
  intros L net raw_html st.
  destruct (clean_soup_shape net (html_parser L raw_html) st) as (l & st' & _ & Hs).
  eexists _, st'. split.
  { unfold ScrapPdf.clean_html, bind. rewrite Hs. reflexivity. }
  eapply Forall_impl.
  - apply (retag_soup_keeps (fun e => font_link e = false)).
    + intros nm at_ H. rewrite normalize_input_font_link. exact H.
    + apply (prune_soup_removes font_link ScrapPdf.is_font_link). reflexivity.
  - intros [nm at_] Hf Hnm Hrel host Hhost. simpl in *. subst nm.
    unfold font_link in Hf. cbn [fst snd] in Hf. rewrite Hrel in Hf.
    destruct (contains host _) eqn:Hc; [| reflexivity].
    assert (Hex : existsb (fun h => contains h (default "" (Bs4.attr_get "href" at_)))
                    ScrapPdf.BAD_HOSTS = true).
    { apply existsb_exists. exists host. split; [apply list_elem_of_In, Hhost | exact Hc]. }
    rewrite Hex in Hf. discriminate.
Qed.

Lemma normalize_input_plain nm at_ : plain_input (nm, ScrapPdf.normalize_input nm at_).
Proof.
  unfold plain_input, ScrapPdf.normalize_input. simpl. intros ->. simpl.
  destruct (bool_decide _) eqn:Hb; simpl.
  - apply bool_decide_eq_true in Hb. exact Hb.
  - rewrite attr_get_set. simpl. set_solver.
Qed.

(** X3.  In the document that [clean_html] returns every [input] has a
    type among [text], [hidden] and [checkbox], or no type at all. *)
Theorem clean_html_normalises_inputs :
  forall (L : Library) (net : Network) (raw_html : string) (st : State),
    exists s' st',
      ScrapPdf.clean_html L net raw_html st = (Done (soup_str L s'), st') /\
      Forall (fun e =>
                e.1 = "input" ->
                Bs4.attr_get "type" e.2 = None \/
                exists t, Bs4.attr_get "type" e.2 = Some t /\
                          t ∈ ["text"; "hidden"; "checkbox"])
             (Bs4.soup_elements s').
Proof.
  intros L net raw_html st.
  destruct (clean_soup_shape net (html_parser L raw_html) st) as (l & st' & _ & Hs).
  eexists _, st'. split.
  { unfold ScrapPdf.clean_html, bind. rewrite Hs. reflexivity. }
  eapply Forall_impl; [apply (retag_soup_makes plain_input), normalize_input_plain |].
  intros [nm at_] Hp Hnm. specialize (Hp Hnm). simpl in *.
  destruct (Bs4.attr_get "type" at_) as [t |]; [right; eauto | left; reflexivity].
Qed.

(** ** The requests of [clean_html] *)

#[global] Instance only_remote_images_preorder : PreOrder only_remote_images.
Proof.
  split.
  - intros st. exists []. repeat split; constructor.
  - intros a b c (u1 & Hv1 & Hf1 & Hc1 & Ht1 & Hd1) (u2 & Hv2 & Hf2 & Hc2 & Ht2 & Hd2).
    exists (u2 ++ u1)%list. unfold fetched_images.
    rewrite Hv2, Hv1, Hf2, Hf1, Hc2, Hc1, Ht2, Ht1, map_app, length_app, <- app_assoc.
    repeat split; [lia | apply Forall_app; auto].
Qed.

Section RemoteImages.
Variable net : Network.

Lemma inline_img_remote at_ : keeps only_remote_images (ScrapPdf.inline_img net at_).
Proof.
  intros st. destruct (Bs4.attr_get "src" at_) as [src |] eqn:Hs.
  - destruct (startswith "data:" src) eqn:Hd.
    + unfold ScrapPdf.inline_img. rewrite Hs, Hd. reflexivity.
    + rewrite (inline_img_fetch net at_ src st Hs Hd). simpl.
      exists [src]. repeat split. constructor; [exact Hd | constructor].
  - unfold ScrapPdf.inline_img. rewrite Hs. reflexivity.
Qed.

Lemma embed_images_remote n : keeps only_remote_images (ScrapPdf.embed_images net n).
Proof.
  induction n as [nm at_ ch IH | t | t] using node_ind; simpl;
    try (apply keeps_ret; apply _).
  assert (Hch : keeps only_remote_images
                  (ScrapPdf.flat_mapM (ScrapPdf.embed_images net) ch))
    by (apply keeps_flat_mapM; [apply _ | exact IH]).
  destruct (String.eqb nm "img").
  - apply keeps_bind; [apply _ | apply inline_img_remote |].
    intros [at' |]; [| apply keeps_ret; apply _].
    apply keeps_bind; [apply _ | exact Hch |]. intros; apply keeps_ret; apply _.
  - apply keeps_bind; [apply _ | exact Hch |]. intros; apply keeps_ret; apply _.
Qed.

Lemma clean_html_remote L raw_html :
  keeps only_remote_images (ScrapPdf.clean_html L net raw_html).
Proof.
  unfold ScrapPdf.clean_html, ScrapPdf.clean_soup.
  apply keeps_bind; [apply _ | | intros; apply keeps_ret; apply _].
  apply keeps_bind; [apply _ | | intros; apply keeps_ret; apply _].
  apply keeps_flat_mapM; [apply _ |].
  apply Forall_forall. intros n _. apply embed_images_remote.
Qed.

End RemoteImages.

(** X4.  Whatever the document and the network, all that [clean_html] does
    to the state is a series of image requests: it marks nothing visited,
    writes no file, prints nothing, and never requests a [data:] URI. *)
Theorem clean_html_only_requests_remote_images :
  forall (L : Library) (net : Network) (raw_html : string) (st : State),
    let st' := (ScrapPdf.clean_html L net raw_html st).2 in
    exists urls,
      visited st' = visited st /\ files st' = files st /\
      clock st' = length urls + clock st /\
      trace st' = (map (Get ImageGet) urls ++ trace st)%list /\
      Forall (fun u => startswith "data:" u = false) urls.
Proof. intros L net raw_html st. apply (clean_html_remote net L raw_html st). Qed.

Lemma fetched_images_refl st : fetched_images [] st st.
Proof. repeat split; constructor. Qed.

Lemma fetched_images_trans u1 u2 a b c :
  fetched_images u1 a b -> fetched_images u2 b c ->
  fetched_images (u2 ++ u1)%list a c.
Proof.
  intros (Hv1 & Hf1 & Hc1 & Ht1 & Hd1) (Hv2 & Hf2 & Hc2 & Ht2 & Hd2).
  unfold fetched_images.
  rewrite Hv2, Hv1, Hf2, Hf1, Hc2, Hc1, Ht2, Ht1, map_app, length_app, <- app_assoc.
  repeat split; [lia | apply Forall_app; auto].
Qed.

Lemma remote_srcs_app a b :
  remote_srcs (a ++ b)%list = (remote_srcs a ++ remote_srcs b)%list.
Proof.
  unfold remote_srcs, Bs4.img_srcs, Bs4.soup_elements.
  rewrite flat_map_app, omap_app, filter_app. reflexivity.
Qed.

Lemma remote_srcs_cons n s : remote_srcs (n :: s) = (remote_srcs [n] ++ remote_srcs s)%list.
Proof. apply (remote_srcs_app [n] s). Qed.

Lemma remote_srcs_tag nm at_ ch :
  String.eqb nm "img" = false -> remote_srcs [Tag nm at_ ch] = remote_srcs ch.
Proof.
  intros Hn. unfold remote_srcs, Bs4.img_srcs, Bs4.soup_elements. simpl.
  rewrite Hn, app_nil_r. reflexivity.
Qed.

Section ImageOrder.
Variable net : Network.

Lemma flat_mapM_in_order ch :
  Forall (requests_in_order net) ch -> forallb imgs_void ch = true ->
  forall st, fetched_images (rev (remote_srcs ch)) st
               (ScrapPdf.flat_mapM (ScrapPdf.embed_images net) ch st).2.
Proof.
  induction 1 as [| n ch Hn _ IH]; intros Hv st; simpl in *.
  - apply fetched_images_refl.
  - apply andb_true_iff in Hv as [Hv1 Hv2].
    rewrite remote_srcs_cons, rev_app_distr.
    specialize (Hn Hv1 st). unfold bind at 1.
    destruct (embed_images_well net n st) as (a & st1 & Ha & _).
    rewrite Ha in *. simpl in Hn.
    specialize (IH Hv2 st1). unfold bind at 1.
    destruct (flat_mapM_embeds_well net ch
                (proj2 (Forall_forall _ _) (fun c _ => embed_images_well net c)) st1)
      as (b & st2 & Hb & _).
    rewrite Hb in *. simpl in *.
    eapply fetched_images_trans; eassumption.
Qed.

Lemma embed_images_in_order n : requests_in_order net n.
Proof.
  induction n as [nm at_ ch IH | t | t] using node_ind; intros Hv st;
    try apply fetched_images_refl.
  simpl in Hv. apply andb_true_iff in Hv as [Himg Hv]. simpl.
  destruct (String.eqb nm "img") eqn:Hn.
  - destruct ch as [| c ch]; [| discriminate].
    assert (Hsrcs : remote_srcs [Tag nm at_ []] =
                    match Bs4.attr_get "src" at_ with
                    | Some src => if startswith "data:" src then [] else [src]
                    | None => []
                    end).
    { unfold remote_srcs, Bs4.img_srcs, Bs4.soup_elements. simpl. rewrite Hn.
      destruct (Bs4.attr_get "src" at_) as [src |]; [| reflexivity].
      simpl. rewrite filter_cons. destruct (startswith "data:" src); reflexivity. }
    rewrite Hsrcs. unfold bind at 1.
    destruct (Bs4.attr_get "src" at_) as [src |] eqn:Hs.
    + destruct (startswith "data:" src) eqn:Hd.
      * unfold ScrapPdf.inline_img. rewrite Hs, Hd. simpl. apply fetched_images_refl.
      * rewrite (inline_img_fetch net at_ src st Hs Hd).
        assert (Hf : fetched_images [src] st (requested ImageGet src st)).
        { repeat split. constructor; [exact Hd | constructor]. }
        destruct (page_fetch _); exact Hf.
    + unfold ScrapPdf.inline_img. rewrite Hs. simpl. apply fetched_images_refl.
  - rewrite remote_srcs_tag by exact Hn. unfold bind at 1.
    pose proof (flat_mapM_in_order ch IH Hv st) as Hch.
    destruct (ScrapPdf.flat_mapM (ScrapPdf.embed_images net) ch st) as [[l | e |] st1];
      exact Hch.
Qed.

End ImageOrder.

Lemma prune_imgs_void drop n :
  imgs_void n = true -> forallb imgs_void (Bs4.prune drop n) = true.
Proof.
  induction n as [nm at_ ch IH | t | t] using node_ind; intros Hv;
    cbn [Bs4.prune];
    [| destruct (drop (NavigableString t)); reflexivity
     | destruct (drop (Comment t)); reflexivity].
  destruct (drop (Tag nm at_ ch)); [reflexivity |].
  simpl in *. apply andb_true_iff in Hv as [Himg Hv]. rewrite andb_true_r.
  apply andb_true_iff. split.
  - destruct (String.eqb nm "img"); [| reflexivity].
    destruct ch; [reflexivity | discriminate].
  - clear Himg. induction IH as [| c ch Hc _ IHch]; simpl in *; [reflexivity |].
    apply andb_true_iff in Hv as [H1 H2].
    rewrite forallb_app, (Hc H1), (IHch H2). reflexivity.
Qed.

Lemma prune_soup_imgs_void drop s :
  forallb imgs_void s = true -> forallb imgs_void (flat_map (Bs4.prune drop) s) = true.
Proof.
  induction s as [| n s IH]; simpl; [reflexivity |]. intros H.
  apply andb_true_iff in H as [H1 H2].
  rewrite forallb_app, (prune_imgs_void drop n H1), (IH H2). reflexivity.
Qed.

(** X5.  When the parsed document has no [img] with children, [clean_html]
    requests exactly the [src] values that are not [data:] URIs of the
    [img] elements that remain once [script], [noscript] and comments are
    removed: each occurrence once, in document order, with no request
    shared between two occurrences of the same source. *)
Theorem clean_html_requests_each_image_in_order :
  forall (L : Library) (net : Network) (raw_html : string) (st : State),
    forallb imgs_void (html_parser L raw_html) = true ->
    let doc := flat_map (Bs4.prune ScrapPdf.is_comment)
                 (flat_map (Bs4.prune ScrapPdf.is_script) (html_parser L raw_html)) in
    trace (ScrapPdf.clean_html L net raw_html st).2
    = (map (Get ImageGet) (rev (remote_srcs doc)) ++ trace st)%list.
Proof.
  intros L net raw_html st Hvoid doc.
  assert (Hdoc : forallb imgs_void doc = true)
    by (apply prune_soup_imgs_void, prune_soup_imgs_void, Hvoid).
  pose proof (flat_mapM_in_order net doc
                (proj2 (Forall_forall _ _) (fun n _ => embed_images_in_order net n))
                Hdoc st) as (_ & _ & _ & Ht & _).
  destruct (clean_soup_shape net (html_parser L raw_html) st) as (l & st' & Hl & Hs).
  fold doc in Hl. rewrite Hl in Ht. simpl in Ht.
  unfold ScrapPdf.clean_html, bind. rewrite Hs. simpl. exact Ht.
Qed.

Lemma clean_html_requests_each_image_in_order_witness :
  trace (ScrapPdf.clean_html Demo.library Demo.network "ROOT" (initial ∅)).2
  = [Get ImageGet "http://example.com/gone.png"; Get ImageGet "http://example.com/x.png"].
Proof.
  apply (clean_html_requests_each_image_in_order Demo.library Demo.network "ROOT" (initial ∅)).
  reflexivity.
Defined.

(** ** File names are safe *)

Lemma forallb_s_app p a b : forallb_s p (a +:+ b) = forallb_s p a && forallb_s p b.
Proof.
  induction a as [| c a IH]; push_app; [reflexivity |].
  simpl. rewrite IH, andb_assoc. reflexivity.
Qed.

Lemma forallb_s_impl (p q : ascii -> bool) s :
  (forall c, p c = true -> q c = true) -> forallb_s p s = true -> forallb_s q s = true.
Proof.
  intros Hpq. induction s as [| c s IH]; [reflexivity |]. simpl. intros H.
  apply andb_true_iff in H as [Hc Hs]. rewrite (Hpq c Hc), (IH Hs). reflexivity.
Qed.

Lemma rev_onto_app a b acc : rev_onto (a +:+ b) acc = rev_onto b (rev_onto a acc).
Proof.
  revert acc. induction a as [| c a IH]; intros acc; push_app; [reflexivity |].
  simpl. apply IH.
Qed.

Lemma rev_onto_acc s acc : rev_onto s acc = reverse s +:+ acc.
Proof.
  unfold reverse. revert acc. induction s as [| c s IH]; intros acc; [reflexivity |].
  change (rev_onto (String c s) acc) with (rev_onto s (String c acc)).
  change (rev_onto (String c s) "") with (rev_onto s (String c "")).
  rewrite (IH (String c acc)), (IH (String c "")).
  rewrite (append_assoc (rev_onto s "") (String c "") acc). reflexivity.
Qed.

Lemma endswith_app a p : endswith p (a +:+ p) = true.
Proof.
  unfold endswith, reverse at 2. rewrite rev_onto_app, rev_onto_acc.
  apply startswith_app.
Qed.

Lemma lower_hex_alnum c : is_lower_hex c = true -> is_alnum c = true.
Proof.
  unfold is_lower_hex, is_alnum, is_alpha, is_lower, is_upper, is_digit, between.
  intros H. apply orb_true_iff in H as [H | H].
  - rewrite H. apply orb_true_r.
  - apply andb_true_iff in H as [H1 H2]. apply N.leb_le in H1, H2.
    apply orb_true_iff. left. apply orb_true_iff. right.
    apply andb_true_iff. split; apply N.leb_le; lia.
Qed.

Lemma alnum_not_special c : is_alnum c = true -> Ascii.eqb c "/" = false /\ Ascii.eqb c "." = false.
Proof.
  intros H. split.
  - destruct (Ascii.eqb_spec c "/") as [-> |]; [discriminate | reflexivity].
  - destruct (Ascii.eqb_spec c ".") as [-> |]; [discriminate | reflexivity].
Qed.

Lemma name_char_no_slash s : forallb_s name_char s = true -> has_char "/" s = false.
Proof.
  intros H. eapply forallb_s_has; [exact H | reflexivity].
Qed.

Lemma append_assoc4 (a b c d : string) :
  a +:+ b +:+ c +:+ d = (a +:+ b +:+ c) +:+ d.
Proof. rewrite (append_assoc a (b +:+ c) d), (append_assoc b c d). reflexivity. Qed.

Lemma Ok_inj {A : Type} (a b : A) : Ok a = Ok b -> a = b.
Proof. intros H. congruence. Qed.

(** X6.  A name made by [sanitize] with an alphanumeric extension consists
    of letters, digits, underscores and dots: it has no path separator, it
    does not begin with a dot, and it ends with the dot and the
    extension. *)
Theorem sanitize_makes_plain_file_name :
  forall (L : Library) (url ext name : string),
    ScrapPdf.sanitize L url ext = Ok name ->
    forallb_s is_alnum ext = true ->
    forallb_s name_char name = true /\
    has_char "/" name = false /\
    starts_with (fun c => negb (Ascii.eqb c ".")) name = true /\
    endswith ("." +:+ ext) name = true.
Proof.
  intros L url ext name Hs Hext. unfold ScrapPdf.sanitize in Hs.
  destruct (Urllib.urlparse L url) as [parsed | e]; cbn [rbind] in Hs; [| discriminate].
  apply Ok_inj in Hs. subst name.
  set (slug := or_default _ "page").
  destruct (hexdigest_take8 url) as [w Hw]. rewrite Hw.
  assert (Hslug : forallb_s slug_char slug = true).
  { unfold slug, or_default. destruct (is_empty _); [reflexivity | apply re_sub_slug_chars]. }
  assert (Hall : forallb_s name_char
                   (slug +:+ "_" +:+ Sha1.hex32 w +:+ "." +:+ ext) = true).
  { rewrite !forallb_s_app.
    rewrite (forallb_s_impl slug_char name_char slug)
      by (exact Hslug || (intros c Hc; unfold name_char, slug_char in *; rewrite Hc; reflexivity)).
    rewrite (forallb_s_impl is_lower_hex name_char (Sha1.hex32 w))
      by (apply hex32_lower ||
          (intros c Hc; unfold name_char; rewrite (lower_hex_alnum c Hc); reflexivity)).
    rewrite (forallb_s_impl is_alnum name_char ext)
      by (exact Hext || (intros c Hc; unfold name_char; rewrite Hc; reflexivity)).
    reflexivity. }
  split; [exact Hall | split; [apply name_char_no_slash, Hall | split]].
  - assert (Hne : slug <> "").
    { unfold slug, or_default. destruct (ScrapPdf.re_sub_nonalnum _ _); discriminate. }
    destruct slug as [| c slug']; [contradiction |]. push_app. simpl.
    simpl in Hslug. apply andb_true_iff in Hslug as [Hc _].
    unfold slug_char in Hc. apply orb_true_iff in Hc as [Hc | Hc].
    + rewrite (proj2 (alnum_not_special c Hc)). reflexivity.
    + apply Ascii.eqb_eq in Hc. subst c. reflexivity.
  - rewrite (append_assoc4 slug "_" (Sha1.hex32 w) ("." +:+ ext)). apply endswith_app.
Qed.

Lemma sanitize_makes_plain_file_name_witness :
  forallb_s name_char "docs_intro_421390e1.pdf" = true /\
  has_char "/" "docs_intro_421390e1.pdf" = false /\
  starts_with (fun c => negb (Ascii.eqb c ".")) "docs_intro_421390e1.pdf" = true /\
  endswith ("." +:+ "pdf") "docs_intro_421390e1.pdf" = true.
Proof.
  apply (sanitize_makes_plain_file_name Demo.library "https://example.com/docs/intro" "pdf");
    vm_compute; reflexivity.
Defined.

(** ** More on the crawlers *)

#[global] Instance archive_only_preorder : PreOrder archive_only.
Proof.
  split.
  - intros st p. left. reflexivity.
  - intros a b c Hab Hbc p.
    destruct (Hab p) as [Hab1 | (Ha & Hpa)], (Hbc p) as [Hbc1 | (Hb & Hpb)].
    + left. congruence.
    + right. split; [congruence | exact Hpb].
    + right. split; assumption.
    + right. split; assumption.
Qed.

#[global] Instance page_saved_preorder : PreOrder page_saved.
Proof.
  split.
  - intros st. repeat split. reflexivity.
  - intros a b c (Hv1 & Hr1 & Hf1) (Hv2 & Hr2 & Hf2). split; [congruence | split].
    + intros s Hs. rewrite (Hr2 s Hs). apply Hr1, Hs.
    + etransitivity; eassumption.
Qed.

#[global] Instance nothing_marked_preorder : PreOrder nothing_marked.
Proof.
  split.
  - intros st. split; reflexivity.
  - intros a b c [Hv1 Hr1] [Hv2 Hr2]. split; [congruence |].
    intros s. rewrite Hr2. apply Hr1.
Qed.

#[global] Instance visited_is_requested_kept_preorder s :
  PreOrder (visited_is_requested_kept s).
Proof. split; unfold visited_is_requested_kept; [intros st; auto | intros a b c; auto]. Qed.

#[global] Instance scoped_preorder s inside : PreOrder (scoped s inside).
Proof.
  split.
  - intros st u Hu. left. exact Hu.
  - intros a b c Hab Hbc u Hu. destruct (Hbc u Hu) as [Hb | Hi]; [apply Hab, Hb | right; exact Hi].
Qed.

Lemma sanitize_suffix L url ext name :
  ScrapPdf.sanitize L url ext = Ok name -> exists stem, name = stem +:+ "." +:+ ext.
Proof.
  unfold ScrapPdf.sanitize.
  destruct (Urllib.urlparse L url) as [parsed | e]; cbn [rbind]; [| discriminate].
  intros H. apply Ok_inj in H. subst name.
  eexists. rewrite (append_assoc4 _ "_" _ ("." +:+ ext)). reflexivity.
Qed.

Lemma only_images_saved st st' : only_images st st' -> page_saved st st'.
Proof.
  intros (Hv & Hf & Hr). split; [exact Hv | split; [exact Hr |]].
  intros p. left. rewrite Hf. reflexivity.
Qed.

Section SavedPage.
Variables (L : Library) (net : Network).

Lemma save_html_as_pdf_saved url html :
  keeps page_saved (ScrapPdf.save_html_as_pdf L net url html).
Proof.
  intros st. rewrite save_html_as_pdf_cases.
  destruct (ScrapPdf.sanitize L url "pdf") as [name | e] eqn:Hname; [| reflexivity].
  case_bool_decide as Hex; [reflexivity |].
  pose proof (clean_html_only_images L net html st) as Hc.
  destruct (ScrapPdf.clean_html L net html st) as [[safe | e |] st1]; simpl in *;
    try (apply only_images_saved; exact Hc).
  destruct Hc as (Hv & Hf & Hr).
  destruct (negb _); simpl.
  - apply only_images_saved. split; [exact Hv | split; [exact Hf |]].
    intros s Hs. simpl. rewrite <- (Hr s Hs). reflexivity.
  - split; [exact Hv | split].
    + intros s Hs. simpl. rewrite <- (Hr s Hs). reflexivity.
    + intros p. simpl. rewrite Hf.
      destruct (decide (p = ScrapPdf.PAGES_DIR +:+ name)) as [-> | Hp].
      * right. split; [| split].
        -- destruct (files st !! _) eqn:Hl; [| reflexivity]. exfalso. apply Hex. eauto.
        -- apply startswith_app.
        -- destruct (sanitize_suffix L url "pdf" name Hname) as [stem ->].
           rewrite <- (append_assoc ScrapPdf.PAGES_DIR stem ("." +:+ "pdf")).
           apply endswith_app.
      * left. apply lookup_insert_ne. congruence.
Qed.

End SavedPage.

Section CrawlGeneral.
Variables (L : Library) (net : Network) (cfg : ScrapPdf.Config).
Context (R : State -> State -> Prop) `{!PreOrder R}.
Variable ok : string -> Prop.
Hypothesis saved_R : forall st st', page_saved st st' -> R st st'.
Hypothesis failed_R : forall st url e, R st (printed (FetchFailed url e) st).
Hypothesis internal_ok : forall u, ScrapPdf.is_internal L cfg u = Ok true -> ok u.

Lemma follow_keeps_ok fuel url a_href :
  (forall u, ok u -> keeps R (ScrapPdf.crawl L net cfg fuel u)) ->
  keeps R (follow L net cfg fuel url a_href).
Proof.
  intros IH. unfold follow.
  destruct (startswith _ _); [apply keeps_ret; apply _ |].
  apply keeps_bind; [apply _ | apply keeps_or_value_error; apply _ |].
  intros full st. unfold bind.
  destruct (ScrapPdf.is_internal L cfg full) as [[|] | e] eqn:Hi; simpl;
    try reflexivity.
  apply IH, internal_ok, Hi.
Qed.

Lemma crawl_after_visit_ok fuel url st :
  (forall u, ok u -> keeps R (ScrapPdf.crawl L net cfg fuel u)) ->
  url ∉ visited st ->
  R (visit PageGet url st) (ScrapPdf.crawl L net cfg (S fuel) url st).2.
Proof.
  intros IH Hnew. rewrite crawl_step by exact Hnew.
  destruct (page_fetch _) as [response | e]; [| apply failed_R].
  apply (keeps_bind R).
  - eapply keeps_weaken; [exact saved_R | apply save_html_as_pdf_saved].
  - intros _. apply keeps_for_each; [apply _ |].
    intros a_href. apply follow_keeps_ok. exact IH.
Qed.

Hypothesis visit_R :
  forall st url, ok url -> url ∉ visited st -> R st (visit PageGet url st).

Lemma crawl_keeps_ok fuel : forall url, ok url -> keeps R (ScrapPdf.crawl L net cfg fuel url).
Proof.
  induction fuel as [| fuel IH]; intros url Hok st; [simpl; reflexivity |].
  destruct (decide (url ∈ visited st)) as [Hin | Hnew].
  - rewrite crawl_visited by exact Hin. reflexivity.
  - etransitivity; [apply (visit_R st url Hok Hnew) |].
    apply crawl_after_visit_ok; [exact IH | exact Hnew].
Qed.

End CrawlGeneral.

(** X7.  A run of [crawl] changes the disk by new PDF files below [pages/]
    only: every path either holds what it held before, or held nothing,
    begins with [pages/] and ends with [.pdf].  No existing file is
    overwritten or removed. *)
Theorem crawl_only_adds_pdfs_below_pages :
  forall (L : Library) (net : Network) (cfg : ScrapPdf.Config) (fuel : nat)
         (url : string) (st : State) (p : string),
    let st' := (ScrapPdf.crawl L net cfg fuel url st).2 in
    files st' !! p = files st !! p \/
    (files st !! p = None /\ startswith "pages/" p = true /\ endswith ".pdf" p = true).
Proof.
  intros L net cfg fuel url st p.
  apply (crawl_keeps_ok L net cfg archive_only (fun _ => True)); try exact I; auto.
  - intros a b (_ & _ & H). exact H.
  - intros a u e q. left. reflexivity.
  - intros a u _ _ q. left. reflexivity.
Qed.

Section CrawlPageGeneral.
Variables (L : Library) (net : Network) (base : string).
Context (R : State -> State -> Prop) `{!PreOrder R}.
Variable ok : string -> Prop.
Hypothesis marked_R : forall st st', nothing_marked st st' -> R st st'.
Hypothesis internal_ok : forall u, ScrapWiki.is_internal L base u = Ok true -> ok u.

Lemma save_text_marks_nothing url sp : keeps nothing_marked (ScrapWiki.save_text L url sp).
Proof.
  unfold ScrapWiki.save_text.
  apply keeps_bind; [apply _ | |].
  { destruct (Bs4.soup_find _ _); [apply keeps_ret; apply _ |].
    destruct (Bs4.soup_find _ _); [apply keeps_ret | apply keeps_raise]; apply _. }
  intros container. apply keeps_bind; [apply _ | apply keeps_lift; apply _ |].
  intros parsed. apply keeps_bind; [apply _ | |].
  { intros st. split; reflexivity. }
  intros _ st. split; reflexivity.
Qed.

Lemma follow_nav_keeps_ok fuel url a_href :
  (forall u, ok u -> keeps R (ScrapWiki.crawl_page L net base fuel u)) ->
  keeps R (follow_nav L net base fuel url a_href).
Proof.
  intros IH. unfold follow_nav.
  apply keeps_bind; [apply _ | apply keeps_or_value_error; apply _ |].
  intros full st. unfold bind at 1.
  destruct (ScrapWiki.is_internal L base full) as [[|] | e] eqn:Hi; simpl;
    try reflexivity.
  unfold bind. simpl. destruct (negb _); [| reflexivity].
  apply IH, internal_ok, Hi.
Qed.

Lemma crawl_page_after_visit_ok fuel url st :
  (forall u, ok u -> keeps R (ScrapWiki.crawl_page L net base fuel u)) ->
  url ∉ visited st ->
  R (visit WikiGet url (printed (Crawling url) st))
    (ScrapWiki.crawl_page L net base (S fuel) url st).2.
Proof.
  intros IH Hnew. rewrite crawl_page_step by exact Hnew.
  destruct (page_fetch _) as [response | e]; [| reflexivity].
  apply (keeps_bind R).
  - eapply keeps_weaken; [exact marked_R | apply save_text_marks_nothing].
  - intros _. apply keeps_for_each; [apply _ |].
    intros a_href. apply follow_nav_keeps_ok. exact IH.
Qed.

Hypothesis visit_R :
  forall st url, ok url -> url ∉ visited st ->
    R st (visit WikiGet url (printed (Crawling url) st)).

Lemma crawl_page_keeps_ok fuel :
  forall url, ok url -> keeps R (ScrapWiki.crawl_page L net base fuel url).
Proof.
  induction fuel as [| fuel IH]; intros url Hok st; [simpl; reflexivity |].
  destruct (decide (url ∈ visited st)) as [Hin | Hnew].
  - rewrite crawl_page_visited by exact Hin. reflexivity.
  - etransitivity; [apply (visit_R st url Hok Hnew) |].
    apply crawl_page_after_visit_ok; [exact IH | exact Hnew].
Qed.

End CrawlPageGeneral.

Lemma page_saved_marked s st st' :
  s <> ImageGet -> page_saved st st' ->
  visited st' = visited st /\ requests s (trace st') = requests s (trace st).
Proof. intros Hs (Hv & Hr & _). split; [exact Hv | apply Hr, Hs]. Qed.

Lemma visited_is_requested_visit s url st :
  visited_is_requested s st -> visited_is_requested s (visit s url st).
Proof.
  intros H u. rewrite requests_visit. simpl. rewrite elem_of_union, elem_of_singleton, elem_of_cons.
  rewrite (H u). reflexivity.
Qed.

Lemma visited_is_requested_same s st st' :
  visited st' = visited st -> requests s (trace st') = requests s (trace st) ->
  visited_is_requested s st -> visited_is_requested s st'.
Proof. intros Hv Hr H u. rewrite Hv, Hr. apply H. Qed.

Lemma crawl_visited_is_requested L net cfg fuel url :
  keeps (visited_is_requested_kept PageGet) (ScrapPdf.crawl L net cfg fuel url).
Proof.
  refine (crawl_keeps_ok L net cfg _ (fun _ => True) _ _ _ _ fuel url I).
  - intros a b Hs. destruct (page_saved_marked PageGet a b) as [Hv Hr];
      [discriminate | exact Hs |].
    exact (visited_is_requested_same PageGet a b Hv Hr).
  - intros a u e. exact (visited_is_requested_same PageGet a _ eq_refl eq_refl).
  - intros u _. exact I.
  - intros a u _ _. exact (visited_is_requested_visit PageGet u a).
Qed.

Lemma crawl_page_visited_is_requested L net base fuel url :
  keeps (visited_is_requested_kept WikiGet) (ScrapWiki.crawl_page L net base fuel url).
Proof.
  refine (crawl_page_keeps_ok L net base _ (fun _ => True) _ _ _ fuel url I).
  - intros a b [Hv Hr]. exact (visited_is_requested_same WikiGet a b Hv (Hr WikiGet)).
  - intros u _. exact I.
  - intros a u _ _ H. apply visited_is_requested_visit.
    exact (visited_is_requested_same WikiGet a (printed (Crawling u) a) eq_refl eq_refl H).
Qed.

Lemma visited_size s st :
  visited_is_requested s st -> NoDup (requests s (trace st)) ->
  size (visited st) = length (requests s (trace st)).
Proof.
  intros Hv Hnd.
  assert (Heq : visited st = list_to_set (requests s (trace st))).
  { apply set_eq. intros u. rewrite elem_of_list_to_set. apply Hv. }
  rewrite Heq. apply size_list_to_set, Hnd.
Qed.

(** X8.  In a run of either crawler that starts with an empty visited set,
    the URLs marked visited are exactly the URLs the crawler requested, so
    the size of the set, which the scripts print as the number of pages
    crawled, is the number of page requests made, failed ones included. *)
Theorem visited_count_is_request_count :
  forall (L : Library) (net : Network) (cfg : ScrapPdf.Config) (base : string)
         (disk : gmap string string) (fuel : nat) (start : string),
    let st1 := (ScrapPdf.crawl L net cfg fuel start (initial disk)).2 in
    let st2 := (ScrapWiki.crawl_page L net base fuel start (initial disk)).2 in
    (visited st1 = list_to_set (requests PageGet (trace st1)) /\
     size (visited st1) = length (requests PageGet (trace st1))) /\
    (visited st2 = list_to_set (requests WikiGet (trace st2)) /\
     size (visited st2) = length (requests WikiGet (trace st2))).
Proof.
  intros L net cfg base disk fuel start st1 st2.
  assert (Hinit : forall s, visited_is_requested s (initial disk)).
  { intros s u. simpl. split; intros H; [set_solver | inversion H]. }
  assert (H1 : visited_is_requested PageGet st1)
    by (apply (crawl_visited_is_requested L net cfg fuel start (initial disk)), Hinit).
  assert (H2 : visited_is_requested WikiGet st2)
    by (apply (crawl_page_visited_is_requested L net base fuel start (initial disk)), Hinit).
  split; split.
  - apply set_eq. intros u. rewrite elem_of_list_to_set. apply H1.
  - apply visited_size; [exact H1 |].
    apply (crawl_once L net cfg fuel start (initial disk)), once_initial.
  - apply set_eq. intros u. rewrite elem_of_list_to_set. apply H2.
  - apply visited_size; [exact H2 |].
    apply (crawl_page_once L net base fuel start (initial disk)), once_initial.
Qed.

Section Scope.
Variables (L : Library) (net : Network) (cfg : ScrapPdf.Config) (base : string).

Lemma scoped_same s inside st st' :
  requests s (trace st') = requests s (trace st) -> scoped s inside st st'.
Proof. intros Hr u Hu. left. rewrite <- Hr. exact Hu. Qed.

Lemma scoped_visit s (inside : string -> Prop) url st st' :
  inside url -> requests s (trace st') = url :: requests s (trace st) ->
  scoped s inside st st'.
Proof.
  intros Hin Hr u Hu. rewrite Hr in Hu.
  apply elem_of_cons in Hu as [-> | Hu]; [right; exact Hin | left; exact Hu].
Qed.

Lemma crawl_scoped fuel url :
  ScrapPdf.is_internal L cfg url = Ok true ->
  keeps (scoped PageGet (fun u => ScrapPdf.is_internal L cfg u = Ok true))
        (ScrapPdf.crawl L net cfg fuel url).
Proof.
  refine (crawl_keeps_ok L net cfg
            (scoped PageGet (fun u => ScrapPdf.is_internal L cfg u = Ok true))
            (fun u => ScrapPdf.is_internal L cfg u = Ok true) _ _ _ _ fuel url).
  - intros a b Hs. apply scoped_same, (page_saved_marked PageGet a b); [discriminate | exact Hs].
  - intros a u e. apply scoped_same. reflexivity.
  - intros u Hu. exact Hu.
  - intros a u Hu _. apply (scoped_visit PageGet _ u); [exact Hu | apply requests_visit].
Qed.

Lemma crawl_page_scoped fuel url :
  ScrapWiki.is_internal L base url = Ok true ->
  keeps (scoped WikiGet (fun u => ScrapWiki.is_internal L base u = Ok true))
        (ScrapWiki.crawl_page L net base fuel url).
Proof.
  refine (crawl_page_keeps_ok L net base
            (scoped WikiGet (fun u => ScrapWiki.is_internal L base u = Ok true))
            (fun u => ScrapWiki.is_internal L base u = Ok true) _ _ _ fuel url).
  - intros a b [_ Hr]. apply scoped_same, Hr.
  - intros u Hu. exact Hu.
  - intros a u Hu _. apply (scoped_visit WikiGet _ u); [exact Hu |].
    cbn [visit printed trace]. rewrite requests_cons_same. reflexivity.
Qed.

End Scope.

(** X9.  Apart from the start URL, every URL that a crawler requests in a
    run is one that its own [is_internal] accepts: [crawl] never requests
    a page on another host, and [crawl_page] never requests a page whose
    host does not end with the base host. *)
Theorem crawlers_request_internal_pages_only :
  forall (L : Library) (net : Network) (cfg : ScrapPdf.Config) (base : string)
         (disk : gmap string string) (fuel : nat) (start : string),
    Forall (fun u => u = start \/ ScrapPdf.is_internal L cfg u = Ok true)
      (requests PageGet
         (trace (ScrapPdf.crawl L net cfg fuel start (initial disk)).2)) /\
    Forall (fun u => u = start \/ ScrapWiki.is_internal L base u = Ok true)
      (requests WikiGet
         (trace (ScrapWiki.crawl_page L net base fuel start (initial disk)).2)).
Proof.
  intros L net cfg base disk fuel start.
  assert (Hnew : start ∉ visited (initial disk)) by apply not_elem_of_empty.
  split; apply Forall_forall; intros u Hu; destruct fuel as [| fuel];
    try (simpl in Hu; inversion Hu; fail).
  - assert (Hs : scoped PageGet (fun u => ScrapPdf.is_internal L cfg u = Ok true)
                   (visit PageGet start (initial disk))
                   (ScrapPdf.crawl L net cfg (S fuel) start (initial disk)).2).
    { refine (crawl_after_visit_ok L net cfg
                (scoped PageGet (fun u => ScrapPdf.is_internal L cfg u = Ok true))
                (fun u => ScrapPdf.is_internal L cfg u = Ok true)
                _ _ _ fuel start (initial disk) _ Hnew).
      - intros a b Hs. apply scoped_same, (page_saved_marked PageGet a b);
          [discriminate | exact Hs].
      - intros a v e. apply scoped_same. reflexivity.
      - intros v Hv. exact Hv.
      - intros v Hv. apply crawl_scoped, Hv. }
    destruct (Hs u Hu) as [Hin | Hin]; [| right; exact Hin].
    left. rewrite requests_visit in Hin. simpl in Hin.
    apply elem_of_cons in Hin as [-> | Hin]; [reflexivity | inversion Hin].
  - assert (Hs : scoped WikiGet (fun u => ScrapWiki.is_internal L base u = Ok true)
                   (visit WikiGet start (printed (Crawling start) (initial disk)))
                   (ScrapWiki.crawl_page L net base (S fuel) start (initial disk)).2).
    { refine (crawl_page_after_visit_ok L net base
                (scoped WikiGet (fun u => ScrapWiki.is_internal L base u = Ok true))
                (fun u => ScrapWiki.is_internal L base u = Ok true)
                _ _ fuel start (initial disk) _ Hnew).
      - intros a b [_ Hr]. apply scoped_same, Hr.
      - intros v Hv. exact Hv.
      - intros v Hv. apply crawl_page_scoped, Hv. }
    destruct (Hs u Hu) as [Hin | Hin]; [| right; exact Hin].
    left. apply elem_of_cons in Hin as [-> | Hin]; [reflexivity | inversion Hin].
Qed.

(** ** [crawl] returns on a finite site *)

#[global] Instance visited_grows_preorder : PreOrder visited_grows.
Proof. split; unfold visited_grows; [intros st | intros a b c]; set_solver. Qed.

Section Termination.
Variables (L : Library) (net : Network) (cfg : ScrapPdf.Config).

Lemma crawl_visited_grows fuel url :
  keeps visited_grows (ScrapPdf.crawl L net cfg fuel url).
Proof.
  refine (crawl_keeps_ok L net cfg visited_grows (fun _ => True) _ _ _ _ fuel url I).
  - intros a b (Hv & _). unfold visited_grows. rewrite Hv. reflexivity.
  - intros a u e. unfold visited_grows. reflexivity.
  - intros u _. exact I.
  - intros a u _ _. unfold visited_grows. simpl. set_solver.
Qed.

Lemma save_html_as_pdf_not_cutoff url html st :
  (ScrapPdf.save_html_as_pdf L net url html st).1 <> Cutoff.
Proof.
  rewrite save_html_as_pdf_cases.
  destruct (ScrapPdf.sanitize L url "pdf") as [name | e]; [| discriminate].
  destruct (bool_decide _); [discriminate |].
  destruct (clean_soup_self_contained net (html_parser L html) st) as (s' & st' & Hc & _).
  unfold ScrapPdf.clean_html, bind at 1. rewrite Hc. simpl.
  destruct (negb _); discriminate.
Qed.

Variable U : gset string.
Hypothesis closed : closed_site L net cfg U.

Lemma unvisited_shrinks (V V' : gset string) url :
  url ∈ U -> url ∉ V -> {[url]} ∪ V ⊆ V' -> size (U ∖ V') < size (U ∖ V).
Proof.
  intros HU HV Hsub. apply subset_size. split; [set_solver |].
  intros Hback. assert (url ∈ U ∖ V') by (apply Hback; set_solver). set_solver.
Qed.

(** One anchor of a page of [U]: following it does not exhaust a budget
    that is larger than the number of unvisited URLs of [U]. *)
Lemma follow_not_cutoff fuel url response a_href st :
  (forall u st', u ∈ U -> size (U ∖ visited st') < fuel ->
     (ScrapPdf.crawl L net cfg fuel u st').1 <> Cutoff) ->
  url ∈ U -> (exists t, page_fetch (net t url) = Ok response) ->
  a_href ∈ Bs4.find_all_a_href (html_parser L (content response)) ->
  size (U ∖ visited st) < fuel ->
  (follow L net cfg fuel url a_href st).1 <> Cutoff.
Proof.
  intros IH HU [t Hresp] Hin Hsize. unfold follow.
  destruct (startswith "mailto:" _) eqn:Hmail; [discriminate |].
  unfold bind at 1.
  destruct (urljoin L url (before "#" a_href)) as [full |] eqn:Hjoin; simpl;
    [| discriminate].
  unfold bind.
  destruct (ScrapPdf.is_internal L cfg full) as [[|] | e] eqn:Hint; simpl;
    try discriminate.
  apply IH; [| exact Hsize].
  exact (closed t url response a_href full HU Hresp Hin Hmail Hjoin Hint).
Qed.

Lemma links_not_cutoff fuel url response links st :
  (forall u st', u ∈ U -> size (U ∖ visited st') < fuel ->
     (ScrapPdf.crawl L net cfg fuel u st').1 <> Cutoff) ->
  url ∈ U -> (exists t, page_fetch (net t url) = Ok response) ->
  (forall a_href, a_href ∈ links ->
     a_href ∈ Bs4.find_all_a_href (html_parser L (content response))) ->
  size (U ∖ visited st) < fuel ->
  (for_each (follow L net cfg fuel url) links st).1 <> Cutoff.
Proof.
  intros IH HU Hresp. revert st.
  induction links as [| a_href links IHl]; intros st Hin Hsize; [discriminate |].
  simpl. unfold bind.
  pose proof (follow_not_cutoff fuel url response a_href st IH HU Hresp
                (Hin a_href (list_elem_of_here _ _)) Hsize) as Hf.
  pose proof (follow_keeps L net cfg visited_grows fuel url a_href
                (fun u => crawl_visited_grows fuel u) st) as Hg.
  destruct (follow L net cfg fuel url a_href st) as [[[] | e |] st1]; simpl in *;
    [| discriminate | contradiction].
  apply IHl.
  - intros a Ha. apply Hin. right. exact Ha.
  - eapply Nat.le_lt_trans; [| exact Hsize].
    apply subseteq_size. unfold visited_grows in Hg. set_solver.
Qed.

Lemma crawl_not_cutoff fuel :
  forall url st, url ∈ U -> size (U ∖ visited st) < fuel ->
    (ScrapPdf.crawl L net cfg fuel url st).1 <> Cutoff.
Proof.
  induction fuel as [| fuel IH]; intros url st HU Hsize; [lia |].
  destruct (decide (url ∈ visited st)) as [Hin | Hnew].
  - rewrite crawl_visited by exact Hin. discriminate.
  - rewrite crawl_step by exact Hnew.
    destruct (page_fetch (net (clock st) url)) as [response | e] eqn:Hresp;
      [| discriminate].
    unfold bind.
    pose proof (save_html_as_pdf_not_cutoff url (content response) (visit PageGet url st)) as Hs.
    pose proof (save_html_as_pdf_saved L net url (content response) (visit PageGet url st))
      as (Hv & _).
    destruct (ScrapPdf.save_html_as_pdf L net url (content response) (visit PageGet url st))
      as [[[] | e |] st1]; simpl in *; [| discriminate | contradiction].
    apply (links_not_cutoff fuel url response); auto.
    + eauto.
    + assert (size (U ∖ visited st1) < size (U ∖ visited st)); [| lia].
      apply (unvisited_shrinks _ _ url HU Hnew). rewrite Hv. reflexivity.
Qed.

End Termination.

(** X10.  If the pages of a finite set [U] of URLs link, as far as [crawl]
    follows links, only into [U], then a crawl that starts in [U] needs a
    recursion depth of at most the size of [U] plus one: with that budget
    it returns or raises, it is never cut off. *)
Theorem crawl_returns_on_finite_site :
  forall (L : Library) (net : Network) (cfg : ScrapPdf.Config) (U : gset string)
         (start : string) (disk : gmap string string) (fuel : nat),
    closed_site L net cfg U -> start ∈ U -> size U < fuel ->
    (ScrapPdf.crawl L net cfg fuel start (initial disk)).1 <> Cutoff.
Proof.
  intros L net cfg U start disk fuel Hclosed Hstart Hfuel.
  apply (crawl_not_cutoff L net cfg U Hclosed); [exact Hstart |].
  eapply Nat.le_lt_trans; [| exact Hfuel]. apply subseteq_size. set_solver.
Qed.

Lemma demo_site_closed : closed_site Demo.library Demo.network Demo.config demo_pages.
Proof.
  intros t url response a_href full HU Hresp Hin Hmail Hjoin Hint.
  unfold demo_pages in HU.
  repeat (apply elem_of_union in HU as [HU | HU]);
    apply elem_of_singleton in HU; subst url;
    vm_compute in Hresp; try discriminate;
    apply Ok_inj in Hresp; subst response;
    vm_compute in Hin;
    repeat (apply elem_of_cons in Hin as [-> | Hin]);
    try (apply elem_of_nil in Hin; contradiction);
    vm_compute in Hmail; try discriminate;
    vm_compute in Hjoin; apply (inj Some) in Hjoin; subst full;
    vm_compute in Hint; try discriminate;
    unfold demo_pages; set_solver.
Qed.

Lemma crawl_returns_on_finite_site_witness :
  (ScrapPdf.crawl Demo.library Demo.network Demo.config 5 Demo.root (initial ∅)).1
  <> Cutoff.
Proof.
  apply (crawl_returns_on_finite_site Demo.library Demo.network Demo.config demo_pages).
  - exact demo_site_closed.
  - unfold demo_pages, Demo.root. set_solver.
  - vm_compute. lia.
Defined.

(** ** The release harvester, download by download *)

Lemma concat_cons c r : String.concat "" (c :: r) = c +:+ String.concat "" r.
Proof. destruct r; simpl; [rewrite append_nil_r |]; reflexivity. Qed.

Lemma with_files_same st : with_files (files st) st = st.
Proof. destruct st; reflexivity. Qed.

(** The rest of the stream goes after what the file holds. *)
Lemma append_chunks dest chunks st cur :
  files st !! dest = Some cur ->
  for_each (append_file dest) chunks st
  = (Done tt, with_files (<[dest := cur +:+ String.concat "" chunks]> (files st)) st).
Proof.
  revert st cur. induction chunks as [| c chunks IH]; intros st cur Hcur.
  - simpl. rewrite append_nil_r, insert_id by exact Hcur.
    rewrite with_files_same. reflexivity.
  - cbn [for_each]. unfold bind at 1, append_file at 1. rewrite Hcur. cbn [default].
    rewrite (IH _ (cur +:+ c)) by apply lookup_insert_eq.
    unfold with_files. cbn [files visited clock trace].
    rewrite insert_insert_eq, concat_cons, (append_assoc cur c). reflexivity.
Qed.

Lemma looks_like_pdf_body r c :
  ScrapPdf.first_chunk_of r = Some c -> ScrapPdf.looks_like_pdf c = true ->
  exists rest, body r = c :: rest.
Proof.
  unfold ScrapPdf.first_chunk_of. destruct (body r) as [| c' rest].
  - destruct (truncated r); [discriminate |]. intros H. inversion H. subst. discriminate.
  - intros H _. inversion H. subst. eauto.
Qed.

Lemma saved_chunks r c rest :
  body r = c :: rest ->
  saved r = if chunked r then c else c +:+ String.concat "" rest.
Proof.
  intros Hb. unfold saved, content. rewrite Hb, concat_cons. reflexivity.
Qed.

(** [download_one], case by case. *)
Lemma download_one_cases net pdf_url dest count st :
  ScrapPdf.download_one net pdf_url dest count st
  = (Done (download_result net pdf_url dest count st).1,
     (download_result net pdf_url dest count st).2).
Proof.
  unfold ScrapPdf.download_one, download_result, try_except, bind at 1, session_get.
  destruct (net (clock st) pdf_url) as [r | e]; simpl; [| reflexivity].
  destruct (Nat.eqb (status_code r) 403); simpl; [reflexivity |].
  unfold bind at 1, ScrapPdf.first_chunk.
  destruct (ScrapPdf.first_chunk_of r) as [c |] eqn:Hc; simpl; [| reflexivity].
  destruct (ScrapPdf.looks_like_pdf c) eqn:Hp; simpl; [| reflexivity].
  destruct (looks_like_pdf_body r c Hc Hp) as [rest Hbody].
  unfold bind at 1, write_file at 1. cbn [fst snd].
  unfold bind at 1, append_file at 1. cbn [files visited clock trace fst snd].
  rewrite lookup_insert_eq. cbn [default]. rewrite append_nil.
  unfold bind at 1, ScrapPdf.write_rest.
  rewrite (saved_chunks r c rest Hbody).
  destruct (chunked r); cbn [negb andb].
  - cbn [ret]. unfold with_files. cbn [files visited clock trace fst snd].
    rewrite !insert_insert_eq. reflexivity.
  - unfold bind at 1. rewrite Hbody. cbn [tail].
    rewrite (append_chunks dest rest _ c) by apply lookup_insert_eq.
    unfold with_files. cbn [files visited clock trace fst snd].
    rewrite !insert_insert_eq.
    destruct (truncated r); reflexivity.
Qed.

(** [harvest_anchor], case by case. *)
Lemma harvest_anchor_cases L net cfg href count st :
  ScrapPdf.harvest_anchor L net cfg href count st =
  match target L cfg href with
  | Raise e => (Raised e, st)
  | Ok None => (Done count, st)
  | Ok (Some pdf_url) =>
      match ScrapPdf.sanitize L pdf_url "pdf" with
      | Raise e => (Raised e, st)
      | Ok name =>
          if bool_decide (is_Some (files st !! (ScrapPdf.RELEASES_DIR +:+ name)))
          then (Done count, st)
          else (Done (download_result net pdf_url (ScrapPdf.RELEASES_DIR +:+ name)
                        count st).1,
                (download_result net pdf_url (ScrapPdf.RELEASES_DIR +:+ name)
                   count st).2)
      end
  end.
Proof.
  unfold ScrapPdf.harvest_anchor, target, bind at 1.
  destruct (endswith ".pdf" (lower href)).
  - unfold bind at 1.
    destruct (urljoin L (ScrapPdf.BUILD_HISTORY cfg) href) as [u |]; simpl; [| reflexivity].
    unfold bind at 1. destruct (ScrapPdf.sanitize L u "pdf") as [name | e]; simpl; [| reflexivity].
    unfold bind at 1, file_exists. simpl.
    destruct (bool_decide _); [reflexivity | apply download_one_cases].
  - destruct (contains "drive.google.com" href); [| reflexivity].
    unfold bind at 1.
    destruct (ScrapPdf.get_drive_direct_link L href) as [u | e]; simpl; [| reflexivity].
    unfold bind at 1. destruct (ScrapPdf.sanitize L u "pdf") as [name | e]; simpl; [| reflexivity].
    unfold bind at 1, file_exists. simpl.
    destruct (bool_decide _); [reflexivity | apply download_one_cases].
Qed.

(** X11.  A download that is not refused and whose first chunk starts with
    [%PDF] is counted and reported when its body comes in chunked transfer
    encoding, or when its stream ends properly.  The destination file then
    holds the whole body, the first chunk followed by the other chunks in
    the order of their arrival, if the body is not chunked; if it is
    chunked, the file holds the first chunk alone, whatever followed it
    and even when the stream broke. *)
Theorem download_leaves_body_or_first_chunk :
  forall (net : Network) (pdf_url dest : string) (count : nat) (st : State)
         (r : Response) (c : string) (rest : list string),
    net (clock st) pdf_url = Ok r -> status_code r <> 403 ->
    body r = c :: rest -> ScrapPdf.looks_like_pdf c = true ->
    chunked r = true \/ truncated r = false ->
    let res := ScrapPdf.download_one net pdf_url dest count st in
    res.1 = Done (S count) /\
    files res.2
    = <[dest := if chunked r then c else c +:+ String.concat "" rest]> (files st) /\
    trace res.2 = Downloaded dest pdf_url :: Get ReleaseGet pdf_url :: trace st.
Proof.
  intros net pdf_url dest count st r c rest Hr Hs Hb Hp Hend res. subst res.
  rewrite download_one_cases. unfold download_result. rewrite Hr.
  apply Nat.eqb_neq in Hs. rewrite Hs.
  unfold ScrapPdf.first_chunk_of. rewrite Hb, Hp, (saved_chunks r c rest Hb).
  destruct Hend as [Hch | Htr]; [rewrite Hch | rewrite Htr, andb_false_r];
    repeat split.
Qed.

Lemma download_leaves_body_or_first_chunk_witness :
  let url := "https://example.com/notes/r1.pdf" in
  let res := ScrapPdf.download_one chunking_network url "releases/r1.pdf" 0 (initial ∅) in
  res.1 = Done 1 /\
  files res.2 = <["releases/r1.pdf" := "%PDF-1.4 "]> ∅ /\
  trace res.2 = [Downloaded "releases/r1.pdf" url; Get ReleaseGet url].
Proof.
  intros url res.
  apply (download_leaves_body_or_first_chunk chunking_network url "releases/r1.pdf" 0
           (initial ∅)
           {| status_code := 200; content_type := None; body := ["%PDF-1.4 "; "notes"];
              chunked := true; truncated := false |} "%PDF-1.4 " ["notes"]);
    try reflexivity.
  - discriminate.
  - left. reflexivity.
Defined.

(** On the demo site, whose bodies are not chunked, the whole body is
    written. *)
Example download_demo_release :
  files (ScrapPdf.download_one Demo.network "https://example.com/notes/r1.pdf"
           "releases/r1.pdf" 0 (initial ∅)).2
  = <["releases/r1.pdf" := "%PDF-1.4 notes"]> ∅.
Proof. vm_compute. reflexivity. Qed.

(** X12.  When the body does not come in chunked transfer encoding and the
    connection breaks after a first chunk that starts with [%PDF], the
    harvester prints the failure and does not count the download, but the
    destination file stays, holding the chunks that arrived; the file then
    makes every later pass over the same anchor return at once, without a
    request, so the file is never completed. *)
Theorem broken_download_leaves_partial_file :
  forall (L : Library) (net : Network) (cfg : ScrapPdf.Config)
         (href pdf_url name : string) (count : nat) (st : State)
         (r : Response) (c : string) (rest : list string),
    target L cfg href = Ok (Some pdf_url) ->
    ScrapPdf.sanitize L pdf_url "pdf" = Ok name ->
    files st !! (ScrapPdf.RELEASES_DIR +:+ name) = None ->
    net (clock st) pdf_url = Ok r -> status_code r <> 403 ->
    body r = c :: rest -> ScrapPdf.looks_like_pdf c = true ->
    chunked r = false -> truncated r = true ->
    let res := ScrapPdf.harvest_anchor L net cfg href count st in
    res.1 = Done count /\
    files res.2 !! (ScrapPdf.RELEASES_DIR +:+ name) = Some (c +:+ String.concat "" rest) /\
    trace res.2 = DownloadFailed pdf_url (RequestException "connection broken")
                  :: Get ReleaseGet pdf_url :: trace st /\
    forall count', ScrapPdf.harvest_anchor L net cfg href count' res.2 = (Done count', res.2).
Proof.
  intros L net cfg href pdf_url name count st r c rest Ht Hn Hfree Hr Hs Hb Hp Hch Htr res.
  assert (Hres : res = (Done count,
                        printed (DownloadFailed pdf_url (RequestException "connection broken"))
                          (with_files (<[ScrapPdf.RELEASES_DIR +:+ name := saved r]> (files st))
                             (requested ReleaseGet pdf_url st)))).
  { unfold res. rewrite harvest_anchor_cases, Ht, Hn.
    rewrite bool_decide_eq_false_2 by (rewrite Hfree; apply is_Some_None).
    unfold download_result. rewrite Hr. apply Nat.eqb_neq in Hs. rewrite Hs.
    unfold ScrapPdf.first_chunk_of. rewrite Hb, Hp, Hch, Htr. reflexivity. }
  rewrite Hres. cbn [fst snd printed with_files requested files trace].
  split; [reflexivity | split; [| split; [reflexivity |]]].
  - rewrite (saved_chunks r c rest Hb), Hch. apply lookup_insert_eq.
  - intros count'. rewrite harvest_anchor_cases, Ht, Hn.
    cbn [files]. rewrite bool_decide_eq_true_2; [reflexivity |].
    eexists. apply lookup_insert_eq.
Qed.

Lemma broken_download_leaves_partial_file_witness :
  let dest := "releases/notes_r1_pdf_d8d24727.pdf" in
  let url := "https://example.com/notes/r1.pdf" in
  let res := ScrapPdf.harvest_anchor Demo.library breaking_network Demo.config
               "notes/r1.pdf" 0 (initial ∅) in
  res.1 = Done 0 /\
  files res.2 !! (ScrapPdf.RELEASES_DIR +:+ "notes_r1_pdf_d8d24727.pdf")
  = Some ("%PDF-1.4 " +:+ String.concat "" ["par"]) /\
  trace res.2 = [DownloadFailed url (RequestException "connection broken");
                 Get ReleaseGet url] /\
  forall count',
    ScrapPdf.harvest_anchor Demo.library breaking_network Demo.config
      "notes/r1.pdf" count' res.2 = (Done count', res.2).
Proof.
  intros dest url res.
  apply (broken_download_leaves_partial_file Demo.library breaking_network Demo.config
           "notes/r1.pdf" url "notes_r1_pdf_d8d24727.pdf" 0 (initial ∅)
           {| status_code := 200; content_type := None; body := ["%PDF-1.4 "; "par"];
              chunked := false; truncated := true |} "%PDF-1.4 " ["par"]);
    try reflexivity.
  discriminate.
Defined.

(** ** The release harvester as a whole *)

#[global] Instance releases_only_preorder : PreOrder releases_only.
Proof.
  split.
  - intros st. split; [reflexivity | split; [reflexivity |]]. intros p. left. reflexivity.
  - intros a b c (Hv1 & Hr1 & Hf1) (Hv2 & Hr2 & Hf2).
    split; [congruence | split].
    + intros s Hi Hr. rewrite (Hr2 s Hi Hr). apply Hr1; assumption.
    + intros p. destruct (Hf1 p) as [H1 | (Ha & Hpa)], (Hf2 p) as [H2 | (Hb & Hpb)].
      * left. congruence.
      * right. split; [congruence | exact Hpb].
      * right. split; assumption.
      * right. split; assumption.
Qed.

#[global] Instance reports_kept_preorder L net : PreOrder (reports_kept L net).
Proof.
  split.
  - intros st. split; [auto |]. intros dest url H. left. exact H.
  - intros a b c [Hf1 Hd1] [Hf2 Hd2]. split; [auto |].
    intros dest url H.
    destruct (Hd2 dest url H)
      as [Hb | (Hnone & name & t & r & ck & Hn & Hdest & Hnet & Hc & Hp & Htr & Hfile)].
    + destruct (Hd1 dest url Hb)
        as [Ha | (Hnone & name & t & r & ck & Hn & Hdest & Hnet & Hc & Hp & Htr & Hfile)];
        [left; exact Ha | right].
      split; [exact Hnone |]. exists name, t, r, ck. repeat split; auto.
    + right. split.
      * destruct (files a !! dest) as [v |] eqn:Ha; [| reflexivity].
        rewrite (Hf1 dest v Ha) in Hnone. discriminate.
      * exists name, t, r, ck. repeat split; auto.
Qed.

Lemma releases_only_message e st :
  (forall s u, e <> Get s u) -> releases_only st (printed e st).
Proof.
  intros He. split; [reflexivity | split].
  - intros s _ _. apply requests_cons_print, He.
  - intros p. left. reflexivity.
Qed.

Lemma releases_only_requested u st : releases_only st (requested ReleaseGet u st).
Proof.
  split; [reflexivity | split].
  - intros s _ Hs. apply requests_cons_other. congruence.
  - intros p. left. reflexivity.
Qed.

Lemma releases_only_file L url name data st :
  ScrapPdf.sanitize L url "pdf" = Ok name ->
  files st !! (ScrapPdf.RELEASES_DIR +:+ name) = None ->
  releases_only st (with_files (<[ScrapPdf.RELEASES_DIR +:+ name := data]> (files st)) st).
Proof.
  intros Hn Hfree. split; [reflexivity | split; [reflexivity |]].
  intros p. cbn [with_files files].
  destruct (decide (p = ScrapPdf.RELEASES_DIR +:+ name)) as [-> | Hp].
  - right. split; [exact Hfree | split; [apply startswith_app |]].
    destruct (sanitize_suffix L url "pdf" name Hn) as [stem ->].
    change ("." +:+ "pdf") with ".pdf".
    rewrite <- (append_assoc ScrapPdf.RELEASES_DIR stem ".pdf").
    apply endswith_app.
  - left. apply lookup_insert_ne. congruence.
Qed.

Lemma reports_kept_message L net e st :
  (forall dest url, e <> Downloaded dest url) -> reports_kept L net st (printed e st).
Proof.
  intros He. split; [auto |]. intros dest url H. left.
  cbn [printed trace] in H. apply elem_of_cons in H as [H | H]; [| exact H].
  exfalso. eapply He. symmetry. exact H.
Qed.

Section Harvester.
Variables (L : Library) (net : Network) (cfg : ScrapPdf.Config).

(** One download: the state after it, case by case. *)
Lemma download_result_releases_only pdf_url name count st :
  ScrapPdf.sanitize L pdf_url "pdf" = Ok name ->
  files st !! (ScrapPdf.RELEASES_DIR +:+ name) = None ->
  releases_only st (download_result net pdf_url (ScrapPdf.RELEASES_DIR +:+ name) count st).2.
Proof.
  intros Hn Hfree. unfold download_result.
  assert (Hreq := releases_only_requested pdf_url st).
  assert (Hmsg : forall e, (forall s u, e <> Get s u) ->
                           releases_only st (printed e (requested ReleaseGet pdf_url st))).
  { intros e He. etransitivity; [exact Hreq | apply releases_only_message, He]. }
  assert (Hfile : forall e data, (forall s u, e <> Get s u) ->
            releases_only st
              (printed e (with_files (<[ScrapPdf.RELEASES_DIR +:+ name := data]> (files st))
                            (requested ReleaseGet pdf_url st)))).
  { intros e data He. etransitivity; [exact Hreq |].
    etransitivity; [| apply releases_only_message, He].
    apply (releases_only_file L pdf_url name data (requested ReleaseGet pdf_url st) Hn Hfree). }
  destruct (net (clock st) pdf_url) as [r | e]; cbn [snd]; [| apply Hmsg; discriminate].
  destruct (Nat.eqb (status_code r) 403); cbn [snd]; [apply Hmsg; discriminate |].
  destruct (ScrapPdf.first_chunk_of r) as [c |]; cbn [snd]; [| apply Hmsg; discriminate].
  destruct (ScrapPdf.looks_like_pdf c); cbn [snd]; [| apply Hmsg; discriminate].
  destruct (negb (chunked r) && truncated r); cbn [snd]; apply Hfile; discriminate.
Qed.

Lemma harvest_anchor_releases_only href count :
  keeps releases_only (ScrapPdf.harvest_anchor L net cfg href count).
Proof.
  intros st. rewrite harvest_anchor_cases.
  destruct (target L cfg href) as [[pdf_url |] | e]; cbn [snd]; try reflexivity.
  destruct (ScrapPdf.sanitize L pdf_url "pdf") as [name | e] eqn:Hn; cbn [snd];
    try reflexivity.
  destruct (bool_decide _) eqn:Hthere; cbn [snd]; [reflexivity |].
  apply download_result_releases_only; [exact Hn |].
  apply bool_decide_eq_false in Hthere. apply eq_None_not_Some, Hthere.
Qed.

Lemma download_result_reports_kept pdf_url name count st :
  ScrapPdf.sanitize L pdf_url "pdf" = Ok name ->
  files st !! (ScrapPdf.RELEASES_DIR +:+ name) = None ->
  reports_kept L net st
    (download_result net pdf_url (ScrapPdf.RELEASES_DIR +:+ name) count st).2.
Proof.
  intros Hn Hfree. unfold download_result.
  assert (Hmsg : forall e, (forall dest url, e <> Downloaded dest url) ->
                           reports_kept L net st (printed e (requested ReleaseGet pdf_url st))).
  { intros e He. split; [auto |]. intros dest url H. left.
    cbn [printed requested trace] in H.
    apply elem_of_cons in H as [H | H]; [exfalso; eapply He; symmetry; exact H |].
    apply elem_of_cons in H as [H | H]; [discriminate | exact H]. }
  assert (Hold : forall p v data,
             files st !! p = Some v ->
             <[ScrapPdf.RELEASES_DIR +:+ name := data]> (files st) !! p = Some v).
  { intros p v data Hp. rewrite lookup_insert_ne; [exact Hp |].
    intros <-. rewrite Hfree in Hp. discriminate. }
  destruct (net (clock st) pdf_url) as [r | e] eqn:Hnet; cbn [snd]; [| apply Hmsg; discriminate].
  destruct (Nat.eqb (status_code r) 403); cbn [snd]; [apply Hmsg; discriminate |].
  destruct (ScrapPdf.first_chunk_of r) as [c |] eqn:Hc; cbn [snd]; [| apply Hmsg; discriminate].
  destruct (ScrapPdf.looks_like_pdf c) eqn:Hpdf; cbn [snd]; [| apply Hmsg; discriminate].
  destruct (negb (chunked r) && truncated r) eqn:Hbroken; cbn [snd].
  - split; [intros p v; apply Hold |]. intros dest url H. left.
    cbn [printed with_files requested trace] in H.
    apply elem_of_cons in H as [H | H]; [discriminate |].
    apply elem_of_cons in H as [H | H]; [discriminate | exact H].
  - split; [intros p v; apply Hold |]. intros dest url H.
    cbn [printed with_files requested trace] in H.
    apply elem_of_cons in H as [H | H].
    + right. inversion H. subst dest url. split; [exact Hfree |].
      destruct (looks_like_pdf_body r c Hc Hpdf) as [rest Hbody].
      exists name, (clock st), r, c. repeat split; auto.
      * rewrite Hbody. reflexivity.
      * intros Hch. rewrite Hch in Hbroken. exact Hbroken.
      * cbn [printed with_files files]. apply lookup_insert_eq.
    + apply elem_of_cons in H as [H | H]; [discriminate | left; exact H].
Qed.

Lemma harvest_anchor_reports_kept href count :
  keeps (reports_kept L net) (ScrapPdf.harvest_anchor L net cfg href count).
Proof.
  intros st. rewrite harvest_anchor_cases.
  destruct (target L cfg href) as [[pdf_url |] | e]; cbn [snd]; try reflexivity.
  destruct (ScrapPdf.sanitize L pdf_url "pdf") as [name | e] eqn:Hn; cbn [snd];
    try reflexivity.
  destruct (bool_decide _) eqn:Hthere; cbn [snd]; [reflexivity |].
  apply download_result_reports_kept; [exact Hn |].
  apply bool_decide_eq_false in Hthere. apply eq_None_not_Some, Hthere.
Qed.

(** The index request and the messages around the loop. *)
Lemma index_fetch_keeps (R : State -> State -> Prop) `{!PreOrder R} :
  (forall st, R st (requested IndexGet (ScrapPdf.BUILD_HISTORY cfg) st)) ->
  (forall e st, R st (printed (IndexFailed e) st)) ->
  (forall n st, R st (printed (Total n) st)) ->
  (forall href count, keeps R (ScrapPdf.harvest_anchor L net cfg href count)) ->
  keeps R (ScrapPdf.download_release_pdfs L net cfg).
Proof.
  intros Hreq Hfail Htotal Hbody. unfold ScrapPdf.download_release_pdfs.
  apply keeps_bind; [exact _ | |].
  - apply keeps_try_except; [exact _ | |].
    + apply keeps_bind; [exact _ | |].
      * intros st. unfold session_get.
        destruct (net (clock st) _) as [r | e]; [destruct (_ && _) |]; apply Hreq.
      * intros r. apply keeps_bind; [exact _ | apply keeps_raise_for_status; exact _ |].
        intros _. apply keeps_ret. exact _.
    + intros e. apply keeps_bind; [exact _ | intros st; apply Hfail |].
      intros _. apply keeps_ret. exact _.
  - intros [resp |]; [| apply keeps_ret; exact _].
    apply keeps_bind; [exact _ | apply keeps_for_fold; [exact _ | exact Hbody] |].
    intros n st. apply Htotal.
Qed.

End Harvester.

(** X13.  Whatever the network answers, [download_release_pdfs] marks no
    URL visited, makes no request from the call sites of the crawlers or of
    the image pass, and leaves every file as it was or creates it as a new
    [.pdf] file below [releases/]: no existing file is changed or
    removed. *)
Theorem harvest_only_adds_release_pdfs :
  forall (L : Library) (net : Network) (cfg : ScrapPdf.Config) (st : State),
    releases_only st (ScrapPdf.download_release_pdfs L net cfg st).2.
Proof.
  intros L net cfg. apply index_fetch_keeps; [exact _ | | | |].
  - intros st. split; [reflexivity | split].
    + intros s Hs _. apply requests_cons_other. congruence.
    + intros p. left. reflexivity.
  - intros e st. apply releases_only_message. discriminate.
  - intros n st. apply releases_only_message. discriminate.
  - apply harvest_anchor_releases_only.
Qed.

(** X14.  Every download that [download_release_pdfs] reports is on the
    disk when it returns or stops: the file named in the message did not
    exist before the run, is named [releases/] followed by the sanitized
    URL, and holds what the download of an answer of the network for that
    URL leaves.  The first chunk of that answer starts with [%PDF]; the
    file holds its whole body, with the stream properly ended, unless the
    body came in chunked transfer encoding: then the file holds the first
    chunk alone. *)
Theorem reported_downloads_are_on_disk :
  forall (L : Library) (net : Network) (cfg : ScrapPdf.Config) (st : State)
         (dest url : string),
    let res := ScrapPdf.download_release_pdfs L net cfg st in
    Downloaded dest url ∈ trace res.2 ->
    Downloaded dest url ∉ trace st ->
    files st !! dest = None /\ holds_download L net (files res.2) dest url.
Proof.
  intros L net cfg st dest url res Hin Hnew.
  assert (H : reports_kept L net st res.2).
  { apply index_fetch_keeps; [exact _ | | | |].
    - intros st0. split; [auto |]. intros d u Hd. left.
      cbn [requested trace] in Hd.
      apply elem_of_cons in Hd as [Hd | Hd]; [discriminate | exact Hd].
    - intros e st0. apply reports_kept_message. discriminate.
    - intros n st0. apply reports_kept_message. discriminate.
    - apply harvest_anchor_reports_kept. }
  destruct H as [_ H]. destruct (H dest url Hin) as [Hold | Hok]; [contradiction | exact Hok].
Qed.

Lemma reported_downloads_are_on_disk_witness :
  let dest := "releases/notes_r1_pdf_d8d24727.pdf" in
  let url := "https://example.com/notes/r1.pdf" in
  let res := ScrapPdf.download_release_pdfs Demo.library Demo.network Demo.config
               (initial ∅) in
  files (initial ∅) !! dest = None /\
  holds_download Demo.library Demo.network (files res.2) dest url.
Proof.
  intros dest url res.
  apply (reported_downloads_are_on_disk Demo.library Demo.network Demo.config (initial ∅)
           dest url).
  - vm_compute. repeat constructor.
  - apply not_elem_of_nil.
Defined.

(** ** The count of the harvester *)

Lemma download_release_pdfs_cases L net cfg st :
  ScrapPdf.download_release_pdfs L net cfg st =
  let st1 := requested IndexGet (ScrapPdf.BUILD_HISTORY cfg) st in
  match page_fetch (net (clock st) (ScrapPdf.BUILD_HISTORY cfg)) with
  | Raise e => (Done tt, printed (IndexFailed e) st1)
  | Ok resp =>
      bind (for_fold (ScrapPdf.harvest_anchor L net cfg)
              (Bs4.find_all_a_href (html_parser L (content resp))) 0)
           (fun count => print (Total count)) st1
  end.
Proof.
  unfold ScrapPdf.download_release_pdfs, bind at 1, try_except, bind at 1, session_get,
    page_fetch, requested.
  destruct (net (clock st) (ScrapPdf.BUILD_HISTORY cfg)) as [resp | e]; simpl; [| reflexivity].
  destruct (truncated resp); simpl; [reflexivity |].
  unfold bind at 1, raise_for_status.
  destruct (_ && _); simpl; reflexivity.
Qed.

Lemma download_result_counts net pdf_url dest count st :
  (download_result net pdf_url dest count st).1 + downloads (trace st)
  = count + downloads (trace (download_result net pdf_url dest count st).2).
Proof.
  unfold download_result.
  destruct (net (clock st) pdf_url) as [r | e]; [| reflexivity].
  destruct (Nat.eqb (status_code r) 403); [reflexivity |].
  destruct (ScrapPdf.first_chunk_of r) as [c |]; [| reflexivity].
  destruct (ScrapPdf.looks_like_pdf c); [| reflexivity].
  destruct (negb (chunked r) && truncated r); [reflexivity |].
  cbn [fst snd printed with_files requested trace downloads]. lia.
Qed.

Lemma harvest_anchor_counts L net cfg href count st n st' :
  ScrapPdf.harvest_anchor L net cfg href count st = (Done n, st') ->
  n + downloads (trace st) = count + downloads (trace st').
Proof.
  rewrite harvest_anchor_cases.
  destruct (target L cfg href) as [[pdf_url |] | e]; [| | discriminate].
  - destruct (ScrapPdf.sanitize L pdf_url "pdf") as [name | e]; [| discriminate].
    destruct (bool_decide _).
    + intros H. inversion H. reflexivity.
    + intros H. inversion H. apply download_result_counts.
  - intros H. inversion H. reflexivity.
Qed.

Lemma for_fold_counts L net cfg hrefs :
  forall count st n st',
    for_fold (ScrapPdf.harvest_anchor L net cfg) hrefs count st = (Done n, st') ->
    n + downloads (trace st) = count + downloads (trace st').
Proof.
  induction hrefs as [| href hrefs IH]; intros count st n st'.
  - intros H. inversion H. reflexivity.
  - cbn [for_fold]. unfold bind at 1.
    destruct (ScrapPdf.harvest_anchor L net cfg href count st) as [[c | e |] st1] eqn:Hone;
      [| discriminate | discriminate].
    intros Hrest. apply harvest_anchor_counts in Hone. apply IH in Hrest. lia.
Qed.

(** X15.  When the index page is fetched and [download_release_pdfs]
    returns, the last thing it prints is the total, and the total is the
    number of downloads that the run reported: skipped, refused, failed and
    already present files are not counted. *)
Theorem total_is_number_of_downloads :
  forall (L : Library) (net : Network) (cfg : ScrapPdf.Config) (st : State)
         (resp : Response),
    page_fetch (net (clock st) (ScrapPdf.BUILD_HISTORY cfg)) = Ok resp ->
    let res := ScrapPdf.download_release_pdfs L net cfg st in
    res.1 = Done tt ->
    exists n rest,
      trace res.2 = Total n :: rest /\ downloads rest = n + downloads (trace st).
Proof.
  intros L net cfg st resp Hfetch res. subst res.
  rewrite download_release_pdfs_cases, Hfetch. cbv zeta. unfold bind.
  destruct (for_fold _ _ _ _) as [[n | e |] st1] eqn:Hloop; cbn [fst];
    [| discriminate | discriminate].
  intros _. exists n, (trace st1). split; [reflexivity |].
  apply for_fold_counts in Hloop. cbn [requested trace downloads] in Hloop. lia.
Qed.

Lemma total_is_number_of_downloads_witness :
  let res := ScrapPdf.download_release_pdfs Demo.library Demo.network Demo.config
               (initial ∅) in
  exists n rest,
    trace res.2 = Total n :: rest /\ downloads rest = n + downloads (trace (initial ∅)).
Proof.
  apply (total_is_number_of_downloads Demo.library Demo.network Demo.config (initial ∅)
           {| status_code := 200; content_type := Some "text/html"; body := ["INDEX"];
              chunked := false; truncated := false |}).
  - reflexivity.
  - vm_compute. reflexivity.
Defined.

(** ** What can stop the harvester *)






(** ** The two internal-link predicates, compared *)

(** X17.  With the same start page, every link that [is_internal] of
    [scrap_pdf.py] accepts is accepted by [is_internal] of
    [scrap_wiki.py]. *)
Theorem exact_internal_is_endswith_internal :
  forall (L : Library) (cfg : ScrapPdf.Config) (base link : string),
    ScrapWiki.base_netloc L (ScrapPdf.ROOT_URL cfg) = Ok base ->
    ScrapPdf.is_internal L cfg link = Ok true ->
    ScrapWiki.is_internal L base link = Ok true.
Proof.
  intros L cfg base link Hbase. unfold ScrapWiki.base_netloc in Hbase.
  unfold ScrapPdf.is_internal, ScrapWiki.is_internal.
  destruct (Urllib.urlparse L link) as [p | e]; cbn [rbind]; [| discriminate].
  destruct (is_empty (Urllib.netloc p)); [reflexivity |].
  destruct (Urllib.urlparse L (ScrapPdf.ROOT_URL cfg)) as [r | e]; cbn [rbind] in *;
    [| discriminate].
  apply Ok_inj in Hbase. subst base.
  intros H. apply Ok_inj in H. apply bool_decide_eq_true in H. rewrite H.
  rewrite <- (append_nil (Urllib.netloc r)) at 2. rewrite endswith_app. reflexivity.
Qed.

Lemma exact_internal_is_endswith_internal_witness :
  ScrapWiki.is_internal Demo.library "example.com" "https://example.com/a" = Ok true.
Proof.
  apply (exact_internal_is_endswith_internal Demo.library Demo.config); reflexivity.
Defined.

(** ** The direct-download link, rewritten again *)

Lemma take_while_all p s : forallb_s p (take_while p s) = true.
Proof.
  induction s as [| c s IH]; [reflexivity |]. simpl.
  destruct (p c) eqn:Hc; [| reflexivity]. simpl. rewrite Hc. exact IH.
Qed.

(** What [search_d] finds is a non-empty run of id characters. *)
Lemma search_d_id s id :
  ScrapPdf.search_d s = Some id -> id <> "" /\ forallb_s ScrapPdf.id_char id = true.
Proof.
  induction s as [| c s IH]; [discriminate |]. rewrite search_d_cons.
  destruct (segment_here (String c s)) eqn:Hseg; [| exact IH].
  apply segment_here_inv in Hseg as (d & rest & Heq & Hd). rewrite Heq.
  change (drop 3 ("/d/" +:+ String d rest)) with (String d rest).
  intros H. injection H as <-.
  split; [rewrite Hd; discriminate |].
  apply (take_while_all ScrapPdf.id_char (String d rest)).
Qed.

Lemma id_char_not_slash c : ScrapPdf.id_char c = true -> Ascii.eqb c "/" = false.
Proof.
  intros H. destruct (Ascii.eqb c "/") eqn:Hc; [| reflexivity].
  apply Ascii.eqb_eq in Hc. subst c. discriminate.
Qed.

Lemma search_d_id_chars id :
  forallb_s ScrapPdf.id_char id = true -> ScrapPdf.search_d id = None.
Proof.
  induction id as [| c id IH]; [reflexivity |]. simpl forallb_s. intros H.
  apply andb_true_iff in H as [Hc Hid]. rewrite search_d_cons.
  assert (Hseg : segment_here (String c id) = false).
  { unfold segment_here. rewrite startswith_cons.
    rewrite Ascii.eqb_sym, (id_char_not_slash c Hc). reflexivity. }
  rewrite Hseg. apply IH, Hid.
Qed.

Ltac skip_char :=
  rewrite search_d_cons;
  match goal with
  | |- context [segment_here ?x] => replace (segment_here x) with false by reflexivity
  end.

(** The direct-download form has no [/d/] segment. *)
Lemma search_d_direct_link id :
  forallb_s ScrapPdf.id_char id = true ->
  ScrapPdf.search_d (ScrapPdf.direct_link id) = None.
Proof.
  intros Hid. unfold ScrapPdf.direct_link. push_app.
  do 47 skip_char. apply search_d_id_chars, Hid.
Qed.

Lemma id_char_printable c :
  ScrapPdf.id_char c = true -> negb (Urllib.c0_or_space c) = true.
Proof.
  unfold ScrapPdf.id_char, is_alnum, is_alpha, is_upper, is_lower, is_digit, between,
    Urllib.c0_or_space.
  intros H. apply negb_true_iff, N.leb_gt.
  repeat match type of H with
         | (_ || _) = true => apply orb_true_iff in H as [H | H]
         | (_ && _) = true => apply andb_true_iff in H as [H _]; apply N.leb_le in H
         end; try lia;
    apply Ascii.eqb_eq in H; subst c; reflexivity.
Qed.

Lemma has_char_app c a b : has_char c (a +:+ b) = has_char c a || has_char c b.
Proof.
  induction a as [| x a IH]; push_app; [reflexivity |].
  rewrite !has_char_cons, IH, orb_assoc. reflexivity.
Qed.

Lemma split_cons c b r :
  has_char c b = false -> split c (b +:+ String c r) = b :: split c r.
Proof.
  intros H. induction b as [| a b IH]; push_app.
  - simpl. rewrite Ascii.eqb_refl. reflexivity.
  - rewrite has_char_cons in H. apply orb_false_iff in H as [Ha Hb].
    rewrite Ascii.eqb_sym in Ha. simpl. rewrite Ha, (IH Hb). reflexivity.
Qed.

(** The field [id] of the query of the direct-download form. *)
Lemma qs_first_direct_link L id :
  id <> "" -> forallb_s ScrapPdf.id_char id = true ->
  Urllib.qs_first L "id" (before "#" ("export=download&id=" +:+ id)) = Some id.
Proof.
  intros Hne Hid. pose proof (id_lacks id Hid) as Hl.
  assert (Hhash : has_char "#" ("export=download&id=" +:+ id) = false).
  { rewrite has_char_app. rewrite (has_char_lacks "#" _ id Hl) by reflexivity. reflexivity. }
  assert (Hamp : has_char "&" ("id=" +:+ id) = false).
  { rewrite has_char_app. rewrite (has_char_lacks "&" _ id Hl) by reflexivity. reflexivity. }
  unfold before. rewrite (cut_absent "#" _ Hhash).
  change ("export=download&id=" +:+ id)
    with ("export=download" +:+ String "&" ("id=" +:+ id)).
  unfold Urllib.qs_first, Urllib.parse_qsl.
  rewrite split_cons by reflexivity. rewrite (split_none "&" _ Hamp).
  cbn [flat_map].
  change (cut "=" "export=download") with (Some ("export", "download")).
  change (cut "=" ("id=" +:+ id)) with (Some ("id", id)).
  destruct id as [| c id]; [contradiction |].
  cbn [is_empty]. rewrite (unquote_plus_plain L (String c id) Hl).
  change (Urllib.unquote_plus L "export") with "export".
  change (Urllib.unquote_plus L "download") with "download".
  change (Urllib.unquote_plus L "id") with "id".
  cbn [app]. rewrite filter_cons_False by discriminate.
  rewrite filter_cons_True by reflexivity. reflexivity.
Qed.

Lemma direct_link_stable L id parsed :
  id <> "" -> forallb_s ScrapPdf.id_char id = true ->
  Urllib.urlparse L (ScrapPdf.direct_link id) = Ok parsed ->
  ScrapPdf.get_drive_direct_link L (ScrapPdf.direct_link id)
  = Ok (ScrapPdf.direct_link id).
Proof.
  intros Hne Hid Hp.
  rewrite (get_drive_direct_link_by_query L _ parsed (search_d_direct_link id Hid) Hp).
  assert (Hq : Urllib.query parsed = before "#" ("export=download&id=" +:+ id)).
  { apply (urlparse_query L "https://drive.google.com/uc" _ parsed); [| reflexivity | exact Hp].
    change ("https://drive.google.com/uc" +:+ String "?" ("export=download&id=" +:+ id))
      with ("https://drive.google.com/uc?export=download&id=" +:+ id).
    unfold printable. rewrite forallb_s_app. apply andb_true_iff. split; [reflexivity |].
    apply (forallb_s_impl ScrapPdf.id_char); [apply id_char_printable | exact Hid]. }
  rewrite Hq, (qs_first_direct_link L id Hne Hid).
  destruct id; [contradiction | reflexivity].
Qed.

(** X18.  Rewriting is stable on share links: when an href with a [/d/]
    segment is rewritten to a link that [urlparse] accepts, rewriting that
    link again returns it unchanged. *)
Theorem drive_rewrite_is_stable :
  forall (L : Library) (href u : string) (parsed : Urllib.ParseResult),
    has_drive_segment href ->
    ScrapPdf.get_drive_direct_link L href = Ok u ->
    Urllib.urlparse L u = Ok parsed ->
    ScrapPdf.get_drive_direct_link L u = Ok u.
Proof.
  intros L href u parsed Hseg Hu Hp.
  destruct (ScrapPdf.search_d href) as [id |] eqn:Hs.
  - destruct (search_d_id href id Hs) as [Hne Hid].
    rewrite (get_drive_direct_link_by_path L href id Hs Hne) in Hu.
    apply Ok_inj in Hu. subst u. apply (direct_link_stable L id parsed); assumption.
  - apply search_d_None_iff in Hs. contradiction.
Qed.

Lemma drive_rewrite_is_stable_witness :
  ScrapPdf.get_drive_direct_link Demo.library
    "https://drive.google.com/uc?export=download&id=ABC123"
  = Ok "https://drive.google.com/uc?export=download&id=ABC123".
Proof.
  apply (drive_rewrite_is_stable Demo.library
           "https://drive.google.com/file/d/ABC123/view"
           "https://drive.google.com/uc?export=download&id=ABC123"
           {| Urllib.scheme := "https"; Urllib.netloc := "drive.google.com";
              Urllib.path := "/uc"; Urllib.params := "";
              Urllib.query := "export=download&id=ABC123"; Urllib.fragment := "" |}).
  - exists "https://drive.google.com/file", "A"%char, "BC123/view". split; reflexivity.
  - reflexivity.
  - reflexivity.
Defined.

(** ** The text files of [scrap_wiki.py] *)

(** [save_text], case by case. *)
Lemma save_text_cases L url s st :
  ScrapWiki.save_text L url s st =
  match container s with
  | None => (Raised AttributeError, st)
  | Some c =>
      match Urllib.urlparse L url with
      | Raise e => (Raised e, st)
      | Ok parsed =>
          (Done tt, printed (SavedText (text_file parsed))
                      (written (text_file parsed) (get_text L c) st))
      end
  end.
Proof.
  unfold ScrapWiki.save_text, container, bind at 1.
  destruct (Bs4.soup_find ScrapWiki.is_grid_row s) as [c |];
    [| destruct (Bs4.soup_find ScrapWiki.is_body s) as [c |]; [| reflexivity]];
    cbn [ret raise]; unfold bind at 1;
    (destruct (Urllib.urlparse L url) as [parsed | e]; [| reflexivity]);
    reflexivity.
Qed.

Lemma replace_char_removes a b s : Ascii.eqb b a = false -> has_char a (replace_char a b s) = false.
Proof.
  intros Hab. induction s as [| c s IH]; [reflexivity |]. simpl replace_char.
  rewrite has_char_cons, IH, orb_false_r.
  destruct (Ascii.eqb c a) eqn:Hc; [rewrite Ascii.eqb_sym; exact Hab |].
  rewrite Ascii.eqb_sym. exact Hc.
Qed.

Lemma text_file_flat parsed :
  has_char "/" (text_file parsed) = false /\ endswith ".txt" (text_file parsed) = true.
Proof.
  unfold text_file. split; [| apply endswith_app].
  rewrite has_char_app. unfold or_default.
  destruct (is_empty _); [reflexivity |].
  rewrite replace_char_removes by reflexivity. reflexivity.
Qed.

#[global] Instance text_only_preorder : PreOrder text_only.
Proof.
  split.
  - intros st p. left. reflexivity.
  - intros a b c Hab Hbc p.
    destruct (Hbc p) as [Hbc1 | Hnew]; [| right; exact Hnew].
    destruct (Hab p) as [Hab1 | (Hs & He & Hsome)]; [left; congruence | right].
    rewrite Hbc1. auto.
Qed.

Lemma text_only_same st st' : files st' = files st -> text_only st st'.
Proof. intros H p. left. rewrite H. reflexivity. Qed.

Lemma save_text_text_only L url s : keeps text_only (ScrapWiki.save_text L url s).
Proof.
  intros st. rewrite save_text_cases.
  destruct (container s) as [c |]; [| reflexivity].
  destruct (Urllib.urlparse L url) as [parsed | e]; [| reflexivity].
  intros p. cbn [snd printed written files].
  destruct (decide (p = text_file parsed)) as [-> | Hp].
  - right. destruct (text_file_flat parsed) as [Hs He].
    split; [exact Hs | split; [exact He |]]. rewrite lookup_insert_eq. eauto.
  - left. apply lookup_insert_ne. congruence.
Qed.

Lemma crawl_page_text_only L net base fuel :
  forall url, keeps text_only (ScrapWiki.crawl_page L net base fuel url).
Proof.
  induction fuel as [| fuel IH]; intros url st; [simpl; reflexivity |].
  destruct (decide (url ∈ visited st)) as [Hin | Hnew].
  - rewrite crawl_page_visited by exact Hin. reflexivity.
  - rewrite crawl_page_step by exact Hnew.
    etransitivity; [apply (text_only_same st (visit WikiGet url (printed (Crawling url) st)));
                    reflexivity |].
    destruct (page_fetch _) as [resp | e]; [| reflexivity].
    apply (keeps_bind text_only); [apply save_text_text_only |].
    intros _. apply keeps_for_each; [exact _ |].
    intros a_href. apply follow_nav_keeps; [exact _ | exact IH].
Qed.

(** X19.  Whatever the site answers, [crawl_page] removes no file, and
    every file it creates or changes is a [.txt] file whose name has no
    [/]: the pages are saved side by side in the output directory. *)
Theorem crawl_page_writes_flat_text_files :
  forall (L : Library) (net : Network) (base : string) (fuel : nat) (url : string)
         (st : State),
    text_only st (ScrapWiki.crawl_page L net base fuel url st).2 /\
    forall p, is_Some (files st !! p) ->
              is_Some (files (ScrapWiki.crawl_page L net base fuel url st).2 !! p).
Proof.
  intros L net base fuel url st.
  pose proof (crawl_page_text_only L net base fuel url st) as H.
  split; [exact H |]. intros p Hp.
  destruct (H p) as [Heq | (_ & _ & Hsome)]; [rewrite Heq; exact Hp | exact Hsome].
Qed.

(** X20.  The file of a page is named after the path of its URL only, with
    [/] turned into [_], so pages share a file when their paths differ in
    that way, or differ only in the host, the query or the fragment: saving
    a second such page leaves the disk as if the first page had never been
    saved. *)
Theorem save_text_same_name_overwrites :
  forall (L : Library) (url1 url2 : string) (s1 s2 : soup) (c1 c2 : node)
         (p1 p2 : Urllib.ParseResult) (st : State),
    Urllib.urlparse L url1 = Ok p1 -> Urllib.urlparse L url2 = Ok p2 ->
    or_default (replace_char "/" "_" (strip is_slash (Urllib.path p1))) "home"
    = or_default (replace_char "/" "_" (strip is_slash (Urllib.path p2))) "home" ->
    container s1 = Some c1 -> container s2 = Some c2 ->
    let st1 := (ScrapWiki.save_text L url1 s1 st).2 in
    files (ScrapWiki.save_text L url2 s2 st1).2
    = files (ScrapWiki.save_text L url2 s2 st).2 /\
    files (ScrapWiki.save_text L url2 s2 st1).2 !! text_file p1 = Some (get_text L c2).
Proof.
  intros L url1 url2 s1 s2 c1 c2 p1 p2 st Hp1 Hp2 Hname Hc1 Hc2 st1. subst st1.
  assert (Hfile : text_file p1 = text_file p2) by (unfold text_file; rewrite Hname; reflexivity).
  rewrite !save_text_cases, Hc1, Hc2, Hp1, Hp2. cbn [snd printed written files].
  rewrite Hfile. split; [apply insert_insert_eq | apply lookup_insert_eq].
Qed.

Lemma save_text_same_name_overwrites_witness :
  let L := Demo.library in
  let body := Tag "body" [] [] in
  let st1 := (ScrapWiki.save_text L "https://example.com/a/b" [body] (initial ∅)).2 in
  files (ScrapWiki.save_text L "https://example.com/a_b?page=2" [body] st1).2
  = files (ScrapWiki.save_text L "https://example.com/a_b?page=2" [body] (initial ∅)).2 /\
  files (ScrapWiki.save_text L "https://example.com/a_b?page=2" [body] st1).2
    !! text_file {| Urllib.scheme := "https"; Urllib.netloc := "example.com";
                    Urllib.path := "/a/b"; Urllib.params := ""; Urllib.query := "";
                    Urllib.fragment := "" |}
  = Some (get_text L body).
Proof.
  intros L body st1.
  apply (save_text_same_name_overwrites L "https://example.com/a/b"
           "https://example.com/a_b?page=2" [body] [body] body body
           {| Urllib.scheme := "https"; Urllib.netloc := "example.com";
              Urllib.path := "/a/b"; Urllib.params := ""; Urllib.query := "";
              Urllib.fragment := "" |}
           {| Urllib.scheme := "https"; Urllib.netloc := "example.com";
              Urllib.path := "/a_b"; Urllib.params := ""; Urllib.query := "page=2";
              Urllib.fragment := "" |} (initial ∅)); reflexivity.
Defined.

(** X21.  A fetched page whose document has neither the form row nor a
    [body] stops [crawl_page] with an [AttributeError]: the page is marked
    and requested, but no file is written and none of its links is
    followed. *)
Theorem page_without_body_stops_crawl_page :
  forall (L : Library) (net : Network) (base : string) (fuel : nat) (url : string)
         (st : State) (resp : Response),
    url ∉ visited st ->
    page_fetch (net (clock st) url) = Ok resp ->
    container (html_parser L (content resp)) = None ->
    ScrapWiki.crawl_page L net base (S fuel) url st
    = (Raised AttributeError, visit WikiGet url (printed (Crawling url) st)).
Proof.
  intros L net base fuel url st resp Hnew Hfetch Hnone.
  rewrite crawl_page_step by exact Hnew. rewrite Hfetch.
  unfold bind. rewrite save_text_cases, Hnone. reflexivity.
Qed.

Lemma page_without_body_stops_crawl_page_witness :
  ScrapWiki.crawl_page Demo.library bare_network "example.com" 1
    "https://example.com/" (initial ∅)
  = (Raised AttributeError,
     visit WikiGet "https://example.com/"
       (printed (Crawling "https://example.com/") (initial ∅))).
Proof.
  apply (page_without_body_stops_crawl_page Demo.library bare_network "example.com" 0
           "https://example.com/" (initial ∅)
           {| status_code := 200; content_type := Some "text/html"; body := ["nothing"];
              chunked := false; truncated := false |}).
  - apply not_elem_of_empty.
  - reflexivity.
  - reflexivity.
Defined.
